(** * FINTEL AI: compliance scorer, GST format check and document store

    A shallow embedding of the rule-based core of the repository
    ([gst_verifier.py], [hsn_sac_verifier.py], [gemini_vision_ocr.py],
    [fintel_api_fixed.py], [database.py]), the properties of the
    specification that were checked against it, and further properties of
    the code.

    Conventions of the embedding:
    - a Python [str] is a [string] of ASCII characters: on them [upper],
      [lower] and [split] are Python's; a statement that depends on it
      carries the condition [all_chars is_ascii];
    - a Python [float] is a binary64 value (the kernel's [float]); where a
      bound on a rounding error is needed it is derived from the
      specification of its operations ([FloatAxioms], [SpecFloat]);
    - [x.get(k)] that may be [None] is an [option]; where the code tells a
      key that is absent from one whose value is [null], the key is a
      [Json.field];
    - an exception escaping a function is the result [None] of the function
      that embeds it;
    - [datetime.now()] is an explicit argument [now], a number of
      microseconds;
    - the answer of an HTTP API, and a library call the embedding does not
      define, is an argument of the function that makes the call;
    - the file system and the connection to the database do not fail. *)

From Stdlib Require Import ZArith Rbase Rbasic_fun Rfunctions Lra Lia.
From Stdlib Require Import Floats Uint63 List Ascii String.
From stdpp Require Import gmap strings list sorting.
From Equations Require Import Equations.

Set Warnings "-inexact-float".

(** ** Python strings *)

Module PyStr.

Definition code (c : ascii) : N := N_of_ascii c.

Definition in_range (lo hi : N) (c : ascii) : bool :=
  (lo <=? code c)%N && (code c <=? hi)%N.

(** [[0-9]] *)
Definition is_digit : ascii -> bool := in_range 48 57.
(** [[1-9]] *)
Definition is_digit19 : ascii -> bool := in_range 49 57.
(** [[A-Z]] *)
Definition is_upper : ascii -> bool := in_range 65 90.
(** [[a-z]] *)
Definition is_lower : ascii -> bool := in_range 97 122.

Definition is_char (x : ascii) (c : ascii) : bool := (code c =? code x)%N.

(** The characters of ASCII. *)
Definition is_ascii (c : ascii) : bool := (code c <? 128)%N.

(** [c.upper()] on one ASCII character. A character outside ASCII is left as
    it is, where Python maps some to other characters, or to two of them (the
    sharp s to SS). *)
Definition upper_char (c : ascii) : ascii :=
  if is_lower c then ascii_of_N (code c - 32) else c.

(** [s.upper()], for a string of ASCII characters. *)
Fixpoint upper (s : string) : string :=
  match s with
  | EmptyString => EmptyString
  | String c r => String (upper_char c) (upper r)
  end.

(** [s.replace(x, '')] for a one-character [x]. *)
Fixpoint remove_char (x : ascii) (s : string) : string :=
  match s with
  | EmptyString => EmptyString
  | String c r => if is_char x c then remove_char x r else String c (remove_char x r)
  end.

(** [len(s)] *)
Definition len (s : string) : Z := Z.of_nat (String.length s).

(** [bool(s)]: a string is true when it is not empty. *)
Definition truthy (s : string) : bool :=
  match s with EmptyString => false | _ => true end.

(** [bool(d.get(k))] for a string field that may be [None]. *)
Definition truthy_opt (o : option string) : bool :=
  match o with Some s => truthy s | None => false end.

(** A regular expression of the shape [^C1 C2 ... Cn$], every [Ci] a
    character class, as [re.match] runs it: the classes consume one character
    each, and [$] accepts the end of the string or one final newline. *)
Fixpoint re_match_classes (classes : list (ascii -> bool)) (s : string) : bool :=
  match classes with
  | [] =>
      match s with
      | EmptyString => true
      | String c EmptyString => is_char "010"%char c
      | _ => false
      end
  | cl :: rest =>
      match s with
      | EmptyString => false
      | String c r => cl c && re_match_classes rest r
      end
  end.

(** Every character of [s] is in the class [p]. *)
Fixpoint all_chars (p : ascii -> bool) (s : string) : bool :=
  match s with
  | EmptyString => true
  | String c r => p c && all_chars p r
  end.

(** [c.lower()] on one ASCII character. *)
Definition lower_char (c : ascii) : ascii :=
  if is_upper c then ascii_of_N (code c + 32) else c.

(** [s.lower()], for a string of ASCII characters. *)
Fixpoint lower (s : string) : string :=
  match s with
  | EmptyString => EmptyString
  | String c r => String (lower_char c) (lower r)
  end.

(** [s.startswith(p)] *)
Fixpoint startswith (p s : string) : bool :=
  match p with
  | EmptyString => true
  | String a p' =>
      match s with
      | EmptyString => false
      | String b s' => is_char a b && startswith p' s'
      end
  end.

(** [needle in hay] *)
Fixpoint contains (needle hay : string) : bool :=
  startswith needle hay ||
  match hay with
  | EmptyString => false
  | String _ r => contains needle r
  end.

(** The whitespace of [str.split()]: space, tab, newline, vertical tab,
    form feed, carriage return and the four separators 28 to 31. *)
Definition is_space (c : ascii) : bool :=
  is_char " "%char c || in_range 9 13 c || in_range 28 31 c.

(** [s.split()], with the word being read in [word]. *)
Fixpoint split_from (word : string) (s : string) : list string :=
  match s with
  | EmptyString => if truthy word then [word] else []
  | String c r =>
      if is_space c
      then (if truthy word then word :: split_from EmptyString r else split_from EmptyString r)
      else split_from (word ++ String c EmptyString) r
  end.

Definition split (s : string) : list string := split_from EmptyString s.

(** [''.join(filter(p, s))] *)
Fixpoint filter_chars (p : ascii -> bool) (s : string) : string :=
  match s with
  | EmptyString => EmptyString
  | String c r => if p c then String c (filter_chars p r) else filter_chars p r
  end.

(** The text a pattern [C1 C2 ... Cn] of character classes matches at the
    start of [s]. *)
Fixpoint match_here (classes : list (ascii -> bool)) (s : string) : option string :=
  match classes with
  | [] => Some EmptyString
  | cl :: rest =>
      match s with
      | EmptyString => None
      | String c r => if cl c then String c <$> match_here rest r else None
      end
  end.

(** [re.search] for such a pattern: the match at the first position that
    has one. *)
Fixpoint re_search_classes (classes : list (ascii -> bool)) (s : string) : option string :=
  match match_here classes s with
  | Some m => Some m
  | None =>
      match s with
      | EmptyString => None
      | String _ r => re_search_classes classes r
      end
  end.

End PyStr.

(** ** HTTP calls *)

Module Http.

(** What [requests.get(...)] followed by [response.json()] gives: a timeout,
    another exception, or a status code with the decoded body ([None] when
    the body is not JSON, which raises). *)
Inductive outcome (J : Type) :=
| Timeout
| Failed
| Response (status_code : Z) (json : option J).

Arguments Timeout {J}.
Arguments Failed {J}.
Arguments Response {J} status_code json.

End Http.

(** ** JSON objects *)

Module Json.

(** What an object read from JSON holds under a key: nothing, [null], or a
    value of the type expected there. *)
Inductive field (A : Type) :=
| Missing
| Null
| Value (a : A).

Arguments Missing {A}.
Arguments Null {A}.
Arguments Value {A} a.

(** [d.get(k, default)]; [None] is Python's [None]. *)
Definition get_or {A} (f : field A) (default : A) : option A :=
  match f with
  | Missing => Some default
  | Null => None
  | Value a => Some a
  end.

(** [k in d] *)
Definition present {A} (f : field A) : bool :=
  match f with Missing => false | _ => true end.

(** [d.get(k, default) is None] *)
Definition is_null {A} (f : field A) : bool :=
  match f with Null => true | _ => false end.

End Json.

(** ** gst_verifier.py *)

Module GstVerifier.
Import PyStr.

(** [r'^[0-9]{2}[A-Z]{5}[0-9]{4}[A-Z]{1}[1-9A-Z]{1}[Z]{1}[0-9A-Z]{1}$'] *)
Definition gst_pattern : list (ascii -> bool) :=
  repeat is_digit 2 ++ repeat is_upper 5 ++ repeat is_digit 4 ++
  [ is_upper;
    (fun c => is_digit19 c || is_upper c);
    is_char "Z"%char;
    (fun c => is_digit c || is_upper c) ].

(** [GSTVerifier.validate_gst_format] *)
Definition validate_gst_format (gst_number : string) : bool :=
  if negb (truthy gst_number) then false
  else
    let gst_number := upper (remove_char " "%char gst_number) in
    if negb (len gst_number =? 15)%Z then false
    else re_match_classes gst_pattern gst_number.

(** The canonical pattern in the words of the specification: 2 digits,
    5 uppercase letters, 4 digits, 1 uppercase letter, 1 alphanumeric,
    the literal Z, 1 alphanumeric; alphanumeric read as a digit or an
    uppercase letter. *)
Definition spec_alnum (c : ascii) : bool := is_digit c || is_upper c.

Definition spec_canonical_gst (s : string) : bool :=
  match list_ascii_of_string s with
  | [d1; d2; l1; l2; l3; l4; l5; n1; n2; n3; n4; p; e; z; k] =>
      is_digit d1 && is_digit d2 &&
      is_upper l1 && is_upper l2 && is_upper l3 && is_upper l4 && is_upper l5 &&
      is_digit n1 && is_digit n2 && is_digit n3 && is_digit n4 &&
      is_upper p && spec_alnum e && is_char "Z"%char z && spec_alnum k
  | _ => false
  end.

(** The pattern the code accepts, position by position: as above, except that
    the entity character (position 13) is one of 1-9 or A-Z. *)
Definition code_canonical_gst (s : string) : bool :=
  match list_ascii_of_string s with
  | [d1; d2; l1; l2; l3; l4; l5; n1; n2; n3; n4; p; e; z; k] =>
      is_digit d1 && is_digit d2 &&
      is_upper l1 && is_upper l2 && is_upper l3 && is_upper l4 && is_upper l5 &&
      is_digit n1 && is_digit n2 && is_digit n3 && is_digit n4 &&
      is_upper p && (is_digit19 e || is_upper e) && is_char "Z"%char z && spec_alnum k
  | _ => false
  end.

(** [GSTVerifier.clean_gst_number] *)
Definition clean_gst_number (gst_number : string) : option string :=
  if negb (truthy gst_number) then None
  else
    let cleaned := upper (remove_char " "%char gst_number) in
    if (len cleaned =? 15)%Z then Some cleaned
    else if (15 <? len cleaned)%Z then re_search_classes gst_pattern cleaned
    else None.

(** The body of the GST API: [success], and under [data] the status
    [sts], the legal name [lgnm] and the trade name [tradeName]. The other
    keys of [data] are copied to the result and read by nothing. *)
Record gst_api_body := {
  api_success : bool;
  sts : Json.field string;
  lgnm : Json.field string;
  tradeName : Json.field string
}.

(** The reason a verification carries under ['error']; the message is its
    rendering. *)
Inductive gst_error :=
| MustBe15Characters
| InvalidFormat
| NotInGovernmentDatabase
| NotFound
| RateLimitExceeded
| ApiError (status_code : Z)
| ApiTimeout
| VerificationFailed.

(** The dictionary [verify_gst] returns. [is_valid] is [True], [False] or
    [None]; [status] is what [.get('status')] gives, [None] for a status
    that is absent or [null]; [is_active] is false when absent; the two
    names are absent from a failure and may be [null] in a success. *)
Record gst_result := {
  success : bool;
  is_valid : option bool;
  gst_number : string;
  status : option string;
  is_active : bool;
  legal_name : Json.field string;
  trade_name : Json.field string;
  error : option gst_error
}.

Definition gst_failure (valid : option bool) (number : string) (e : gst_error) : gst_result :=
  {| success := false; is_valid := valid; gst_number := number; status := None;
     is_active := false; legal_name := Json.Missing; trade_name := Json.Missing;
     error := Some e |}.

(** [gst_data.get(k, default)] as a key of the result: it is there, with
    the default when [k] is absent. *)
Definition copied (f : Json.field string) (default : string) : Json.field string :=
  match f with
  | Json.Missing => Json.Value default
  | _ => f
  end.

Definition or_default (o : option string) (d : string) : string :=
  match o with Some s => s | None => d end.

(** [GSTVerifier.verify_gst]; [api] is the call to RapidAPI for a GST
    number. *)
Definition verify_gst (api : string -> Http.outcome gst_api_body) (gst_number : string)
  : gst_result :=
  match clean_gst_number gst_number with
  | None => gst_failure (Some false) gst_number MustBe15Characters
  | Some cleaned_gst =>
      if negb (validate_gst_format cleaned_gst)
      then gst_failure (Some false) cleaned_gst InvalidFormat
      else
        let gst_number := cleaned_gst in
        match api gst_number with
        | Http.Response status_code body =>
            if (status_code =? 200)%Z then
              match body with
              | Some data =>
                  if api_success data then
                    {| success := true;
                       is_valid := Some true;
                       gst_number := gst_number;
                       status := Json.get_or (sts data) "Unknown";
                       is_active := match sts data with
                                    | Json.Value s => String.eqb s "Active"
                                    | _ => false
                                    end;
                       legal_name := copied (lgnm data) EmptyString;
                       trade_name := copied (tradeName data) EmptyString;
                       error := None |}
                  else gst_failure (Some false) gst_number NotInGovernmentDatabase
              | None => gst_failure None gst_number VerificationFailed
              end
            else if (status_code =? 404)%Z then gst_failure (Some false) gst_number NotFound
            else if (status_code =? 429)%Z then gst_failure None gst_number RateLimitExceeded
            else gst_failure None gst_number (ApiError status_code)
        | Http.Timeout => gst_failure None gst_number ApiTimeout
        | Http.Failed => gst_failure None gst_number VerificationFailed
        end
  end.

(** The reason of a refusal; the message is its rendering, with the vendor
    name as it was given and the legal name in lowercase. *)
Inductive refusal :=
| GstVerificationFailed
| NamesDiffer (vendor_name legal_name : string).

(** The dictionary [check_vendor_name_match] returns. *)
Record name_match := {
  matched : bool;
  matched_with : option string;
  ratio : option float;
  reason : option refusal
}.

Definition no_match (why : refusal) : name_match :=
  {| matched := false; matched_with := None; ratio := None; reason := Some why |}.

(** The keys ['match'], ['matched_with'] and ['ratio'] of the dictionary. *)
Definition verdict (m : name_match) : bool * option string * option float :=
  (matched m, matched_with m, ratio m).

(** [len(l)] as a float. *)
Definition float_of_len {A} (l : list A) : float :=
  PrimFloat.of_uint63 (Uint63.of_Z (Z.of_nat (length l))).

(** [GSTVerifier.check_vendor_name_match]; the sets of words are lists
    without repetition. [None]: it raises, on a name that is [null], which
    has no [lower]. *)
Definition check_vendor_name_match (gst_data : gst_result) (vendor_name : string)
  : option name_match :=
  if negb (success gst_data) then Some (no_match GstVerificationFailed)
  else
    match Json.get_or (legal_name gst_data) EmptyString,
          Json.get_or (trade_name gst_data) EmptyString with
    | Some legal_name, Some trade_name =>
        let legal_name := lower legal_name in
        let trade_name := lower trade_name in
        let vendor_name_lower := lower vendor_name in
        (* Check if vendor name is in legal or trade name *)
        if contains vendor_name_lower legal_name || contains legal_name vendor_name_lower
        then Some {| matched := true; matched_with := Some "legal_name"; ratio := None;
                     reason := None |}
        else if contains vendor_name_lower trade_name || contains trade_name vendor_name_lower
        then Some {| matched := true; matched_with := Some "trade_name"; ratio := None;
                     reason := None |}
        else
          (* Partial match (at least 50% words match) *)
          let vendor_words := remove_dups (split vendor_name_lower) in
          let legal_words := remove_dups (split legal_name) in
          let refused := Some (no_match (NamesDiffer vendor_name legal_name)) in
          match vendor_words with
          | [] => refused
          | _ =>
              let common :=
                List.filter (fun w => existsb (String.eqb w) legal_words) vendor_words in
              let match_ratio :=
                PrimFloat.div (float_of_len common) (float_of_len vendor_words) in
              if PrimFloat.leb 0.5%float match_ratio
              then Some {| matched := true; matched_with := Some "partial_match";
                           ratio := Some match_ratio; reason := None |}
              else refused
          end
    | _, _ => None
    end.

End GstVerifier.

(** ** hsn_sac_verifier.py *)

Module HsnSacVerifier.
Import PyStr.

(** [''.join(filter(str.isdigit, str(code)))] *)
Definition digits_of (code : string) : string := filter_chars is_digit code.

(** [HSNSACVerifier.detect_code_type] *)
Definition detect_code_type (code : string) : string :=
  let clean_code := digits_of code in
  if (len clean_code =? 6)%Z && startswith "99" clean_code then "SAC"
  else if (len clean_code =? 4)%Z || (len clean_code =? 6)%Z || (len clean_code =? 8)%Z
  then "HSN"
  else "UNKNOWN".

(** The body of the tax lookup API, numbers as floats: the description,
    the GST breakdown, the cess and the total rate, each possibly absent.
    The keys that are copied to the result and read by nothing are left
    out. A rate that is present is a JSON number: on a body with [null] or
    a text that [float] cannot read in its place the call raises, and such
    bodies are outside this model. *)
Record tax_body := {
  body_description : option string;
  body_cgst : option float;
  body_sgst : option float;
  body_igst : option float;
  body_cess : option float;
  body_gst_rate : option float
}.

Record gst_rates_t := {
  cgst : float;
  sgst : float;
  igst : float;
  cess : float;
  total : float
}.

(** The reason under ['error']; the message is its rendering. *)
Inductive hsn_error :=
| TooFewDigits
| NotInGstDatabase
| ApiStatus (status_code : Z)
| RequestFailed
| NotInHsnOrSac.

Record rate_comparison_t := {
  rc_extracted_rate : float;
  rc_actual_rate : float;
  rc_match : bool;
  rc_difference : float
}.

(** A verification; [is_valid] and the other keys read as their default
    when absent. The last three keys are the ones [verify_with_line_items]
    adds. *)
Record verification := {
  success : bool;
  is_valid : bool;
  code : string;
  code_type : option string;
  description : option string;
  gst_rates : option gst_rates_t;
  error : option hsn_error;
  rate_comparison : option rate_comparison_t;
  item_description : option string;
  item_amount : option float
}.

Definition failure (valid : bool) (c : string) (ty : option string) (e : hsn_error)
  : verification :=
  {| success := false; is_valid := valid; code := c; code_type := ty;
     description := None; gst_rates := None; error := Some e;
     rate_comparison := None; item_description := None; item_amount := None |}.

Definition float_or (o : option float) (d : float) : float :=
  match o with Some x => x | None => d end.

Definition is_Some_b {A} (o : option A) : bool :=
  match o with Some _ => true | None => false end.

(** The branches of [verify_hsn_code] and [verify_sac_code] once the code
    has its 4 digits; [kind] is "HSN" or "SAC". A timeout, a connection
    error and a body that is not JSON are RequestExceptions. *)
Definition lookup (api : string -> Http.outcome tax_body) (kind : string)
  (given clean_code : string) : verification :=
  match api clean_code with
  | Http.Response status_code body =>
      if (status_code =? 200)%Z then
        match body with
        | Some api_data =>
            {| success := true;
               is_valid := true;
               code := clean_code;
               code_type := Some kind;
               description := Some (match body_description api_data with
                                    | Some d => d
                                    | None => "N/A"
                                    end);
               gst_rates :=
                 Some {| cgst := float_or (body_cgst api_data) 0%float;
                         sgst := float_or (body_sgst api_data) 0%float;
                         igst := float_or (body_igst api_data) 0%float;
                         cess := float_or (body_cess api_data) 0%float;
                         total := float_or (body_gst_rate api_data)
                                    (float_or (body_igst api_data) 0%float) |};
               error := None;
               rate_comparison := None; item_description := None; item_amount := None |}
        | None => failure false given None RequestFailed
        end
      else if (status_code =? 404)%Z then failure false given None NotInGstDatabase
      else failure false given None (ApiStatus status_code)
  | Http.Timeout | Http.Failed => failure false given None RequestFailed
  end.

(** [HSNSACVerifier.verify_hsn_code] *)
Definition verify_hsn_code (api_hsn : string -> Http.outcome tax_body) (hsn_code : string)
  : verification :=
  let clean_code := digits_of hsn_code in
  if negb (truthy clean_code) || (len clean_code <? 4)%Z
  then failure false hsn_code None TooFewDigits
  else lookup api_hsn "HSN" hsn_code clean_code.

(** [HSNSACVerifier.verify_sac_code] *)
Definition verify_sac_code (api_sac : string -> Http.outcome tax_body) (sac_code : string)
  : verification :=
  let clean_code := digits_of sac_code in
  if negb (truthy clean_code) || (len clean_code <? 4)%Z
  then failure false sac_code None TooFewDigits
  else lookup api_sac "SAC" sac_code clean_code.

(** [HSNSACVerifier.verify_code] *)
Definition verify_code (api_hsn api_sac : string -> Http.outcome tax_body) (code : string)
  : verification :=
  let code_type := detect_code_type code in
  if String.eqb code_type "SAC" then verify_sac_code api_sac code
  else if String.eqb code_type "HSN" then verify_hsn_code api_hsn code
  else
    let hsn_result := verify_hsn_code api_hsn code in
    if success hsn_result then hsn_result
    else
      let sac_result := verify_sac_code api_sac code in
      if success sac_result then sac_result
      else failure false code (Some "UNKNOWN") NotInHsnOrSac.

(** The dictionary [compare_rate] returns: the verdict, the rate found, the
    reason of a failed verification, and under ['discrepancy'] the
    difference with its severity; the texts rendered from them are left
    out. *)
Record discrepancy_t := {
  d_difference : float;
  d_severity : string
}.

Record rate_check := {
  cr_match : bool;
  cr_code : string;
  cr_code_type : option string;
  cr_actual_rate : option float;
  cr_error : option hsn_error;
  cr_discrepancy : option discrepancy_t
}.

(** [HSNSACVerifier.compare_rate], on a rate that is a float; [None]: it
    raises, on a success without rates. *)
Definition compare_rate (api_hsn api_sac : string -> Http.outcome tax_body)
  (code : string) (extracted_rate : float) : option rate_check :=
  let verification := verify_code api_hsn api_sac code in
  if negb (success verification) then
    Some {| cr_match := false; cr_code := code; cr_code_type := None;
            cr_actual_rate := None; cr_error := error verification;
            cr_discrepancy := None |}
  else
    match gst_rates verification with
    | None => None
    | Some rates =>
        let actual_rate := total rates in
        let difference := PrimFloat.abs (PrimFloat.sub extracted_rate actual_rate) in
        let matched := PrimFloat.ltb difference 0.5%float in
        Some {| cr_match := matched;
                cr_code := code;
                cr_code_type := code_type verification;
                cr_actual_rate := Some actual_rate;
                cr_error := None;
                cr_discrepancy :=
                  if matched then None
                  else Some {| d_difference := difference;
                               d_severity := if PrimFloat.ltb 5%float difference
                                             then "HIGH" else "LOW" |} |}
    end.

Record invoice_codes_report := {
  total_codes : Z;
  verified_codes : Z;
  valid_codes : Z;
  invalid_codes : Z;
  all_valid : bool;
  verifications : list verification
}.

(** The codes the loops skip: [not code or code == 'Unknown']. *)
Definition skipped (code : option string) : bool :=
  match code with
  | None => true
  | Some c => negb (truthy c) || String.eqb c "Unknown"
  end.

(** The codes [verify_invoice_codes] verifies. *)
Definition kept_codes (codes : list string) : list string :=
  List.filter (fun c => negb (skipped (Some c))) codes.

(** [HSNSACVerifier.verify_invoice_codes] *)
Definition verify_invoice_codes (api_hsn api_sac : string -> Http.outcome tax_body)
  (hsn_codes : list string) : invoice_codes_report :=
  let '(results, valid_count, invalid_count) :=
    fold_left
      (fun '(results, valid_count, invalid_count) code =>
         if skipped (Some code) then (results, valid_count, invalid_count)
         else
           let v := verify_code api_hsn api_sac code in
           if is_valid v
           then (results ++ [v], valid_count + 1, invalid_count)%Z
           else (results ++ [v], valid_count, invalid_count + 1)%Z)
      hsn_codes ([], 0%Z, 0%Z) in
  {| total_codes := Z.of_nat (length hsn_codes);
     verified_codes := Z.of_nat (length results);
     valid_codes := valid_count;
     invalid_codes := invalid_count;
     all_valid := (invalid_count =? 0)%Z;
     verifications := results |}.

(** A rate as a line item carries it: absent, a number or a string. *)
Inductive rate_value :=
| NoRate
| RateNumber (x : float)
| RateText (s : string).

Definition rate_truthy (r : rate_value) : bool :=
  match r with
  | NoRate => false
  | RateNumber x => negb (PrimFloat.eqb x 0%float)
  | RateText s => truthy s
  end.

(** [a or b] *)
Definition rate_or (a b : rate_value) : rate_value := if rate_truthy a then a else b.

Definition code_or (a b : option string) : option string :=
  if truthy_opt a then a else b.

Record line_item := {
  li_hsn_code : option string;
  li_hsn_sac_code : option string;
  li_gst_rate : rate_value;
  li_tax_rate : rate_value;
  li_description : option string;
  li_amount : option float
}.

Record rate_mismatch := {
  item : string;
  hsn_code : string;
  extracted_rate : rate_value;
  actual_rate : float;
  difference : float
}.

Record line_items_report := {
  total_items : Z;
  verified_items : Z;
  li_valid_codes : Z;
  li_invalid_codes : Z;
  rate_mismatches : list rate_mismatch;
  rate_mismatch_count : Z;
  all_rates_match : bool;
  li_verifications : list verification
}.

Section LineItems.

(** [float(s)] on a string; [None]: it raises. *)
Variable float_of_str : string -> option float.

(** [float(r)] *)
Definition rate_to_float (r : rate_value) : option float :=
  match r with
  | NoRate => None
  | RateNumber x => Some x
  | RateText s => float_of_str s
  end.

Variables api_hsn api_sac : string -> Http.outcome tax_body.

(** One turn of the loop of [verify_with_line_items] on the results and the
    mismatches gathered so far; [None] when [float] raises. *)
Definition line_item_step (acc : list verification * list rate_mismatch) (item : line_item)
  : option (list verification * list rate_mismatch) :=
  let '(results, rate_mismatches) := acc in
  let hsn_code := code_or (li_hsn_code item) (li_hsn_sac_code item) in
  match hsn_code with
  | None => Some acc
  | Some hsn_code =>
      if skipped (Some hsn_code) then Some acc
      else
        (* Verify the code *)
        let v := verify_code api_hsn api_sac hsn_code in
        let described (v : verification) :=
          {| success := success v; is_valid := is_valid v; code := code v;
             code_type := code_type v; description := description v;
             gst_rates := gst_rates v; error := error v;
             rate_comparison := rate_comparison v;
             item_description := Some (match li_description item with
                                       | Some d => d
                                       | None => "Unknown"
                                       end);
             item_amount := Some (float_or (li_amount item) 0%float) |} in
        (* Check if extracted GST rate matches *)
        let extracted_rate := rate_or (li_gst_rate item) (li_tax_rate item) in
        if rate_truthy extracted_rate && is_valid v then
          match gst_rates v, rate_to_float extracted_rate with
          | Some rates, Some extracted =>
              let actual_rate := total rates in
              let difference := PrimFloat.abs (PrimFloat.sub extracted actual_rate) in
              let rate_match := PrimFloat.ltb difference 0.5%float in
              let v' :=
                {| success := success v; is_valid := is_valid v; code := code v;
                   code_type := code_type v; description := description v;
                   gst_rates := gst_rates v; error := error v;
                   rate_comparison :=
                     Some {| rc_extracted_rate := extracted; rc_actual_rate := actual_rate;
                             rc_match := rate_match; rc_difference := difference |};
                   item_description := None; item_amount := None |} in
              let rate_mismatches :=
                if rate_match then rate_mismatches
                else rate_mismatches ++
                     [ {| item := match li_description item with
                                  | Some d => d
                                  | None => "Unknown"
                                  end;
                          hsn_code := hsn_code;
                          extracted_rate := extracted_rate;
                          actual_rate := actual_rate;
                          difference := difference |} ] in
              Some (results ++ [described v'], rate_mismatches)
          | _, _ => None
          end
        else Some (results ++ [described v], rate_mismatches)
  end.

(** The loop: it stops at the first turn that raises. *)
Fixpoint line_items_loop (acc : list verification * list rate_mismatch)
  (items : list line_item) : option (list verification * list rate_mismatch) :=
  match items with
  | [] => Some acc
  | item :: rest =>
      match line_item_step acc item with
      | Some acc' => line_items_loop acc' rest
      | None => None
      end
  end.

(** The line items at which the loop raises: the code is verified and
    valid, and the rate given is one [float] cannot read. *)
Definition unreadable_rate (item : line_item) : bool :=
  match code_or (li_hsn_code item) (li_hsn_sac_code item) with
  | None => false
  | Some hsn_code =>
      let extracted_rate := rate_or (li_gst_rate item) (li_tax_rate item) in
      negb (skipped (Some hsn_code)) && rate_truthy extracted_rate &&
      is_valid (verify_code api_hsn api_sac hsn_code) &&
      negb (bool_decide (is_Some (rate_to_float extracted_rate)))
  end.

(** The line items [compare_rate] finds a mismatch for: the code is one the
    loop verifies, the rate is a true value that [float] reads, and the
    comparison of that code with that rate is a success without a match. *)
Definition mismatched (item : line_item) : bool :=
  match code_or (li_hsn_code item) (li_hsn_sac_code item) with
  | None => false
  | Some hsn_code =>
      let extracted_rate := rate_or (li_gst_rate item) (li_tax_rate item) in
      negb (skipped (Some hsn_code)) && rate_truthy extracted_rate &&
      match rate_to_float extracted_rate with
      | Some x =>
          match compare_rate api_hsn api_sac hsn_code x with
          | Some check => is_Some_b (cr_actual_rate check) && negb (cr_match check)
          | None => false
          end
      | None => false
      end
  end.

Definition count_where {A} (p : A -> bool) (l : list A) : Z :=
  Z.of_nat (length (List.filter p l)).

(** [HSNSACVerifier.verify_with_line_items]; [None]: it raises. *)
Definition verify_with_line_items (line_items : list line_item) : option line_items_report :=
  match line_items_loop ([], []) line_items with
  | None => None
  | Some (results, rate_mismatches) =>
      Some {| total_items := Z.of_nat (length line_items);
              verified_items := Z.of_nat (length results);
              li_valid_codes := count_where is_valid results;
              li_invalid_codes := count_where (fun v => negb (is_valid v)) results;
              rate_mismatches := rate_mismatches;
              rate_mismatch_count := Z.of_nat (length rate_mismatches);
              all_rates_match := Nat.eqb (length rate_mismatches) 0;
              li_verifications := results |}
  end.

End LineItems.

End HsnSacVerifier.

(** ** Python floats *)

Module PyFloat.

(** The float operations the program uses. The program runs on [binary64];
    what does not depend on the arithmetic is stated for any implementation
    of the operations. *)
Class Ops (F : Type) := {
  lit : float -> F;
  add : F -> F -> F;
  sub : F -> F -> F;
  mul : F -> F -> F;
  div : F -> F -> F;
  fabs : F -> F;
  ltb : F -> F -> bool;
  leb : F -> F -> bool;
  nonzero : F -> bool
}.

(** Python's [float]: IEEE 754 binary64, round to nearest even. [nonzero] is
    [bool(x)], that is [x != 0.0]. *)
#[export] Instance binary64 : Ops float := {|
  lit x := x;
  add := PrimFloat.add;
  sub := PrimFloat.sub;
  mul := PrimFloat.mul;
  div := PrimFloat.div;
  fabs := PrimFloat.abs;
  ltb := PrimFloat.ltb;
  leb := PrimFloat.leb;
  nonzero x := negb (PrimFloat.eqb x 0%float)
|}.

End PyFloat.

(** ** The values of binary64 *)

(** The real numbers that binary64 data stand for, and what it is for an
    operation to round its exact result. The operations of [PrimFloat] are
    specified by the functions of [SpecFloat] on a sign, a mantissa and an
    exponent; [SF2R] gives such a datum its value. *)
Module Binary64.
Local Open Scope R_scope.

(** Powers of two. *)
Definition bpow (e : Z) : R := powerRZ 2 e.

(** The value of a mantissa and an exponent. *)
Definition F2R (m e : Z) : R := IZR m * bpow e.

(** [x] is below, at, or above the middle [mid] of a slice. *)
Definition loc_ok (c : comparison) (x mid : R) : Prop :=
  match c with
  | Lt => x < mid
  | Eq => x = mid
  | Gt => mid < x
  end.

(** [x] lies in the slice that starts at [m * 2^e], at the place [l] says. *)
Definition inbetween (m e : Z) (l : location) (x : R) : Prop :=
  match l with
  | loc_Exact => x = F2R m e
  | loc_Inexact c =>
      F2R m e < x < F2R (m + 1) e /\ loc_ok c x ((IZR m + / 2) * bpow e)
  end.

(** The same for a mantissa with its round and sticky bits. *)
Definition inbetween_rec (mrs : shr_record) (e : Z) (x : R) : Prop :=
  inbetween (shr_m mrs) e (loc_of_shr_record mrs) x.

(** The exponent of a binary64 datum with [e] as the exponent of its
    leading digit: 53 digits of precision, exponents from -1074. *)
Definition fexp64 (e : Z) : Z := SpecFloat.fexp 53 1024 e.

(** Unit roundoff, and half of the smallest positive value. *)
Definition u64 : R := bpow (-53).
Definition eta64 : R := bpow (-1075).

(** The value of a floating-point datum; 0 for an infinity and for NaN. *)
Definition SF2R (x : spec_float) : R :=
  match x with
  | S754_finite s m e => if s then - F2R (Z.pos m) e else F2R (Z.pos m) e
  | _ => 0
  end.

(** A zero or a finite number: neither an infinity nor NaN. *)
Definition is_finite_SF (x : spec_float) : bool :=
  match x with
  | S754_zero _ | S754_finite _ _ _ => true
  | _ => false
  end.

(** The magnitude [r] with the sign [s]. *)
Definition signed (s : bool) (r : R) : R := if s then - r else r.

(** What a rounding returns for the sign [s] and the magnitude [x]: a datum
    of that sign whose magnitude is within the rounding error of [x]. *)
Definition rounds_to (z : spec_float) (s : bool) (x : R) : Prop :=
  (z = S754_zero s \/ exists m e, z = S754_finite s m e) /\
  (exists r, 0 <= r /\ SF2R z = signed s r /\ Rabs (r - x) <= u64 * x + eta64).

(** What an operation returns for the exact result [x]: a finite datum
    within the rounding error of [x]. *)
Definition rounded (z : spec_float) (x : R) : Prop :=
  is_finite_SF z = true /\ Rabs (SF2R z - x) <= u64 * Rabs x + eta64.

(** A datum that is not negative: the zero of positive sign or a positive
    finite number. *)
Definition nonneg_SF (z : spec_float) : Prop :=
  z = S754_zero false \/ exists m e, z = S754_finite false m e.

(** The value of a float, and a float that is not negative. *)
Definition B2R (x : float) : R := SF2R (Prim2SF x).

Definition nonneg (x : float) : Prop := nonneg_SF (Prim2SF x).

End Binary64.

(** ** fintel_api_fixed.py *)

Module Api.
Import PyStr PyFloat.

(** HSN/SAC Database: code, description, GST rate. *)
Definition HSN_SAC_DATABASE : gmap string (string * float) :=
  list_to_map [
    ("8517", ("Telephone sets, mobile phones", 12.0%float));
    ("8471", ("Computers and computer peripherals", 18.0%float));
    ("9403", ("Office furniture", 12.0%float));
    ("7326", ("Articles of iron or steel", 18.0%float));
    ("3926", ("Articles of plastics", 18.0%float));
    ("8443", ("Printing machinery", 18.0%float));
    ("4901", ("Printed books, brochures", 12.0%float));
    ("9983", ("Professional services", 18.0%float))
  ].

(** [r'^[0-9]{2}[A-Z]{5}[0-9]{4}[A-Z]{1}[1-9A-Z]{1}[Z]{1}[0-9A-Z]{1}$'] *)
Definition gst_pattern : list (ascii -> bool) :=
  repeat is_digit 2 ++ repeat is_upper 5 ++ repeat is_digit 4 ++
  [ is_upper;
    (fun c => is_digit19 c || is_upper c);
    is_char "Z"%char;
    (fun c => is_digit c || is_upper c) ].

Record gst_validation := {
  valid : bool;
  status : string;
  format_valid : bool
}.

(** [validate_gst_number]: the pattern is matched on the string as given. *)
Definition validate_gst_number (gst_number : string) : gst_validation :=
  if re_match_classes gst_pattern gst_number
  then {| valid := true; status := "active"; format_valid := true |}
  else {| valid := false; status := "invalid_format"; format_valid := false |}.

Section WithFloat.
Context {F : Type} `{Ops F}.

(** Python builtins and library calls the module relies on:
    [float(s)] on a string ([None]: it raises), [x % y] on floats,
    [len(str(int(x)))] ([None]: [int] raises, on an infinity or a NaN), and
    [pd.to_datetime(s)] as (dayofweek, day, month) ([None]: it raises). *)
Variable float_of_str : string -> option F.
Variable float_mod : F -> F -> F.
Variable int_digits : F -> option Z.
Variable to_datetime : string -> option (Z * Z * Z).

(** The value under ['total_amount']: missing or [None], a number, or a
    string. *)
Inductive amount_field :=
| Absent
| Number (x : F)
| Text (s : string).

(** [bool(invoice_data.get('total_amount'))] *)
Definition amount_truthy (a : amount_field) : bool :=
  match a with
  | Absent => false
  | Number x => nonzero x
  | Text s => truthy s
  end.

(** [float(str(total_amount).replace(',', ''))]; [str] of a float reads back
    as the same float. *)
Definition amount_to_float (a : amount_field) : option F :=
  match a with
  | Absent => None
  | Number x => Some x
  | Text s => float_of_str (remove_char ","%char s)
  end.

Record invoice_data := {
  invoice_number : option string;
  total_amount : amount_field;
  invoice_date : option string;
  vendor_name : option string;
  gst_numbers : list string;
  ocr_confidence : F;
  raw_text : string
}.

Record enhanced_data := {
  hsn_sac_codes : list string;
  item_descriptions : list string;
  quantities : list F
}.

Record ml_result := {
  is_anomaly : bool;
  confidence : F
}.

Record arithmetic_check := {
  overall_accurate : bool;
  base_amount : option F;
  expected_gst : option F;
  expected_total : option F
}.

(** [check_arithmetic_accuracy] *)
Definition check_arithmetic_accuracy (inv : invoice_data) : arithmetic_check :=
  let failed := {| overall_accurate := false; base_amount := None;
                   expected_gst := None; expected_total := None |} in
  if amount_truthy (total_amount inv) then
    match amount_to_float (total_amount inv) with
    | Some amount =>
        let base_amount := div amount (lit 1.18%float) in
        let expected_gst := mul base_amount (lit 0.18%float) in
        let expected_total := add base_amount expected_gst in
        {| overall_accurate := ltb (fabs (sub amount expected_total)) (lit 1.0%float);
           base_amount := Some base_amount;
           expected_gst := Some expected_gst;
           expected_total := Some expected_total |}
    | None => failed
    end
  else failed.

Record price_entry := {
  item : string;
  billed_price : F;
  market_avg : F;
  variance_percent : F;
  is_outlier : bool
}.

(** [analyze_market_prices]; [None] when [float] raises. *)
Definition analyze_market_prices (enh : enhanced_data) (inv : invoice_data)
  : option (list price_entry) :=
  match item_descriptions enh with
  | [] => Some []
  | items =>
      if amount_truthy (total_amount inv) then
        match amount_to_float (total_amount inv) with
        | Some amount =>
            Some (map (fun it =>
              let market_avg := lit 25000%float in
              let variance_percent := mul (div (sub amount market_avg) market_avg) (lit 100%float) in
              {| item := it;
                 billed_price := amount;
                 market_avg := market_avg;
                 variance_percent := variance_percent;
                 is_outlier := ltb (lit 50%float) (fabs variance_percent) |}) items)
        | None => None
        end
      else Some []
  end.

Record hsn_validation := {
  hsn_code : string;
  is_correct : bool;
  regulatory_rate : F
}.

Record compliance_results := {
  compliance_score : F;
  checks_passed : F;
  total_checks : F;
  compliance_status : string;
  risk_level : string;
  risk_score : Z;
  gst_validations : list gst_validation;
  hsn_validations : list hsn_validation;
  arithmetic_result : arithmetic_check;
  price_analysis : list price_entry;
  anomalies_detected : list string
}.

Definition nonempty {A} (l : list A) : bool :=
  match l with [] => false | _ => true end.

(** [checks_passed += pts] when [b] holds. *)
Definition award (b : bool) (pts : F) (checks : F) : F :=
  if b then add checks pts else checks.

(** The first code of the list that is a key of [HSN_SAC_DATABASE]. *)
Fixpoint first_known_hsn (codes : list string) : option (string * float) :=
  match codes with
  | [] => None
  | c :: rest =>
      match HSN_SAC_DATABASE !! c with
      | Some (_, rate) => Some (c, rate)
      | None => first_known_hsn rest
      end
  end.

(** [process_complete_compliance]; [None] when [analyze_market_prices]
    raises. [checks_passed] is kept as a float from the start: the integers
    it goes through are exact in it. *)
Definition process_complete_compliance
  (inv : invoice_data) (enh : enhanced_data) (ml : option ml_result)
  : option compliance_results :=
  let one := lit 1%float in
  let checks := lit 0%float in
  (* Basic field checks (5 points) *)
  let checks := award (truthy_opt (invoice_number inv)) one checks in
  let checks := award (amount_truthy (total_amount inv)) one checks in
  let checks := award (truthy_opt (invoice_date inv)) one checks in
  let checks := award (truthy_opt (vendor_name inv)) one checks in
  let checks := award (nonempty (gst_numbers inv)) one checks in
  (* Enhanced extraction check (1 point) *)
  let checks := award (nonempty (hsn_sac_codes enh) || nonempty (item_descriptions enh)) one checks in
  (* OCR accuracy check (1 point) *)
  let checks := award (leb (lit 80%float) (ocr_confidence inv)) one checks in
  (* GST validation (1 point) *)
  let gst_validations := map validate_gst_number (gst_numbers inv) in
  let checks := fold_left (fun acc v => award (valid v) (lit 0.5%float) acc) gst_validations checks in
  (* HSN validation (1 point) *)
  let hsn_validations :=
    match first_known_hsn (hsn_sac_codes enh) with
    | Some (c, rate) => [ {| hsn_code := c; is_correct := true; regulatory_rate := lit rate |} ]
    | None => []
    end in
  let checks := award (nonempty hsn_validations) one checks in
  (* Arithmetic check (1 point) *)
  let arithmetic := check_arithmetic_accuracy inv in
  let checks := award (overall_accurate arithmetic) one checks in
  (* Duplicate check (1 point) - assume no duplicates for now *)
  let checks := add checks one in
  (* Price analysis (1 point) *)
  match analyze_market_prices enh inv with
  | None => None
  | Some price_analysis =>
      let checks := award (negb (existsb is_outlier price_analysis)) one checks in
      let total := lit 12%float in
      let score := mul (div checks total) (lit 100%float) in
      let '(status, risk, risk_score) :=
        if leb (lit 90%float) score then ("Excellent", "Low Risk", 10%Z)
        else if leb (lit 75%float) score then ("Good", "Low Risk", 25%Z)
        else if leb (lit 60%float) score then ("Fair", "Medium Risk", 50%Z)
        else ("Poor", "High Risk", 75%Z) in
      let flagged := match ml with Some r => is_anomaly r | None => false end in
      let risk_score := if flagged then (risk_score + 20)%Z else risk_score in
      let risk := if flagged && (50 <? risk_score)%Z then "High Risk" else risk in
      let anomalies :=
        (if flagged then ["ML anomaly detected"] else []) ++
        (if ltb (ocr_confidence inv) (lit 70%float) then ["Low OCR confidence"] else []) ++
        (if negb (overall_accurate arithmetic) then ["Arithmetic error"] else []) in
      Some {| compliance_score := score;
              checks_passed := checks;
              total_checks := total;
              compliance_status := status;
              risk_level := risk;
              risk_score := risk_score;
              gst_validations := gst_validations;
              hsn_validations := hsn_validations;
              arithmetic_result := arithmetic;
              price_analysis := price_analysis;
              anomalies_detected := anomalies |}
  end.

(** A slot of the feature vector: an [int] or a [float]. *)
Inductive feature :=
| FInt (z : Z)
| FNum (x : F).

Definition flag (b : bool) : feature := FInt (if b then 1 else 0).

(** The list [features] that [extract_ml_features] builds inside its [try];
    [None] when a conversion of the amount raises. *)
Definition built_features (inv : invoice_data) : option (list feature) :=
  (* Amount features *)
  let amount_features :=
    if amount_truthy (total_amount inv) then
      match amount_to_float (total_amount inv) with
      | Some amount =>
          match int_digits amount with
          | Some n => Some [FNum amount; FNum (float_mod amount (lit 1000%float)); FInt n]
          | None => None
          end
      | None => None
      end
    else Some [FInt 0; FInt 0; FInt 0] in
  (* Date features *)
  let date_features :=
    if truthy_opt (invoice_date inv) then
      match invoice_date inv with
      | Some d =>
          match to_datetime d with
          | Some (dayofweek, day, month) => [FInt dayofweek; FInt day; FInt month]
          | None => [FInt 0; FInt 0; FInt 0]
          end
      | None => [FInt 0; FInt 0; FInt 0]
      end
    else [FInt 0; FInt 0; FInt 0] in
  (* Quality features *)
  let quality_features :=
    [ FNum (ocr_confidence inv);
      FInt (len (raw_text inv));
      FInt (Z.of_nat (length (gst_numbers inv)));
      flag (truthy_opt (vendor_name inv));
      flag (truthy_opt (invoice_number inv));
      flag (truthy_opt (invoice_date inv));
      flag (amount_truthy (total_amount inv));
      FInt 0 ] in
  match amount_features with
  | Some amount_features => Some (amount_features ++ date_features ++ quality_features)
  | None => None
  end.

(** [extract_ml_features]: [return features if len(features) >= 16 else
    None], and [None] from the [except] branch. *)
Definition extract_ml_features (inv : invoice_data) : option (list feature) :=
  match built_features inv with
  | Some features =>
      if (16 <=? Z.of_nat (length features))%Z then Some features else None
  | None => None
  end.

(** The step of [upload_invoice_complete] that calls the classifier:
    [predict] is [ml_trainer.predict_anomaly]. *)
Definition ml_step (predict : list feature -> ml_result) (inv : invoice_data)
  : option ml_result :=
  match extract_ml_features inv with
  | Some features => if nonempty features then Some (predict features) else None
  | None => None
  end.

End WithFloat.

Arguments amount_field : clear implicits.
Arguments invoice_data : clear implicits.
Arguments enhanced_data : clear implicits.
Arguments ml_result : clear implicits.
Arguments arithmetic_check : clear implicits.
Arguments compliance_results : clear implicits.
Arguments feature : clear implicits.

End Api.

(** ** Sample invoices *)

Module Samples.
Import PyFloat Api.

(** An invoice on which every item of the checklist is satisfied, carrying
    three well-formed GST numbers. *)
Definition full_invoice : invoice_data float := {|
  invoice_number := Some "INV-2024-001";
  total_amount := Number 25000%float;
  invoice_date := Some "2024-01-15";
  vendor_name := Some "Acme Traders";
  gst_numbers := ["22AAAAA0000A1Z5"; "24ABYFM2874M1ZD"; "24AAACI0931P1ZL"];
  ocr_confidence := 95%float;
  raw_text := "TAX INVOICE INV-2024-001 HSN: 8517 ITEM: Mobile phone"
|}.

Definition full_enhanced : enhanced_data float := {|
  hsn_sac_codes := ["8517"];
  item_descriptions := ["Mobile phone"];
  quantities := []
|}.

(** The same invoice with two GST numbers. *)
Definition two_gst_invoice : invoice_data float := {|
  invoice_number := invoice_number full_invoice;
  total_amount := total_amount full_invoice;
  invoice_date := invoice_date full_invoice;
  vendor_name := vendor_name full_invoice;
  gst_numbers := ["22AAAAA0000A1Z5"; "24ABYFM2874M1ZD"];
  ocr_confidence := ocr_confidence full_invoice;
  raw_text := raw_text full_invoice
|}.

(** An invoice of 6,000,000,000,000,000.00. *)
Definition large_total_invoice : invoice_data float := {|
  invoice_number := Some "INV-2024-002";
  total_amount := Number 6e15%float;
  invoice_date := Some "2024-01-15";
  vendor_name := Some "Acme Traders";
  gst_numbers := ["22AAAAA0000A1Z5"];
  ocr_confidence := 95%float;
  raw_text := EmptyString
|}.

(** An invoice known by its total only. *)
Definition invoice_of_total (a : float) : invoice_data float := {|
  invoice_number := None;
  total_amount := Number a;
  invoice_date := None;
  vendor_name := None;
  gst_numbers := [];
  ocr_confidence := 0%float;
  raw_text := EmptyString
|}.

(** An invoice known by its total, given as text; and a [float] that reads
    the texts of two amounts only. *)
Definition invoice_of_text (s : string) : invoice_data float := {|
  invoice_number := None;
  total_amount := Text s;
  invoice_date := None;
  vendor_name := None;
  gst_numbers := [];
  ocr_confidence := 0%float;
  raw_text := EmptyString
|}.

Definition float_of_sample (s : string) : option float :=
  if String.eqb s "0" then Some 0%float
  else if String.eqb s "11800" then Some 11800%float
  else None.

End Samples.

(** ** database.py *)

Module Database.
Import PyStr.

(** Identifiers. [ObjectId n] is the identifier the store assigns to a
    document; [HexStr n] is [str(ObjectId n)], the string of its 24
    hexadecimal digits. A query compares values of both kinds: they are equal
    only when they are of the same kind. *)
Inductive value_id :=
| ObjectId (n : nat)
| HexStr (n : nat).

(** [str(i)] *)
Definition str (i : value_id) : value_id :=
  match i with ObjectId n | HexStr n => HexStr n end.

(** [ObjectId(i)] *)
Definition to_ObjectId (i : value_id) : value_id :=
  match i with ObjectId n | HexStr n => ObjectId n end.

Definition id_eqb (i j : value_id) : bool :=
  match i, j with
  | ObjectId n, ObjectId m => Nat.eqb n m
  | HexStr n, HexStr m => Nat.eqb n m
  | _, _ => false
  end.

(** Equality of two string fields that may be [None] (null). *)
Definition opt_eqb (a b : option string) : bool :=
  match a, b with
  | Some x, Some y => String.eqb x y
  | None, None => true
  | _, _ => false
  end.

(** An [int] as a float. *)
Definition float_of_nat (n : nat) : float :=
  PrimFloat.of_uint63 (Uint63.of_Z (Z.of_nat n)).

(** [sum(l)] *)
Definition float_sum (l : list float) : float :=
  fold_left PrimFloat.add l 0%float.

(** A [datetime] is a number of microseconds since 0001-01-01 00:00, from 0
    to [datetime_max] (the last microsecond of the year 9999); arithmetic
    that leaves the range raises OverflowError. [day_us] is a day, and
    [day_of] the calendar day of an instant, counted from 0001-01-01;
    ['%Y-%m-%d'] renders it. *)
Definition day_us : Z := 86400000000.
Definition datetime_max : Z := 3652059 * day_us - 1.
Definition day_of (t : Z) : Z := (t / day_us)%Z.

(** [t + timedelta(days=k)]; [None]: it raises. *)
Definition add_days (t k : Z) : option Z :=
  let r := (t + k * day_us)%Z in
  if (0 <=? r)%Z && (r <=? datetime_max)%Z then Some r else None.

(** *** Documents *)

Record gst_check := {
  success : bool;
  is_active : bool
}.

Record hsn_check := {
  is_valid : bool;
  code : option string;
  error : option string
}.

Record rate_mismatch := {
  item : string;
  hsn_code : string;
  actual_rate : float;
  extracted_rate : float
}.

(** The dictionary [upload_invoice_complete] hands to the store; the total
    is a float there. Fields that the store copies and never reads are left
    out. *)
Record invoice_data := {
  invoice_number : option string;
  vendor_name : option string;
  gst_numbers : list string;
  total_amount : float;
  invoice_date : option string;
  hsn_sac_codes : list string;
  ocr_confidence : float;
  gst_missing : bool;
  gst_verification : list gst_check;
  hsn_sac_verification : list hsn_check;
  rate_mismatches : list rate_mismatch
}.

Record invoice_doc := {
  _id : value_id;
  uploadDate : Z;
  invoiceNumber : option string;
  vendorName : option string;
  gstNumber : option string;
  allGstNumbers : list string;
  totalAmount : float;
  invoiceDate : option string;
  hsnCodes : list string;
  ocrConfidence : float
}.

Record vendor_doc := {
  v_gstNumber : string;
  v_vendorName : option string;
  totalInvoices : Z;
  v_totalAmount : float;
  firstInvoiceDate : Z;
  lastInvoiceDate : Z
}.

(** An entry of the list [detect_anomalies] returns; the description, a
    formatted message, is left out. *)
Record anomaly := {
  type : string;
  severity : string;
  relatedInvoiceId : option value_id
}.

Record anomaly_doc := {
  invoiceId : value_id;
  a_invoiceNumber : option string;
  anomalyType : string;
  a_severity : string;
  detectedDate : Z;
  a_relatedInvoiceId : option value_id
}.

(** The three collections, and the counter identifiers are drawn from. The
    vendors are keyed by GST number: the collection has a unique index on
    it. *)
Record db := {
  invoices : list invoice_doc;
  vendors : gmap string vendor_doc;
  anomalies : list anomaly_doc;
  next_id : nat
}.

Definition empty_db : db :=
  {| invoices := []; vendors := ∅; anomalies := []; next_id := 0 |}.

(** *** Storing an invoice *)

(** [_update_vendor_stats] *)
Definition _update_vendor_stats (d : db) (invoice_doc : invoice_doc) (now : Z) : db :=
  match gstNumber invoice_doc with
  | None => d
  | Some gst_number =>
      if negb (truthy gst_number) || String.eqb gst_number "Unknown" then d
      else
        let vendors' :=
          match vendors d !! gst_number with
          | Some vendor =>
              (* Update existing vendor *)
              <[ gst_number :=
                 {| v_gstNumber := v_gstNumber vendor;
                    v_vendorName := vendorName invoice_doc;
                    totalInvoices := totalInvoices vendor + 1;
                    v_totalAmount := PrimFloat.add (v_totalAmount vendor) (totalAmount invoice_doc);
                    firstInvoiceDate := firstInvoiceDate vendor;
                    lastInvoiceDate := now |} ]> (vendors d)
          | None =>
              (* Create new vendor *)
              <[ gst_number :=
                 {| v_gstNumber := gst_number;
                    v_vendorName := vendorName invoice_doc;
                    totalInvoices := 1;
                    v_totalAmount := totalAmount invoice_doc;
                    firstInvoiceDate := now;
                    lastInvoiceDate := now |} ]> (vendors d)
          end in
        {| invoices := invoices d; vendors := vendors';
           anomalies := anomalies d; next_id := next_id d |}
  end.

(** [store_invoice]: the new state and the identifier returned, a string. *)
Definition store_invoice (d : db) (invoice_data : invoice_data) (now : Z) : db * value_id :=
  let inserted_id := ObjectId (next_id d) in
  let invoice_doc :=
    {| _id := inserted_id;
       uploadDate := now;
       invoiceNumber := invoice_number invoice_data;
       vendorName := vendor_name invoice_data;
       gstNumber := head (gst_numbers invoice_data);
       allGstNumbers := gst_numbers invoice_data;
       totalAmount := total_amount invoice_data;
       invoiceDate := invoice_date invoice_data;
       hsnCodes := hsn_sac_codes invoice_data;
       ocrConfidence := ocr_confidence invoice_data |} in
  let d1 :=
    {| invoices := invoices d ++ [invoice_doc]; vendors := vendors d;
       anomalies := anomalies d; next_id := S (next_id d) |} in
  (_update_vendor_stats d1 invoice_doc now, str inserted_id).

(** Invoices stored one after the other. *)
Fixpoint store_all (d : db) (l : list (invoice_data * Z)) : db :=
  match l with
  | [] => d
  | (inv, now) :: rest => store_all (fst (store_invoice d inv now)) rest
  end.

(** *** Vendor statistics *)

Record vendor_stats := {
  avgAmount : float;
  maxAmount : float;
  minAmount : float;
  stat_totalInvoices : Z
}.

Definition float_max (x y : float) : float := if PrimFloat.ltb x y then y else x.
Definition float_min (x y : float) : float := if PrimFloat.ltb y x then y else x.

(** [vendors_stats]: the group of the invoices of that vendor name, none
    when there is no such invoice. [$avg] is the sum of the amounts, in the
    order of the collection, divided by their number. *)
Definition vendors_stats (d : db) (vendor_name : string) : list vendor_stats :=
  let matched := List.filter (fun i => opt_eqb (vendorName i) (Some vendor_name)) (invoices d) in
  match map totalAmount matched with
  | [] => []
  | (a :: rest) as amounts =>
      [ {| avgAmount := PrimFloat.div (float_sum amounts) (float_of_nat (length amounts));
           maxAmount := fold_left float_max rest a;
           minAmount := fold_left float_min rest a;
           stat_totalInvoices := Z.of_nat (length amounts) |} ]
  end.

(** *** Anomaly detection *)

Definition mk_anomaly (t s : string) (r : option value_id) : anomaly :=
  {| type := t; severity := s; relatedInvoiceId := r |}.

(** Check 6 of [detect_anomalies], on the codes still to look at: the
    first code whose comparable invoices put the amount more than 50% away
    from their mean ends the loop. The query tests [_id] against
    [invoice_id], the argument of the function, where checks 1 and 4 test it
    against [obj_id]. *)
Fixpoint hsn_price_deviation (d : db) (invoice_id : value_id) (current_amount : float)
  (codes : list string) : list anomaly :=
  match codes with
  | [] => []
  | hsn :: rest =>
      let similar_invoices :=
        take 10 (List.filter
                   (fun i => existsb (String.eqb hsn) (hsnCodes i) &&
                             negb (id_eqb (_id i) invoice_id))
                   (invoices d)) in
      if (3 <=? Z.of_nat (length similar_invoices))%Z then
        let amounts := List.filter (fun a => PrimFloat.ltb 0%float a)
                                   (map totalAmount similar_invoices) in
        match amounts with
        | [] => hsn_price_deviation d invoice_id current_amount rest
        | _ =>
            let avg_hsn_amount :=
              PrimFloat.div (float_sum amounts) (float_of_nat (length amounts)) in
            if PrimFloat.ltb 0%float avg_hsn_amount &&
               PrimFloat.ltb (PrimFloat.mul avg_hsn_amount 0.5%float)
                             (PrimFloat.abs (PrimFloat.sub current_amount avg_hsn_amount))
            then [mk_anomaly "HSN_PRICE_DEVIATION" "MEDIUM" None]
            else hsn_price_deviation d invoice_id current_amount rest
        end
      else hsn_price_deviation d invoice_id current_amount rest
  end.

(** The list [detect_anomalies] builds, before it is persisted. *)
Definition anomalies_of (d : db) (invoice_data : invoice_data) (invoice_id : value_id)
  : list anomaly :=
  let obj_id := to_ObjectId invoice_id in
  (* 1. Check for duplicate invoice number *)
  let duplicate :=
    find (fun i => opt_eqb (invoiceNumber i) (invoice_number invoice_data) &&
                   negb (id_eqb (_id i) obj_id)) (invoices d) in
  let a1 :=
    match duplicate with
    | Some dup => [mk_anomaly "DUPLICATE_INVOICE" "HIGH" (Some (str (_id dup)))]
    | None => []
    end in
  (* 2. Check for missing GST number *)
  let gst_numbers := gst_numbers invoice_data in
  let a2 :=
    match gst_numbers with
    | [] => [mk_anomaly "MISSING_GST" "HIGH" None]
    | _ => if gst_missing invoice_data then [mk_anomaly "MISSING_GST" "HIGH" None] else []
    end in
  (* 3. Check for invalid GST number *)
  let gst_number := head gst_numbers in
  let a3 :=
    if truthy_opt gst_number then
      match gst_verification invoice_data with
      | verification_result :: _ =>
          if negb (success verification_result) || negb (is_active verification_result)
          then [mk_anomaly "INVALID_GST" "HIGH" None] else []
      | [] => []
      end
    else [] in
  (* 4. Check for GST number with different vendor name *)
  let a4 :=
    if truthy_opt gst_number then
      match find (fun i => opt_eqb (gstNumber i) gst_number &&
                           negb (opt_eqb (vendorName i) (vendor_name invoice_data)) &&
                           negb (id_eqb (_id i) obj_id)) (invoices d) with
      | Some different_vendor =>
          [mk_anomaly "GST_VENDOR_MISMATCH" "HIGH" (Some (str (_id different_vendor)))]
      | None => []
      end
    else [] in
  (* 4. Check for unusual amount from same vendor *)
  let a5 :=
    match vendor_name invoice_data with
    | Some vendor_name =>
        if truthy vendor_name && negb (String.eqb vendor_name "Unknown") then
          match vendors_stats d vendor_name with
          | stats :: _ =>
              let avg_amount := avgAmount stats in
              let current_amount := total_amount invoice_data in
              if PrimFloat.ltb 0%float avg_amount &&
                 PrimFloat.ltb (PrimFloat.mul avg_amount 3%float) current_amount
              then [mk_anomaly "UNUSUAL_AMOUNT" "MEDIUM" None] else []
          | [] => []
          end
        else []
    | None => []
    end in
  (* 5. Check for invalid HSN/SAC codes *)
  let a6 :=
    map (fun _ => mk_anomaly "INVALID_HSN_SAC" "HIGH" None)
        (List.filter (fun v => negb (is_valid v)) (hsn_sac_verification invoice_data)) in
  (* 5b. Check for GST rate mismatches in line items *)
  let a7 :=
    map (fun _ => mk_anomaly "HSN_GST_RATE_MISMATCH" "HIGH" None)
        (rate_mismatches invoice_data) in
  (* 6. Check for same HSN code with very different price *)
  let a8 :=
    hsn_price_deviation d invoice_id (total_amount invoice_data)
      (take 3 (hsn_sac_codes invoice_data)) in
  a1 ++ a2 ++ a3 ++ a4 ++ a5 ++ a6 ++ a7 ++ a8.

(** [detect_anomalies]: the anomalies are stored, then returned. *)
Definition detect_anomalies (d : db) (invoice_data : invoice_data) (invoice_id : value_id)
  (now : Z) : db * list anomaly :=
  let found := anomalies_of d invoice_data invoice_id in
  let docs :=
    map (fun a => {| invoiceId := invoice_id;
                     a_invoiceNumber := invoice_number invoice_data;
                     anomalyType := type a;
                     a_severity := severity a;
                     detectedDate := now;
                     a_relatedInvoiceId := relatedInvoiceId a |}) found in
  ({| invoices := invoices d; vendors := vendors d;
      anomalies := anomalies d ++ docs; next_id := next_id d |}, found).

(** The entries of the type DUPLICATE_INVOICE. *)
Definition is_duplicate_anomaly (a : anomaly) : bool :=
  String.eqb (type a) "DUPLICATE_INVOICE".

(** The one HSN query as the claim words it: the invoices that share the
    code, the invoice under evaluation excluded. *)
Definition other_invoices_sharing (d : db) (invoice_id : value_id) (hsn : string)
  : list invoice_doc :=
  List.filter (fun i => existsb (String.eqb hsn) (hsnCodes i) &&
                        negb (id_eqb (_id i) (to_ObjectId invoice_id)))
              (invoices d).

(** *** Anomaly trends *)

(** One row of the result of [get_anomaly_trends]; [date] is the calendar
    day. *)
Record trend := {
  date : Z;
  duplicates : Z;
  invalidGst : Z;
  missingGst : Z;
  hsnAnomalies : Z;
  total : Z
}.

Definition zero_trend (date : Z) : trend :=
  {| date := date; duplicates := 0; invalidGst := 0; missingGst := 0;
     hsnAnomalies := 0; total := 0 |}.

(** The order of the [$sort] stage: by date. *)
Definition by_date (x y : (Z * string) * Z) : Prop := (fst (fst x) <= fst (fst y))%Z.

#[export] Instance by_date_dec : RelDecision by_date :=
  fun x y => decide (fst (fst x) <= fst (fst y))%Z.

(** The aggregation pipeline: the anomalies detected between the two
    instants, counted by day and type, ordered by day. *)
Definition trend_groups (d : db) (start_date end_date : Z) : list ((Z * string) * Z) :=
  let matched :=
    List.filter (fun a => (start_date <=? detectedDate a)%Z && (detectedDate a <=? end_date)%Z)
                (anomalies d) in
  let keys := map (fun a => (day_of (detectedDate a), anomalyType a)) matched in
  let groups :=
    map (fun k => (k, Z.of_nat (length (List.filter (fun k' => bool_decide (k' = k)) keys))))
        (remove_dups keys) in
  merge_sort by_date groups.

(** One turn of the loop that organizes the counts by date. *)
Definition add_group (trends_by_date : gmap Z trend) (result : (Z * string) * Z)
  : gmap Z trend :=
  let '((date, anomaly_type), count) := result in
  let e := match trends_by_date !! date with
           | Some e => e
           | None => zero_trend date
           end in
  let typed t := String.eqb anomaly_type t in
  let e :=
    if typed "DUPLICATE_INVOICE" then
      {| date := Database.date e; duplicates := duplicates e + count; invalidGst := invalidGst e;
         missingGst := missingGst e; hsnAnomalies := hsnAnomalies e; total := total e |}
    else if typed "INVALID_GST" || typed "GST_VENDOR_MISMATCH" then
      {| date := Database.date e; duplicates := duplicates e; invalidGst := invalidGst e + count;
         missingGst := missingGst e; hsnAnomalies := hsnAnomalies e; total := total e |}
    else if typed "MISSING_GST" then
      {| date := Database.date e; duplicates := duplicates e; invalidGst := invalidGst e;
         missingGst := missingGst e + count; hsnAnomalies := hsnAnomalies e; total := total e |}
    else if typed "INVALID_HSN_SAC" || typed "HSN_GST_RATE_MISMATCH" ||
            typed "HSN_PRICE_DEVIATION" || typed "UNUSUAL_AMOUNT" then
      {| date := Database.date e; duplicates := duplicates e; invalidGst := invalidGst e;
         missingGst := missingGst e; hsnAnomalies := hsnAnomalies e + count; total := total e |}
    else e in
  <[ date :=
     {| date := Database.date e; duplicates := duplicates e; invalidGst := invalidGst e;
        missingGst := missingGst e; hsnAnomalies := hsnAnomalies e;
        total := total e + count |} ]> trends_by_date.

(** The entry appended for a day: the one of the dictionary, or zeros. *)
Definition entry_at (trends_by_date : gmap Z trend) (day : Z) : trend :=
  match trends_by_date !! day with
  | Some e => e
  | None => zero_trend day
  end.

(** The loop that fills in the missing dates with zeros:
    [while current_date <= end_date]; [None] when stepping to the next day
    raises. *)
Equations? fill_dates (trends_by_date : gmap Z trend) (end_date current_date : Z)
  : option (list trend) by wf (Z.to_nat ((end_date - current_date) / day_us + 1)) lt :=
  fill_dates trends_by_date end_date current_date with Z_le_gt_dec current_date end_date => {
    | left _ =>
        match add_days current_date 1 with
        | Some _ =>
            cons (entry_at trends_by_date (day_of current_date))
              <$> fill_dates trends_by_date end_date (current_date + day_us)
        | None => None
        end;
    | right _ => Some [] }.
Proof.
  replace (end_date - (current_date + day_us))%Z
    with ((end_date - current_date) + (-1) * day_us)%Z by ring.
  rewrite Z.div_add by (unfold day_us; lia).
  assert (0 <= (end_date - current_date) / day_us)%Z
    by (apply Z.div_pos; unfold day_us; lia).
  lia.
Qed.

(** [get_anomaly_trends]; [now] is [datetime.now()]. [None]: the function
    raises. *)
Definition get_anomaly_trends (d : db) (now : Z) (days : Z) : option (list trend) :=
  let end_date := now in
  match add_days end_date (- days) with
  | None => None
  | Some start_date =>
      let trends_by_date := fold_left add_group (trend_groups d start_date end_date) ∅ in
      fill_dates trends_by_date end_date start_date
  end.

(** The totals of the invoices of a run whose primary GST number is [g], in
    the order they are stored. *)
Definition amounts_for (g : string) (l : list (invoice_data * Z)) : list float :=
  map (fun x => total_amount (fst x))
      (List.filter (fun x => opt_eqb (head (gst_numbers (fst x))) (Some g)) l).

(** *** Queries for the dashboard *)


(** The orders of [sort('uploadDate', DESCENDING)] and
    [sort('detectedDate', DESCENDING)]. *)
Definition by_upload_desc (x y : invoice_doc) : Prop := (uploadDate y <= uploadDate x)%Z.

#[export] Instance by_upload_desc_dec : RelDecision by_upload_desc :=
  fun x y => decide (uploadDate y <= uploadDate x)%Z.

Definition by_detected_desc (x y : anomaly_doc) : Prop := (detectedDate y <= detectedDate x)%Z.

#[export] Instance by_detected_desc_dec : RelDecision by_detected_desc :=
  fun x y => decide (detectedDate y <= detectedDate x)%Z.





Record dashboard_stats := {
  ds_totalInvoices : Z;
  ds_totalVendors : Z;
  ds_totalAnomalies : Z;
  ds_highSeverityAnomalies : Z;
  ds_totalAmountProcessed : float
}.

(** [get_dashboard_stats]; [$sum] adds the amounts in the order of the
    collection. *)
Definition get_dashboard_stats (d : db) : dashboard_stats :=
  {| ds_totalInvoices := Z.of_nat (length (invoices d));
     ds_totalVendors := Z.of_nat (size (vendors d));
     ds_totalAnomalies := Z.of_nat (length (anomalies d));
     ds_highSeverityAnomalies :=
       Z.of_nat (length (List.filter (fun a => String.eqb (a_severity a) "HIGH") (anomalies d)));
     ds_totalAmountProcessed := float_sum (map totalAmount (invoices d)) |}.

(** *** States of the store *)

(** The states the store goes through: empty at first, then changed by
    [store_invoice] and by [detect_anomalies], which is given the
    identifier of an invoice as a string. *)
Inductive reachable : db -> Prop :=
| reach_empty : reachable empty_db
| reach_store (d : db) (inv : invoice_data) (now : Z) :
    reachable d -> reachable (fst (store_invoice d inv now))
| reach_detect (d : db) (inv : invoice_data) (n : nat) (now : Z) :
    reachable d -> reachable (fst (detect_anomalies d inv (HexStr n) now)).

(** The invoices of the collection whose primary GST number is [g]. *)
Definition invoices_of (g : string) (d : db) : list invoice_doc :=
  List.filter (fun i => opt_eqb (gstNumber i) (Some g)) (invoices d).

(** The GST numbers [_update_vendor_stats] keeps a row for. *)
Definition tracked (g : string) : bool :=
  truthy g && negb (String.eqb g "Unknown").

(** The eight types of anomaly. *)
Definition anomaly_types : list string :=
  [ "DUPLICATE_INVOICE"; "MISSING_GST"; "INVALID_GST"; "GST_VENDOR_MISMATCH";
    "UNUSUAL_AMOUNT"; "INVALID_HSN_SAC"; "HSN_GST_RATE_MISMATCH"; "HSN_PRICE_DEVIATION" ].

(** The types with the severity [detect_anomalies] gives them. *)
Definition anomaly_kinds : list (string * string) :=
  [ ("DUPLICATE_INVOICE", "HIGH"); ("MISSING_GST", "HIGH"); ("INVALID_GST", "HIGH");
    ("GST_VENDOR_MISMATCH", "HIGH"); ("UNUSUAL_AMOUNT", "MEDIUM");
    ("INVALID_HSN_SAC", "HIGH"); ("HSN_GST_RATE_MISMATCH", "HIGH");
    ("HSN_PRICE_DEVIATION", "MEDIUM") ].

(** The entries of one type. *)
Definition of_type (t : string) (a : anomaly) : bool := String.eqb (type a) t.

(** The two calls of the upload: the invoice is stored at [now], then its
    anomaly run, at [later], is given the identifier [store_invoice]
    returned. *)
Definition store_and_detect (d : db) (inv : invoice_data) (now later : Z)
  : db * list anomaly :=
  let '(d1, invoice_id) := store_invoice d inv now in
  detect_anomalies d1 inv invoice_id later.

(** *** What a trend entry counts *)

(** The anomalies detected between two instants on a given day. *)
Definition in_window (start_date end_date day : Z) (a : anomaly_doc) : bool :=
  (start_date <=? detectedDate a)%Z && (detectedDate a <=? end_date)%Z &&
  (day_of (detectedDate a) =? day)%Z.

(** The anomalies of one of the given types. *)
Definition typed_as (types : list string) (a : anomaly_doc) : bool :=
  existsb (String.eqb (anomalyType a)) types.

Definition count_anomalies (p : anomaly_doc -> bool) (d : db) : Z :=
  Z.of_nat (length (List.filter p (anomalies d))).

(** The sum of the counts of the groups whose key satisfies [p]. *)
Definition group_sum (p : Z * string -> bool) (groups : list ((Z * string) * Z)) : Z :=
  fold_right (fun g acc => if p (fst g) then (snd g + acc)%Z else acc) 0%Z groups.

End Database.

(** ** Sample store contents *)

Module DbSamples.
Import Database.

Definition plain_invoice (number vendor : string) (gsts : list string)
  (amount : float) (hsn : list string) : invoice_data :=
  {| invoice_number := Some number;
     vendor_name := Some vendor;
     gst_numbers := gsts;
     total_amount := amount;
     invoice_date := Some "2024-01-15";
     hsn_sac_codes := hsn;
     ocr_confidence := 95%float;
     gst_missing := match gsts with [] => true | _ => false end;
     gst_verification :=
       match gsts with
       | [] => [ {| success := false; is_active := false |} ]
       | _ => map (fun _ => {| success := true; is_active := true |}) gsts
       end;
     hsn_sac_verification := [];
     rate_mismatches := [] |}.

(** Invoice A: 10000 from Acme with one GST number; invoice B: 35000 from
    Acme with no GST number. *)
Definition invoice_A : invoice_data :=
  plain_invoice "INV-A" "Acme" ["22AAAAA0000A1Z5"] 10000%float [].
Definition invoice_B : invoice_data :=
  plain_invoice "INV-B" "Acme" [] 35000%float [].

(** Two invoices of 100 with the HSN code 8517, and a third of 1000. *)
Definition phone_1 : invoice_data :=
  plain_invoice "INV-P1" "Acme" ["22AAAAA0000A1Z5"] 100%float ["8517"].
Definition phone_2 : invoice_data :=
  plain_invoice "INV-P2" "Acme" ["22AAAAA0000A1Z5"] 100%float ["8517"].
Definition phone_3 : invoice_data :=
  plain_invoice "INV-P3" "Acme" ["22AAAAA0000A1Z5"] 1000%float ["8517"].

(** An invoice of another vendor. *)
Definition other_invoice : invoice_data :=
  plain_invoice "INV-O" "Globex" ["24ABYFM2874M1ZD"] 500%float ["9403"].

(** The store after the phone invoices were stored and checked on three
    consecutive days. *)
Definition day (n : Z) : Z := (n * day_us + 43200000000)%Z.

Definition checked_store : db :=
  let s1 := store_invoice empty_db phone_1 (day 737997) in
  let d1 := fst (detect_anomalies (fst s1) phone_1 (snd s1) (day 737997)) in
  let s2 := store_invoice d1 invoice_B (day 737998) in
  let d2 := fst (detect_anomalies (fst s2) invoice_B (snd s2) (day 737998)) in
  let s3 := store_invoice d2 phone_1 (day 738000) in
  fst (detect_anomalies (fst s3) phone_1 (snd s3) (day 738000)).

End DbSamples.

(** * Sample answers of the tax lookup API and line items *)

Module HsnSamples.
Import HsnSacVerifier.

Definition phones : tax_body :=
  {| body_description := Some "Telephone sets";
     body_cgst := Some 9%float; body_sgst := Some 9%float; body_igst := Some 18%float;
     body_cess := None; body_gst_rate := Some 18%float |}.

(** An HSN endpoint that knows the code 8517 only. *)
Definition api_hsn (c : string) : Http.outcome tax_body :=
  if String.eqb c "8517" then Http.Response 200 (Some phones)
  else Http.Response 404 None.

(** A SAC endpoint that does not answer. *)
Definition api_sac (c : string) : Http.outcome tax_body := Http.Timeout.

(** A [float] that reads the two strings of the samples. *)
Definition float_of_str (s : string) : option float :=
  if String.eqb s "18" then Some 18%float
  else if String.eqb s "12" then Some 12%float
  else None.

Definition item (c : string) (r : rate_value) : line_item :=
  {| li_hsn_code := Some c; li_hsn_sac_code := None; li_gst_rate := r;
     li_tax_rate := NoRate; li_description := Some "Phone"; li_amount := Some 1000%float |}.

(** A phone at the rate of the code, one at 12%, an item whose code is
    unknown to the API, and one without a code. *)
Definition line_items : list line_item :=
  [ item "8517" (RateText "18"); item "8517" (RateNumber 12%float);
    item "1234" (RateNumber 5%float); item "Unknown" NoRate ].

(** The same with a rate that is no number. *)
Definition unreadable_line_items : list line_item :=
  line_items ++ [ item "8517" (RateText "18 %") ].

End HsnSamples.


(* ===================================================================== *)
(** * gemini_vision_ocr.py: what [process_invoice] makes of the pages *)

Module GeminiOcr.
Import PyStr.

(** The amount of an invoice as Gemini writes it: a number or a string. *)
Inductive json_amount :=
| AmountNumber (x : float)
| AmountText (s : string).

(** The JSON object Gemini returns for a page, with values of the types
    the prompt asks for, each key possibly absent or [null]. The keys that
    are copied to the result and read by nothing after it are left out;
    [other_keys] tells whether the object has some of them. *)
Record extracted_data := {
  invoice_number : Json.field string;
  vendor_name : Json.field string;
  invoice_date : Json.field string;
  total_amount : Json.field json_amount;
  gst_numbers : Json.field (list string);
  line_items : Json.field (list HsnSacVerifier.line_item);
  raw_extracted_text : Json.field string;
  other_keys : bool
}.

(** [bool(extracted_data)]: an object is true when it has a key. *)
Definition has_keys (e : extracted_data) : bool :=
  Json.present (invoice_number e) || Json.present (vendor_name e) ||
  Json.present (invoice_date e) || Json.present (total_amount e) ||
  Json.present (gst_numbers e) || Json.present (line_items e) ||
  Json.present (raw_extracted_text e) || other_keys e.

(** The dictionary under ['structured_data']; a string is [None] when
    Gemini wrote [null] for it. *)
Record structured_data := {
  sd_invoice_number : option string;
  sd_vendor_name : option string;
  sd_invoice_date : option string;
  sd_total_amount : float;
  sd_gst_numbers : list string;
  sd_line_items : list HsnSacVerifier.line_item
}.

Record ocr_result := {
  raw_text : option string;
  confidence : float;
  structured : structured_data
}.

(** What [process_invoice] ends with: the result, the dictionary of a
    failure, or an exception. *)
Inductive outcome :=
| Extracted (r : ocr_result)
| NoData
| Raised.

(** The loop that validates and cleans the GST numbers. *)
Fixpoint valid_gst_numbers (raw_gst_numbers : list string) : list string :=
  match raw_gst_numbers with
  | [] => []
  | gst :: rest =>
      let cleaned_gst := upper (remove_char " "%char gst) in
      if (len cleaned_gst =? 15)%Z
      then cleaned_gst :: valid_gst_numbers rest
      else valid_gst_numbers rest
  end.

(** The loop that merges the line items of the pages; [None]: [extend]
    raises, on line items that are [null]. *)
Fixpoint merged_line_items (pages : list extracted_data)
  : option (list HsnSacVerifier.line_item) :=
  match pages with
  | [] => Some []
  | page_data :: rest =>
      match Json.get_or (line_items page_data) [], merged_line_items rest with
      | Some items, Some others => Some (items ++ others)
      | _, _ => None
      end
  end.

Section WithFloat.

(** [float(s)] on a string; [None]: it raises. *)
Variable float_of_str : string -> option float.

(** [float(extracted_data.get('total_amount', 0))]; [None]: it raises. *)
Definition total_of (a : Json.field json_amount) : option float :=
  match a with
  | Json.Missing => Some 0%float
  | Json.Null => None
  | Json.Value (AmountNumber x) => Some x
  | Json.Value (AmountText s) => float_of_str s
  end.

(** [process_invoice], from the answers of Gemini for the pages of the
    file, [None] for a page it could not read. *)
Definition process_invoice (pages : list (option extracted_data)) : outcome :=
  match pages with
  | [] => NoData
  | _ =>
      let all_extracted_data := List.filter has_keys (omap id pages) in
      match all_extracted_data with
      | [] => NoData
      | extracted_data :: _ =>
          (* Merge line items from all pages *)
          match merged_line_items all_extracted_data,
                (* Validate and clean GST numbers *)
                Json.get_or (gst_numbers extracted_data) [],
                total_of (total_amount extracted_data) with
          | Some all_line_items, Some raw_gst_numbers, Some total =>
              Extracted
                {| raw_text := Json.get_or (raw_extracted_text extracted_data) EmptyString;
                   confidence := 95.0%float;
                   structured :=
                     {| sd_invoice_number :=
                          Json.get_or (invoice_number extracted_data) "Unknown";
                        sd_vendor_name :=
                          Json.get_or (vendor_name extracted_data) "Unknown";
                        sd_invoice_date :=
                          Json.get_or (invoice_date extracted_data) "Unknown";
                        sd_total_amount := total;
                        sd_gst_numbers := valid_gst_numbers raw_gst_numbers;
                        sd_line_items := all_line_items |} |}
          | _, _, _ => Raised
          end
      end
  end.

End WithFloat.

End GeminiOcr.

(* ===================================================================== *)
(** * fintel_api_fixed.py: the upload *)

Module Upload.
Import PyStr PyFloat.

(** An entry of [gst_verification_results]: the verification of a GST
    number, with the name match when it succeeded, or the entry that stands
    for an invoice without a GST number. *)
Inductive gst_entry :=
| Verified (verification : GstVerifier.gst_result)
           (vendor_name_match : option GstVerifier.name_match)
| GstNotFound.

(** What the response carries under ['mlPrediction'] when the classifier
    was not called. *)
Definition no_prediction : Api.ml_result float :=
  {| Api.is_anomaly := false; Api.confidence := 0%float |}.

(** The keys of the response that come from the verifications, the
    compliance run and the store. *)
Record response := {
  invoiceId : Database.value_id;
  gstVerification : list gst_entry;
  gstMissing : bool;
  hsnSacVerification : list HsnSacVerifier.verification;
  hsnSacValid : Z;
  hsnSacInvalid : Z;
  hsnSacLineItemsVerification : option HsnSacVerifier.line_items_report;
  hsnSacRateMismatchCount : Z;
  mlPrediction : Api.ml_result float;
  compliance : Api.compliance_results float;
  databaseAnomalies : list Database.anomaly
}.

Section Pipeline.

(** The three APIs, the Python and pandas calls the module relies on, the
    classifier, the extraction of the codes and items from the text, and
    the text of the reason of a failed verification. *)
Variable gst_api : string -> Http.outcome GstVerifier.gst_api_body.
Variables api_hsn api_sac : string -> Http.outcome HsnSacVerifier.tax_body.
Variable float_of_str : string -> option float.
Variable float_mod : float -> float -> float.
Variable int_digits : float -> option Z.
Variable to_datetime : string -> option (Z * Z * Z).
Variable predict : list (Api.feature float) -> Api.ml_result float.
Variable extract_enhanced_invoice_data : string -> Api.enhanced_data float.
Variable message : HsnSacVerifier.hsn_error -> string.

(** What the store reads of the entries it is handed: [success] and
    [is_active] of a GST verification, [is_valid] of a code verification,
    and the rate mismatches, which it counts. A mismatch is recorded only
    for a rate that [float] has read. *)
Definition stored_gst_check (e : gst_entry) : Database.gst_check :=
  match e with
  | Verified verification _ =>
      {| Database.success := GstVerifier.success verification;
         Database.is_active := GstVerifier.is_active verification |}
  | GstNotFound => {| Database.success := false; Database.is_active := false |}
  end.

Definition stored_hsn_check (v : HsnSacVerifier.verification) : Database.hsn_check :=
  {| Database.is_valid := HsnSacVerifier.is_valid v;
     Database.code := Some (HsnSacVerifier.code v);
     Database.error := message <$> HsnSacVerifier.error v |}.

Definition stored_mismatch (m : HsnSacVerifier.rate_mismatch) : Database.rate_mismatch :=
  {| Database.item := HsnSacVerifier.item m;
     Database.hsn_code := HsnSacVerifier.hsn_code m;
     Database.actual_rate := HsnSacVerifier.actual_rate m;
     Database.extracted_rate :=
       HsnSacVerifier.float_or
         (HsnSacVerifier.rate_to_float float_of_str (HsnSacVerifier.extracted_rate m))
         0%float |}.

(** One turn of the loop that verifies the GST numbers; [None]: the check
    of the vendor name raises, on a vendor name that is [None] or on a
    registered name that is [null]. *)
Definition verify_gst_number (vendor_name : option string) (gst_num : string)
  : option gst_entry :=
  let verification := GstVerifier.verify_gst gst_api gst_num in
  (* Check vendor name match *)
  if GstVerifier.success verification then
    match vendor_name with
    | Some vendor_name =>
        match GstVerifier.check_vendor_name_match verification vendor_name with
        | Some name_match => Some (Verified verification (Some name_match))
        | None => None
        end
    | None => None
    end
  else Some (Verified verification None).

(** The GST numbers at which the loop raises: the number is verified, and
    the vendor name is [None] or a registered name is [null]. *)
Definition unreadable_names (vendor_name : option string) (gst_num : string) : bool :=
  let verification := GstVerifier.verify_gst gst_api gst_num in
  GstVerifier.success verification &&
  (negb (HsnSacVerifier.is_Some_b vendor_name) ||
   Json.is_null (GstVerifier.legal_name verification) ||
   Json.is_null (GstVerifier.trade_name verification)).

(** The loop: it stops at the first turn that raises. *)
Fixpoint verify_gst_loop (vendor_name : option string) (gst_numbers : list string)
  : option (list gst_entry) :=
  match gst_numbers with
  | [] => Some []
  | gst_num :: rest =>
      match verify_gst_number vendor_name gst_num with
      | Some entry => cons entry <$> verify_gst_loop vendor_name rest
      | None => None
      end
  end.

(** The GST verification of the upload. *)
Definition verify_gst_numbers (gst_numbers : list string) (vendor_name : option string)
  : option (list gst_entry) :=
  match gst_numbers with
  | [] => Some [GstNotFound]
  | _ => verify_gst_loop vendor_name gst_numbers
  end.

(** The HSN/SAC verification of the upload: with the line items when there
    are some, else code by code; [None] when [verify_with_line_items]
    raises. *)
Definition verify_hsn_sac (line_items : list HsnSacVerifier.line_item)
  (hsn_codes : list string)
  : option (list HsnSacVerifier.verification * option HsnSacVerifier.line_items_report) :=
  match line_items with
  | _ :: _ =>
      (* Method 1: Verify with line items (includes GST rate matching) *)
      match HsnSacVerifier.verify_with_line_items float_of_str api_hsn api_sac line_items with
      | Some line_items_verification =>
          Some (HsnSacVerifier.li_verifications line_items_verification,
                Some line_items_verification)
      | None => None
      end
  | [] =>
      (* Method 2: Verify all HSN codes (fallback if no line items) *)
      Some (map (HsnSacVerifier.verify_code api_hsn api_sac)
                (HsnSacVerifier.kept_codes hsn_codes), None)
  end.

(** What [upload_invoice_complete] does once the text of the invoice is
    there. *)
Definition process_extracted (d : Database.db) (ocr_result : GeminiOcr.ocr_result)
  (raw_text : string) (now later : Z) : Database.db * option response :=
  let structured_data := GeminiOcr.structured ocr_result in
  (* Enhanced data extraction *)
  let enhanced_data := extract_enhanced_invoice_data raw_text in
  (* Convert total_amount to float *)
  let total_amount_raw := GeminiOcr.sd_total_amount structured_data in
  let total_amount :=
    if nonzero total_amount_raw then total_amount_raw else 0%float in
  let invoice_data :=
    {| Api.invoice_number := GeminiOcr.sd_invoice_number structured_data;
       Api.total_amount := Api.Number total_amount;
       Api.invoice_date := GeminiOcr.sd_invoice_date structured_data;
       Api.vendor_name := GeminiOcr.sd_vendor_name structured_data;
       Api.gst_numbers := GeminiOcr.sd_gst_numbers structured_data;
       Api.ocr_confidence := GeminiOcr.confidence ocr_result;
       Api.raw_text := raw_text |} in
  (* GST Verification *)
  match verify_gst_numbers (Api.gst_numbers invoice_data) (Api.vendor_name invoice_data) with
  | None => (d, None)
  | Some gst_verification_results =>
      let gst_missing :=
        match Api.gst_numbers invoice_data with [] => true | _ => false end in
      (* HSN/SAC Code Verification *)
      let hsn_codes := Api.hsn_sac_codes enhanced_data in
      let line_items := GeminiOcr.sd_line_items structured_data in
      match verify_hsn_sac line_items hsn_codes with
      | None => (d, None)
      | Some (hsn_sac_verification_results, line_items_verification) =>
          (* ML Anomaly Detection *)
          let ml_result :=
            Api.ml_step float_of_str float_mod int_digits to_datetime predict invoice_data in
          (* Complete Compliance Processing *)
          match Api.process_complete_compliance float_of_str invoice_data enhanced_data
                  ml_result with
          | None => (d, None)
          | Some compliance_results =>
              (* Store invoice in MongoDB *)
              let invoice_storage_data :=
                {| Database.invoice_number := Api.invoice_number invoice_data;
                   Database.vendor_name := Api.vendor_name invoice_data;
                   Database.gst_numbers := Api.gst_numbers invoice_data;
                   Database.total_amount := total_amount;
                   Database.invoice_date := Api.invoice_date invoice_data;
                   Database.hsn_sac_codes := Api.hsn_sac_codes enhanced_data;
                   Database.ocr_confidence := Api.ocr_confidence invoice_data;
                   Database.gst_missing := gst_missing;
                   Database.gst_verification := map stored_gst_check gst_verification_results;
                   Database.hsn_sac_verification :=
                     map stored_hsn_check hsn_sac_verification_results;
                   Database.rate_mismatches :=
                     match line_items_verification with
                     | Some r => map stored_mismatch (HsnSacVerifier.rate_mismatches r)
                     | None => []
                     end |} in
              let '(d1, invoice_id) := Database.store_invoice d invoice_storage_data now in
              (* Detect anomalies by comparing with historical data *)
              let '(d2, db_anomalies) :=
                Database.detect_anomalies d1 invoice_storage_data invoice_id later in
              (d2,
               Some {| invoiceId := invoice_id;
                       gstVerification := gst_verification_results;
                       gstMissing := gst_missing;
                       hsnSacVerification := hsn_sac_verification_results;
                       hsnSacValid :=
                         HsnSacVerifier.count_where HsnSacVerifier.is_valid
                           hsn_sac_verification_results;
                       hsnSacInvalid :=
                         HsnSacVerifier.count_where
                           (fun v => negb (HsnSacVerifier.is_valid v))
                           hsn_sac_verification_results;
                       hsnSacLineItemsVerification := line_items_verification;
                       hsnSacRateMismatchCount :=
                         match line_items_verification with
                         | Some r => HsnSacVerifier.rate_mismatch_count r
                         | None => 0%Z
                         end;
                       mlPrediction :=
                         match ml_result with
                         | Some prediction => prediction
                         | None => no_prediction
                         end;
                       compliance := compliance_results;
                       databaseAnomalies := db_anomalies |})
          end
      end
  end.

(** [upload_invoice_complete], from the outcome of the OCR: the state of
    the store after it and the response, [None] for the response of a
    failure. The text of the invoice is [None] when Gemini wrote [null] for
    it, and the extraction of the codes raises on it. The invoice is stored
    at [now] and its anomaly run is at [later]. The analysis by the language
    model, which changes neither the store nor the keys above, is left
    out. *)
Definition upload_invoice_complete (d : Database.db) (ocr : GeminiOcr.outcome)
  (now later : Z) : Database.db * option response :=
  match ocr with
  | GeminiOcr.Extracted ocr_result =>
      match GeminiOcr.raw_text ocr_result with
      | Some raw_text => process_extracted d ocr_result raw_text now later
      | None => (d, None)
      end
  | GeminiOcr.NoData | GeminiOcr.Raised => (d, None)
  end.

End Pipeline.

End Upload.


(** * A sample upload *)

Module UploadSamples.

(** A GST API that knows one active registration. *)
Definition gst_api (g : string) : Http.outcome GstVerifier.gst_api_body :=
  if String.eqb g "24ABYFM2874M1ZD"
  then Http.Response 200
         (Some {| GstVerifier.api_success := true;
                  GstVerifier.sts := Json.Value "Active";
                  GstVerifier.lgnm := Json.Value "Acme Traders Private Limited";
                  GstVerifier.tradeName := Json.Value "Acme" |})
  else Http.Response 404 None.

Definition float_mod (x y : float) : float := x.
Definition int_digits (x : float) : option Z := Some 5%Z.
Definition to_datetime (s : string) : option (Z * Z * Z) := None.

Definition predict (features : list (Api.feature float)) : Api.ml_result float :=
  {| Api.is_anomaly := true; Api.confidence := 1%float |}.

Definition extract_enhanced_invoice_data (text : string) : Api.enhanced_data float :=
  {| Api.hsn_sac_codes := ["8517"; "1234"];
     Api.item_descriptions := ["Phone"];
     Api.quantities := [] |}.

Definition message (e : HsnSacVerifier.hsn_error) : string := "not verified".

(** The page of an invoice of 11800 with a GST number written with spaces
    and in lowercase, and the line items of the samples. *)
Definition page : GeminiOcr.extracted_data :=
  {| GeminiOcr.invoice_number := Json.Value "INV-7";
     GeminiOcr.vendor_name := Json.Value "Acme Traders";
     GeminiOcr.invoice_date := Json.Value "15-01-2024";
     GeminiOcr.total_amount := Json.Value (GeminiOcr.AmountNumber 11800%float);
     GeminiOcr.gst_numbers := Json.Value ["24 abyfm 2874 m1zd"];
     GeminiOcr.line_items := Json.Value HsnSamples.line_items;
     GeminiOcr.raw_extracted_text := Json.Value "TAX INVOICE";
     GeminiOcr.other_keys := true |}.

(** A page Gemini answered with an empty object, and a page with nothing but
    keys that are [null]. *)
Definition empty_page : GeminiOcr.extracted_data :=
  {| GeminiOcr.invoice_number := Json.Missing;
     GeminiOcr.vendor_name := Json.Missing;
     GeminiOcr.invoice_date := Json.Missing;
     GeminiOcr.total_amount := Json.Missing;
     GeminiOcr.gst_numbers := Json.Missing;
     GeminiOcr.line_items := Json.Missing;
     GeminiOcr.raw_extracted_text := Json.Missing;
     GeminiOcr.other_keys := false |}.

Definition null_page : GeminiOcr.extracted_data :=
  {| GeminiOcr.invoice_number := Json.Null;
     GeminiOcr.vendor_name := Json.Null;
     GeminiOcr.invoice_date := Json.Null;
     GeminiOcr.total_amount := Json.Missing;
     GeminiOcr.gst_numbers := Json.Missing;
     GeminiOcr.line_items := Json.Missing;
     GeminiOcr.raw_extracted_text := Json.Null;
     GeminiOcr.other_keys := false |}.

(** What the OCR stage makes of it. *)
Definition ocr_result : GeminiOcr.ocr_result :=
  {| GeminiOcr.raw_text := Some "TAX INVOICE";
     GeminiOcr.confidence := 95%float;
     GeminiOcr.structured :=
       {| GeminiOcr.sd_invoice_number := Some "INV-7";
          GeminiOcr.sd_vendor_name := Some "Acme Traders";
          GeminiOcr.sd_invoice_date := Some "15-01-2024";
          GeminiOcr.sd_total_amount := 11800%float;
          GeminiOcr.sd_gst_numbers := ["24ABYFM2874M1ZD"];
          GeminiOcr.sd_line_items := HsnSamples.line_items |} |}.

(** The upload of that page to an empty store. *)
Definition run : Database.db * option Upload.response :=
  Upload.upload_invoice_complete gst_api HsnSamples.api_hsn HsnSamples.api_sac
    HsnSamples.float_of_str float_mod int_digits to_datetime predict
    extract_enhanced_invoice_data message
    Database.empty_db (GeminiOcr.Extracted ocr_result) 1 2.

End UploadSamples.


(* ===================================================================== *)
(** * Properties *)
(* ===================================================================== *)

Import PyStr.

(** ** GST format validation *)

Lemma upper_char_fix c :
  is_digit c || is_upper c = true -> upper_char c = c /\ is_char " "%char c = false.
Proof.
  destruct c as [[] [] [] [] [] [] [] []]; vm_compute; intros H; try discriminate H; split; reflexivity.
Qed.

Lemma length_upper s : String.length (upper s) = String.length s.
Proof. induction s as [|c r IH]; simpl; [reflexivity | now rewrite IH]. Qed.

Lemma digit_fix c : is_digit c = true -> is_digit c || is_upper c = true.
Proof. intros ->. reflexivity. Qed.

Lemma upper_fix c : is_upper c = true -> is_digit c || is_upper c = true.
Proof. intros ->. apply orb_true_r. Qed.

Lemma entity_fix c : is_digit19 c || is_upper c = true -> is_digit c || is_upper c = true.
Proof.
  destruct c as [[] [] [] [] [] [] [] []]; vm_compute; intros H; try discriminate H; reflexivity.
Qed.

Lemma zed_fix c : is_char "Z"%char c = true -> is_digit c || is_upper c = true.
Proof.
  destruct c as [[] [] [] [] [] [] [] []]; vm_compute; intros H; try discriminate H; reflexivity.
Qed.

Lemma clean_fixpoint s :
  all_chars GstVerifier.spec_alnum s = true -> upper (remove_char " "%char s) = s.
Proof.
  induction s as [|c r IH]; simpl; [reflexivity|].
  intros H. apply andb_prop in H. destruct H as [Hc Hr].
  destruct (upper_char_fix c Hc) as [Hu Hs].
  rewrite Hs. simpl. rewrite Hu, (IH Hr). reflexivity.
Qed.

Lemma andb15 (b1 b2 b3 b4 b5 b6 b7 b8 b9 b10 b11 b12 b13 b14 b15 : bool) :
  b1 && b2 && b3 && b4 && b5 && b6 && b7 && b8 && b9 && b10 && b11 && b12 && b13 && b14 && b15 = true ->
  [b1; b2; b3; b4; b5; b6; b7; b8; b9; b10; b11; b12; b13; b14; b15] = repeat true 15.
Proof.
  intros H. repeat (apply andb_prop in H; destruct H as [H ?]).
  subst. reflexivity.
Qed.

(** A string the code's pattern accepts position by position is made of
    digits and uppercase letters only, has 15 characters and matches the
    regular expression. *)
Lemma canonical_shape s :
  GstVerifier.code_canonical_gst s = true ->
  all_chars GstVerifier.spec_alnum s = true /\ String.length s = 15%nat /\
  re_match_classes GstVerifier.gst_pattern s = true.
Proof.
  unfold GstVerifier.code_canonical_gst.
  do 16 (destruct s as [|? s]; cbn [list_ascii_of_string]; try discriminate).
  intros H. apply andb15 in H. injection H as H1 H2 H3 H4 H5 H6 H7 H8 H9 H10 H11 H12 H13 H14 H15.
  unfold GstVerifier.gst_pattern.
  cbn [repeat app re_match_classes all_chars String.length]. cbv beta.
  unfold GstVerifier.spec_alnum in *.
  rewrite (digit_fix _ H1), (digit_fix _ H2), (upper_fix _ H3), (upper_fix _ H4),
    (upper_fix _ H5), (upper_fix _ H6), (upper_fix _ H7), (digit_fix _ H8),
    (digit_fix _ H9), (digit_fix _ H10), (digit_fix _ H11), (upper_fix _ H12),
    (entity_fix _ H13), (zed_fix _ H14).
  rewrite H1, H2, H3, H4, H5, H6, H7, H8, H9, H10, H11, H12, H13, H14, H15.
  repeat split.
Qed.

(** [validate_gst_number] of the API accepts the same 15-character
    strings. *)
Lemma validate_gst_number_canonical s :
  GstVerifier.code_canonical_gst s = true ->
  Api.valid (Api.validate_gst_number s) = true.
Proof.
  intros H. destruct (canonical_shape s H) as (_ & _ & Hre).
  unfold Api.validate_gst_number.
  change Api.gst_pattern with GstVerifier.gst_pattern. rewrite Hre. reflexivity.
Qed.

(** C7, counterexample. Two inputs on which the claim as stated fails: a
    15-character string of the canonical pattern whose 13th character is the
    digit 0 is refused, and a 16-character string (a GST number followed by
    a space) is accepted. *)
Lemma validate_gst_format_claim_fails :
  (GstVerifier.spec_canonical_gst "22AAAAA0000A0Z5" = true /\
   GstVerifier.validate_gst_format "22AAAAA0000A0Z5" = false) /\
  (String.length "22AAAAA0000A1Z5 " = 16%nat /\
   GstVerifier.validate_gst_format "22AAAAA0000A1Z5 " = true).
Proof. vm_compute. repeat split. Qed.

(** C7, as the code has it. [validate_gst_format] returns true for every
    15-character string made of 2 digits, 5 uppercase letters, 4 digits,
    1 uppercase letter, one of 1-9 or A-Z, the letter Z and one digit or
    uppercase letter. It returns false for every input whose cleaned form,
    spaces removed and letters in uppercase, does not have 15 characters;
    for an input of ASCII characters, whose length the uppercase does not
    change, that is every input whose length, once its spaces are removed,
    is not 15. *)
Theorem validate_gst_format_canonical (s : string) :
  (GstVerifier.code_canonical_gst s = true -> GstVerifier.validate_gst_format s = true) /\
  (String.length (upper (remove_char " "%char s)) <> 15%nat ->
   GstVerifier.validate_gst_format s = false) /\
  (all_chars is_ascii s = true ->
   String.length (remove_char " "%char s) <> 15%nat ->
   GstVerifier.validate_gst_format s = false).
Proof.
  assert (Hcleaned : String.length (upper (remove_char " "%char s)) <> 15%nat ->
                     GstVerifier.validate_gst_format s = false).
  { intros H. unfold GstVerifier.validate_gst_format.
    destruct (negb (truthy s)); [reflexivity|].
    unfold len.
    destruct (Z.eqb_spec (Z.of_nat (String.length (upper (remove_char " "%char s)))) 15)
      as [E|E].
    + exfalso. apply H. lia.
    + reflexivity. }
  split; [|split].
  - intros H. destruct (canonical_shape s H) as (Hall & Hlen & Hre).
    unfold GstVerifier.validate_gst_format.
    rewrite (clean_fixpoint s Hall).
    destruct s as [|c r]; [discriminate Hlen|]. cbn [truthy negb].
    unfold len. rewrite Hlen. cbn. exact Hre.
  - exact Hcleaned.
  - intros _ H. apply Hcleaned. rewrite length_upper. exact H.
Qed.

Lemma validate_gst_format_canonical_witness :
  GstVerifier.validate_gst_format "24ABYFM2874M1ZD" = true /\
  GstVerifier.validate_gst_format "24abyfm 2874 m1zd 7" = false /\
  GstVerifier.validate_gst_format "24ABYFM 2874" = false.
Proof.
  split; [|split].
  - apply (proj1 (validate_gst_format_canonical "24ABYFM2874M1ZD")). reflexivity.
  - apply (proj1 (proj2 (validate_gst_format_canonical "24abyfm 2874 m1zd 7"))).
    vm_compute. lia.
  - apply (proj2 (proj2 (validate_gst_format_canonical "24ABYFM 2874"))).
    + reflexivity.
    + vm_compute. lia.
Defined.

(** ** Compliance score *)

Import PyFloat.

(** C1, on the code. An invoice that satisfies every item of the checklist
    and carries three well-formed GST numbers earns 12.5 points of 12: its
    compliance score is 104.16..., above 100. *)
Theorem compliance_score_exceeds_100 (float_of_str : string -> option float) :
  exists r,
    Api.process_complete_compliance float_of_str Samples.full_invoice Samples.full_enhanced None = Some r /\
    Api.checks_passed r = 12.5%float /\
    Api.total_checks r = 12%float /\
    PrimFloat.ltb 100%float (Api.compliance_score r) = true.
Proof.
  eexists. split; [vm_compute; reflexivity|].
  vm_compute. repeat split.
Qed.

(** With two well-formed GST numbers the same invoice scores exactly 100. *)
Lemma compliance_score_two_gst (float_of_str : string -> option float) :
  Api.compliance_score <$>
    Api.process_complete_compliance float_of_str Samples.two_gst_invoice Samples.full_enhanced None
  = Some 100%float.
Proof. vm_compute. reflexivity. Qed.

(** ** Feature vector *)

Section Features.
Context {F : Type} `{Ops F}.
Variable float_of_str : string -> option F.
Variable float_mod : F -> F -> F.
Variable int_digits : F -> option Z.
Variable to_datetime : string -> option (Z * Z * Z).

(** The vector built has 14 slots. *)
Lemma built_features_length (inv : Api.invoice_data F) (features : list (Api.feature F)) :
  Api.built_features float_of_str float_mod int_digits to_datetime inv = Some features ->
  length features = 14.
Proof.
  unfold Api.built_features.
  assert (Hdate : exists a b c,
    (if truthy_opt (Api.invoice_date inv)
     then match Api.invoice_date inv with
          | Some d =>
              match to_datetime d with
              | Some (dayofweek, day, month) =>
                  [Api.FInt dayofweek; Api.FInt day; Api.FInt month]
              | None => [Api.FInt 0; Api.FInt 0; Api.FInt 0]
              end
          | None => [Api.FInt 0; Api.FInt 0; Api.FInt 0]
          end
     else [Api.FInt 0; Api.FInt 0; Api.FInt 0]) = [a; b; c] :> list (Api.feature F)).
  { destruct (truthy_opt (Api.invoice_date inv)); [|eauto].
    destruct (Api.invoice_date inv) as [d|]; [|eauto].
    destruct (to_datetime d) as [[[dw dd] dm]|]; eauto. }
  destruct Hdate as (a & b & c & ->).
  destruct (Api.amount_truthy (Api.total_amount inv)).
  - destruct (Api.amount_to_float float_of_str (Api.total_amount inv)) as [amount|]; [|discriminate].
    destruct (int_digits amount) as [n|]; [|discriminate].
    intros E. injection E as <-. reflexivity.
  - intros E. injection E as <-. reflexivity.
Qed.

(** C3, on the code. The vector [extract_ml_features] builds has the 14
    slots of the contract, and the function returns it only when it has at
    least 16: it returns [None] on every invoice, and the classifier is never
    called. *)
Theorem extract_ml_features_returns_none
  (predict : list (Api.feature F) -> Api.ml_result F) (inv : Api.invoice_data F) :
  Api.extract_ml_features float_of_str float_mod int_digits to_datetime inv = None /\
  Api.ml_step float_of_str float_mod int_digits to_datetime predict inv = None.
Proof.
  assert (E : Api.extract_ml_features float_of_str float_mod int_digits to_datetime inv = None).
  { unfold Api.extract_ml_features.
    destruct (Api.built_features float_of_str float_mod int_digits to_datetime inv)
      as [features|] eqn:Eb; [|reflexivity].
    rewrite (built_features_length inv features Eb). reflexivity. }
  split; [exact E|]. unfold Api.ml_step. rewrite E. reflexivity.
Qed.

(** On an invoice with a number as its total, the slots are the ones of the
    contract, in its order. *)
Lemma built_features_slots (inv : Api.invoice_data F) (amount : F) (n : Z) :
  Api.total_amount inv = Api.Number amount ->
  nonzero amount = true ->
  int_digits amount = Some n ->
  Api.invoice_date inv = None ->
  Api.built_features float_of_str float_mod int_digits to_datetime inv =
  Some [ Api.FNum amount; Api.FNum (float_mod amount (lit 1000%float)); Api.FInt n;
         Api.FInt 0; Api.FInt 0; Api.FInt 0;
         Api.FNum (Api.ocr_confidence inv);
         Api.FInt (len (Api.raw_text inv));
         Api.FInt (Z.of_nat (length (Api.gst_numbers inv)));
         Api.flag (truthy_opt (Api.vendor_name inv));
         Api.flag (truthy_opt (Api.invoice_number inv));
         Api.FInt 0;
         Api.FInt 1;
         Api.FInt 0 ].
Proof.
  intros Ea Hnz Hd Hdate. unfold Api.built_features.
  rewrite Ea, Hdate. cbn [Api.amount_truthy Api.amount_to_float truthy_opt].
  rewrite Hnz, Hd. reflexivity.
Qed.

End Features.

(** ** Arithmetic check *)

(** *** Rounding in binary64 *)

Module Binary64Facts.
Import Binary64.
Local Open Scope R_scope.

Lemma bpow_pos e : 0 < bpow e.
Proof. apply powerRZ_lt. lra. Qed.

Lemma bpow_plus a b : bpow (a + b) = bpow a * bpow b.
Proof. apply powerRZ_add. lra. Qed.

Lemma bpow_succ e : bpow (e + 1) = 2 * bpow e.
Proof. rewrite bpow_plus. unfold bpow at 2. rewrite powerRZ_1. lra. Qed.

Lemma bpow_IZR e : (0 <= e)%Z -> bpow e = IZR (2 ^ e).
Proof.
  intros He. destruct e as [|p|p]; [reflexivity| |lia].
  unfold bpow. rewrite <- Zpower_pos_powerRZ. reflexivity.
Qed.

Lemma bpow_le a b : (a <= b)%Z -> bpow a <= bpow b.
Proof.
  intros H. replace b with (a + (b - a))%Z by lia. rewrite bpow_plus.
  rewrite (bpow_IZR (b - a)) by lia.
  assert (1 <= IZR (2 ^ (b - a))).
  { apply IZR_le. assert (0 < 2 ^ (b - a))%Z by (apply Z.pow_pos_nonneg; lia). lia. }
  pose proof (bpow_pos a). nra.
Qed.

Lemma bpow_lt a b : (a < b)%Z -> bpow a < bpow b.
Proof.
  intros H. apply Rlt_le_trans with (bpow (a + 1)).
  - rewrite bpow_succ. pose proof (bpow_pos a). lra.
  - apply bpow_le. lia.
Qed.

(** Number of binary digits. *)
Lemma digits2_pos_bounds (p : positive) :
  (2 ^ (Z.pos (digits2_pos p) - 1) <= Z.pos p < 2 ^ Z.pos (digits2_pos p))%Z.
Proof.
  induction p as [p IH|p IH|]; cbn [digits2_pos].
  - rewrite Pos2Z.inj_succ.
    replace (Z.succ (Z.pos (digits2_pos p)) - 1)%Z with (Z.succ (Z.pos (digits2_pos p) - 1)) by lia.
    rewrite !Z.pow_succ_r by lia. lia.
  - rewrite Pos2Z.inj_succ.
    replace (Z.succ (Z.pos (digits2_pos p)) - 1)%Z with (Z.succ (Z.pos (digits2_pos p) - 1)) by lia.
    rewrite !Z.pow_succ_r by lia. lia.
  - cbn. lia.
Qed.

Lemma Zdigits2_bounds (m : Z) :
  (0 < m)%Z -> (2 ^ (Zdigits2 m - 1) <= m < 2 ^ Zdigits2 m)%Z.
Proof. destruct m as [|p|p]; try lia. intros _. apply digits2_pos_bounds. Qed.

Lemma Zdigits2_nonneg (m : Z) : (0 <= Zdigits2 m)%Z.
Proof. destruct m; cbn; lia. Qed.

Lemma Zdigits2_pos (m : Z) : (0 < m)%Z -> (0 < Zdigits2 m)%Z.
Proof. destruct m; cbn; lia. Qed.

(** [d] is the number of digits of [m] as soon as [2^(d-1) <= m < 2^d]. *)
Lemma Zdigits2_unique (m d : Z) :
  (0 < m)%Z -> (2 ^ (d - 1) <= m < 2 ^ d)%Z -> Zdigits2 m = d.
Proof.
  intros Hm [H1 H2]. pose proof (Zdigits2_bounds m Hm) as [B1 B2].
  pose proof (Zdigits2_pos m Hm) as Hd.
  assert (Hd' : (0 < d)%Z).
  { destruct (Z_lt_le_dec 0 d) as [|Hn]; [assumption|].
    assert (2 ^ d <= 1)%Z.
    { destruct (Z.eq_dec d 0%Z) as [->|]; [cbn; lia|]. rewrite Z.pow_neg_r by lia. lia. }
    lia. }
  destruct (Z.lt_trichotomy (Zdigits2 m) d) as [Hlt | [Heq | Hgt]]; [|assumption|].
  - assert (2 ^ Zdigits2 m <= 2 ^ (d - 1))%Z by (apply Z.pow_le_mono_r; lia). lia.
  - assert (2 ^ d <= 2 ^ (Zdigits2 m - 1))%Z by (apply Z.pow_le_mono_r; lia). lia.
Qed.

Lemma Zdigits2_le (m n : Z) : (0 < m <= n)%Z -> (Zdigits2 m <= Zdigits2 n)%Z.
Proof.
  intros [Hm Hn]. pose proof (Zdigits2_bounds m Hm) as [B1 _].
  assert (Hn0 : (0 < n)%Z) by lia.
  pose proof (Zdigits2_bounds n Hn0) as [_ B2].
  destruct (Z_le_gt_dec (Zdigits2 m) (Zdigits2 n)) as [|Hgt]; [assumption|].
  assert (2 ^ Zdigits2 n <= 2 ^ (Zdigits2 m - 1))%Z.
  { apply Z.pow_le_mono_r; [lia|]. lia. }
  lia.
Qed.

(** **** Locations *)

Lemma shr_1_cases (m : Z) (r s : bool) :
  (0 <= m)%Z ->
  exists q b,
    m = (2 * q + Z.b2z b)%Z /\ (0 <= q)%Z /\
    shr_1 {| shr_m := m; shr_r := r; shr_s := s |} =
    {| shr_m := q; shr_r := b; shr_s := r || s |}.
Proof.
  intros Hm. destruct m as [|[p|p|]|p]; try lia.
  - exists 0%Z, false. repeat split; lia.
  - exists (Z.pos p), true. repeat split; cbn; lia.
  - exists (Z.pos p), false. repeat split; cbn; lia.
  - exists 0%Z, true. repeat split; cbn; lia.
Qed.

Lemma shr_1_inbetween (mrs : shr_record) (e : Z) (x : R) :
  (0 <= shr_m mrs)%Z ->
  inbetween_rec mrs e x ->
  inbetween_rec (shr_1 mrs) (e + 1) x /\
  (0 <= shr_m (shr_1 mrs))%Z /\
  shr_m (shr_1 mrs) = (shr_m mrs / 2)%Z.
Proof.
  destruct mrs as [m r s]. cbn [shr_m]. intros Hm.
  destruct (shr_1_cases m r s Hm) as (q & b & Hq & Hq0 & ->).
  unfold inbetween_rec. cbn [shr_m loc_of_shr_record].
  intros Hx. split; [|split; [assumption|]].
  - subst m. pose proof (bpow_pos e) as HB.
    unfold inbetween, F2R, loc_ok in *. rewrite bpow_succ.
    destruct b, r, s; cbn [orb Z.b2z loc_of_shr_record] in *;
      rewrite ?plus_IZR, ?mult_IZR in *; cbn [IZR IPR IPR_2] in *;
      repeat match goal with H : _ /\ _ |- _ => destruct H end;
      repeat split; nra.
  - subst m. destruct b; cbn [Z.b2z].
    + rewrite Z.add_comm, Z.mul_comm, Z.div_add by lia. reflexivity.
    + rewrite Z.add_0_r, Z.mul_comm, Z.div_mul by lia. reflexivity.
Qed.

Lemma iter_shr_1_inbetween (p : positive) :
  forall (mrs : shr_record) (e : Z) (x : R),
    (0 <= shr_m mrs)%Z ->
    inbetween_rec mrs e x ->
    inbetween_rec (SpecFloat.iter_pos shr_1 p mrs) (e + Z.pos p) x /\
    (0 <= shr_m (SpecFloat.iter_pos shr_1 p mrs))%Z /\
    shr_m (SpecFloat.iter_pos shr_1 p mrs) = (shr_m mrs / 2 ^ Z.pos p)%Z.
Proof.
  induction p as [p IH|p IH|]; intros mrs e x Hm Hx; cbn [SpecFloat.iter_pos].
  - destruct (shr_1_inbetween mrs e x Hm Hx) as (H1 & H1m & H1d).
    destruct (IH _ _ _ H1m H1) as (H2 & H2m & H2d).
    destruct (IH _ _ _ H2m H2) as (H3 & H3m & H3d).
    split; [|split; [assumption|]].
    + replace (e + Z.pos p~1)%Z with (e + 1 + Z.pos p + Z.pos p)%Z by lia. exact H3.
    + rewrite H3d, H2d, H1d.
      assert (0 < 2 ^ Z.pos p)%Z by (apply Z.pow_pos_nonneg; lia).
      rewrite !Z.div_div by lia.
      replace (Z.pos p~1) with (1 + Z.pos p + Z.pos p)%Z by lia.
      rewrite !Z.pow_add_r by lia. f_equal. change (2 ^ 1)%Z with 2%Z. lia.
  - destruct (IH _ _ _ Hm Hx) as (H2 & H2m & H2d).
    destruct (IH _ _ _ H2m H2) as (H3 & H3m & H3d).
    split; [|split; [assumption|]].
    + replace (e + Z.pos p~0)%Z with (e + Z.pos p + Z.pos p)%Z by lia. exact H3.
    + rewrite H3d, H2d.
      assert (0 < 2 ^ Z.pos p)%Z by (apply Z.pow_pos_nonneg; lia).
      rewrite !Z.div_div by lia.
      replace (Z.pos p~0) with (Z.pos p + Z.pos p)%Z by lia.
      rewrite !Z.pow_add_r by lia. reflexivity.
  - destruct (shr_1_inbetween mrs e x Hm Hx) as (H1 & H1m & H1d).
    split; [exact H1|]. split; [assumption|]. rewrite H1d. reflexivity.
Qed.

Lemma shr_inbetween (mrs : shr_record) (e n : Z) (x : R) :
  (0 <= shr_m mrs)%Z ->
  inbetween_rec mrs e x ->
  (0 <= n)%Z ->
  let '(mrs', e') := shr mrs e n in
  inbetween_rec mrs' e' x /\ (0 <= shr_m mrs')%Z /\
  shr_m mrs' = (shr_m mrs / 2 ^ n)%Z /\ e' = (e + n)%Z.
Proof.
  intros Hm Hx Hn. unfold shr. destruct n as [|p|p]; [| |lia].
  - rewrite Z.div_1_r, Z.add_0_r. repeat split; assumption.
  - destruct (iter_shr_1_inbetween p mrs e x Hm Hx) as (H1 & H2 & H3).
    repeat split; assumption.
Qed.

Lemma shr_record_of_loc_rec (m : Z) (l : location) :
  shr_m (shr_record_of_loc m l) = m /\
  loc_of_shr_record (shr_record_of_loc m l) = l.
Proof. destruct l as [|[| |]]; split; reflexivity. Qed.

(** **** Rounding to nearest, ties to even *)

Lemma fexp64_eq e : fexp64 e = Z.max (e - 53) (-1074).
Proof. reflexivity. Qed.

Lemma F2R_0 e : F2R 0 e = 0.
Proof. unfold F2R. lra. Qed.

Lemma F2R_ge_0 m e : (0 <= m)%Z -> 0 <= F2R m e.
Proof.
  intros Hm. unfold F2R. pose proof (bpow_pos e). apply IZR_le in Hm.
  apply Rmult_le_pos; lra.
Qed.

(** A mantissa of [d] digits is at least [2^(d-1)]. *)
Lemma F2R_ge_bpow m e :
  (0 < m)%Z -> bpow (Zdigits2 m - 1 + e) <= F2R m e.
Proof.
  intros Hm. destruct (Zdigits2_bounds m Hm) as [B1 _].
  pose proof (Zdigits2_pos m Hm) as Hd.
  rewrite bpow_plus, (bpow_IZR (Zdigits2 m - 1)) by lia.
  unfold F2R. apply IZR_le in B1. pose proof (bpow_pos e). nra.
Qed.

Lemma round_nearest_even_correct (m e : Z) (l : location) (x : R) :
  (0 <= m)%Z ->
  inbetween m e l x ->
  let m' := round_nearest_even m l in
  (m' = m \/ m' = (m + 1)%Z) /\
  Rabs (F2R m' e - x) <= / 2 * bpow e.
Proof.
  intros Hm Hx. cbv zeta. pose proof (bpow_pos e) as HB.
  unfold inbetween, loc_ok, F2R in Hx.
  destruct l as [|[| |]]; cbn [round_nearest_even].
  - split; [left; reflexivity|]. subst x. unfold F2R.
    rewrite Rminus_diag, Rabs_R0. lra.
  - destruct Hx as [[H1 H2] H3]. rewrite plus_IZR in H2.
    destruct (Z.even m).
    + split; [left; reflexivity|]. unfold F2R. apply Rabs_le. lra.
    + split; [right; reflexivity|]. unfold F2R. rewrite plus_IZR. apply Rabs_le. lra.
  - destruct Hx as [[H1 H2] H3]. rewrite plus_IZR in H2.
    split; [left; reflexivity|]. unfold F2R. apply Rabs_le. lra.
  - destruct Hx as [[H1 H2] H3]. rewrite plus_IZR in H2.
    split; [right; reflexivity|]. unfold F2R. rewrite plus_IZR. apply Rabs_le. lra.
Qed.

(** The number of digits after a shift to the right. *)
Lemma Zdigits2_shift (m n : Z) :
  (0 < m)%Z -> (0 <= n)%Z -> (0 < m / 2 ^ n)%Z ->
  (Zdigits2 (m / 2 ^ n) <= Zdigits2 m - n)%Z.
Proof.
  intros Hm Hn Hq. destruct (Zdigits2_bounds m Hm) as [_ B2].
  destruct (Zdigits2_bounds _ Hq) as [B1 _].
  assert (H2n : (0 < 2 ^ n)%Z) by (apply Z.pow_pos_nonneg; lia).
  assert (Hnd : (n <= Zdigits2 m)%Z).
  { destruct (Z_le_gt_dec n (Zdigits2 m)) as [|Hgt]; [assumption|].
    assert (2 ^ Zdigits2 m <= 2 ^ n)%Z by (apply Z.pow_le_mono_r; lia).
    rewrite Z.div_small in Hq by lia. lia. }
  assert (Hlt : (m / 2 ^ n < 2 ^ (Zdigits2 m - n))%Z).
  { apply Z.div_lt_upper_bound; [lia|].
    rewrite <- Z.pow_add_r by lia. replace (n + (Zdigits2 m - n))%Z with (Zdigits2 m) by lia.
    exact B2. }
  destruct (Z_le_gt_dec (Zdigits2 (m / 2 ^ n)) (Zdigits2 m - n)) as [|Hgt]; [assumption|].
  assert (2 ^ (Zdigits2 m - n) <= 2 ^ (Zdigits2 (m / 2 ^ n) - 1))%Z
    by (apply Z.pow_le_mono_r; lia).
  lia.
Qed.

(** The number of digits of the successor. *)
Lemma Zdigits2_succ (m : Z) :
  (0 < m)%Z ->
  Zdigits2 (m + 1) = Zdigits2 m \/
  (Zdigits2 (m + 1) = (Zdigits2 m + 1)%Z /\ Z.even (m + 1) = true).
Proof.
  intros Hm. destruct (Zdigits2_bounds m Hm) as [B1 B2].
  pose proof (Zdigits2_pos m Hm) as Hd.
  destruct (Z_lt_le_dec (m + 1) (2 ^ Zdigits2 m)) as [Hlt | Hge].
  - left. apply Zdigits2_unique; lia.
  - right. assert (E : (m + 1 = 2 ^ Zdigits2 m)%Z) by lia. split.
    + apply Zdigits2_unique; [lia|].
      replace (Zdigits2 m + 1 - 1)%Z with (Zdigits2 m) by lia.
      rewrite Z.pow_add_r by lia. change (2 ^ 1)%Z with 2%Z. lia.
    + rewrite E. replace (Zdigits2 m) with (Z.succ (Zdigits2 m - 1)) by lia.
      rewrite Z.pow_succ_r by lia. rewrite Z.even_mul. reflexivity.
Qed.

(** The second shift of [binary_round_aux] loses nothing. *)
Lemma shr_exact (m e n : Z) :
  (0 <= m)%Z ->
  (n <= 0)%Z \/ (n = 1%Z /\ Z.even m = true) ->
  let '(mrs, e') := shr (shr_record_of_loc m loc_Exact) e n in
  F2R (shr_m mrs) e' = F2R m e /\ (0 <= shr_m mrs)%Z /\ (e' <= e + 1)%Z /\
  (0 < m -> 0 < shr_m mrs)%Z.
Proof.
  intros Hm [Hn | [-> He]].
  - unfold shr. destruct n as [|p|p]; try lia; cbn [shr_record_of_loc shr_m];
      repeat split; (lia || assumption).
  - cbn [shr shr_record_of_loc SpecFloat.iter_pos].
    destruct (shr_1_cases m false false Hm) as (q & b & Hq & Hq0 & ->).
    cbn [shr_m]. subst m. destruct b.
    + rewrite Z.even_add, Z.even_mul in He. discriminate He.
    + cbn [Z.b2z]. rewrite Z.add_0_r. unfold F2R. rewrite bpow_succ, mult_IZR.
      repeat split; try lia. cbn [IZR IPR IPR_2]. lra.
Qed.

Lemma binary_round_aux_correct (sx : bool) (mx ex : Z) (lx : location) (x : R) :
  (0 <= mx)%Z ->
  inbetween mx ex lx x ->
  (ex <= fexp64 (Zdigits2 mx + ex))%Z ->
  x < bpow 1023 ->
  exists r,
    (binary_round_aux 53 1024 sx mx ex lx = S754_zero sx /\ r = 0 \/
     exists m e, binary_round_aux 53 1024 sx mx ex lx = S754_finite sx m e /\
                 r = F2R (Z.pos m) e) /\
    Rabs (r - x) <= u64 * x + eta64.
Proof.
  intros Hm Hx Hn Hover.
  assert (Hx0 : 0 <= x).
  { pose proof (F2R_ge_0 mx ex Hm). unfold inbetween in Hx.
    destruct lx as [|c]; [subst x; assumption | lra]. }
  assert (Hlow : F2R mx ex <= x).
  { unfold inbetween in Hx. destruct lx as [|c]; lra. }
  unfold binary_round_aux, shr_fexp. fold (fexp64 (Zdigits2 mx + ex)).
  set (d := Zdigits2 mx) in *.
  set (n := (fexp64 (d + ex) - ex)%Z).
  assert (Hn0 : (0 <= n)%Z) by (subst n; lia).
  destruct (shr_record_of_loc_rec mx lx) as [Em El].
  assert (Hrec : inbetween_rec (shr_record_of_loc mx lx) ex x).
  { unfold inbetween_rec. rewrite Em, El. exact Hx. }
  assert (Hm' : (0 <= shr_m (shr_record_of_loc mx lx))%Z) by (rewrite Em; exact Hm).
  pose proof (shr_inbetween _ ex n x Hm' Hrec Hn0) as Hshr.
  destruct (shr (shr_record_of_loc mx lx) ex n) as [mrs1 e1].
  destruct Hshr as (H1 & H1m & H1d & He1). rewrite Em in H1d.
  assert (Ee1 : e1 = fexp64 (d + ex)) by (subst n; lia).
  (* the exponent is small enough *)
  assert (He1max : (e1 <= 970)%Z).
  { rewrite Ee1, fexp64_eq. destruct (Z.eq_dec mx 0%Z) as [E0 | E0].
    - subst d. rewrite E0 in *. cbn [Zdigits2] in *. rewrite fexp64_eq in Hn. lia.
    - assert (Hpos : (0 < mx)%Z) by lia.
      pose proof (F2R_ge_bpow mx ex Hpos) as Hb. fold d in Hb.
      destruct (Z_lt_le_dec (d - 1 + ex) 1023) as [|Hge]; [lia|].
      pose proof (bpow_le 1023 (d - 1 + ex) Hge). lra. }
  (* the bound of half a unit in the last place *)
  assert (Hulp : / 2 * bpow e1 <= u64 * x + eta64).
  { unfold u64, eta64. rewrite Ee1, fexp64_eq.
    destruct (Z.max_spec (d + ex - 53) (-1074)) as [[Hlt ->] | [Hge ->]].
    - replace (-1074)%Z with (-1075 + 1)%Z by lia. rewrite bpow_succ.
      pose proof (bpow_pos (-53)). pose proof (bpow_pos (-1075)). nra.
    - destruct (Z.eq_dec mx 0%Z) as [E0 | E0].
      + subst d. rewrite E0 in *. cbn [Zdigits2] in *. rewrite fexp64_eq in Hn. lia.
      + assert (Hpos : (0 < mx)%Z) by lia.
        pose proof (F2R_ge_bpow mx ex Hpos) as Hb. fold d in Hb.
        replace (d - 1 + ex)%Z with ((d + ex - 53 - 1) + 53)%Z in Hb by lia.
        rewrite bpow_plus in Hb.
        replace (d + ex - 53)%Z with ((d + ex - 53 - 1) + 1)%Z at 1 by lia.
        rewrite bpow_succ.
        assert (E53 : bpow (-53) * bpow 53 = 1).
        { rewrite <- bpow_plus. reflexivity. }
        pose proof (bpow_pos (-53)). pose proof (bpow_pos (-1075)).
        pose proof (bpow_pos (d + ex - 53 - 1)). pose proof (bpow_pos 53).
        set (A := bpow (d + ex - 53 - 1)) in *.
        assert (A = bpow (-53) * (A * bpow 53)) by (rewrite Rmult_comm, Rmult_assoc, (Rmult_comm (bpow 53)), E53; lra).
        assert (bpow (-53) * (A * bpow 53) <= bpow (-53) * x).
        { apply Rmult_le_compat_l; lra. }
        lra. }
  (* first rounding *)
  unfold inbetween_rec in H1.
  destruct (round_nearest_even_correct _ e1 _ x H1m H1) as [Hm2 Herr].
  set (m2 := round_nearest_even (shr_m mrs1) (loc_of_shr_record mrs1)) in *.
  assert (Hm20 : (0 <= m2)%Z) by lia.
  (* the digits after the first shift *)
  assert (HA : (fexp64 (Zdigits2 (shr_m mrs1) + e1) <= e1)%Z).
  { destruct (Z.eq_dec (shr_m mrs1) 0%Z) as [E0 | E0].
    - rewrite E0. cbn [Zdigits2]. rewrite fexp64_eq. rewrite Ee1, fexp64_eq. lia.
    - assert (Hq : (0 < mx / 2 ^ n)%Z) by lia.
      assert (Hpos : (0 < mx)%Z).
      { destruct (Z.eq_dec mx 0%Z) as [E|E]; [|lia]. rewrite E, Z.div_0_l in Hq; [lia|].
        assert (0 < 2 ^ n)%Z by (apply Z.pow_pos_nonneg; lia). lia. }
      pose proof (Zdigits2_shift mx n Hpos Hn0 Hq) as Hd. rewrite <- H1d in Hd. fold d in Hd.
      unfold n in Hd. rewrite fexp64_eq in Hd.
      rewrite !fexp64_eq. rewrite Ee1, fexp64_eq. lia. }
  (* second shift *)
  assert (Hn2 : (fexp64 (Zdigits2 m2 + e1) - e1 <= 0)%Z \/
                ((fexp64 (Zdigits2 m2 + e1) - e1 = 1)%Z /\ Z.even m2 = true)).
  { destruct Hm2 as [-> | E2]; [left; lia|].
    destruct (Z.eq_dec (shr_m mrs1) 0%Z) as [E0 | E0].
    - left. rewrite E2, E0. change (Zdigits2 (0 + 1)) with 1%Z.
      rewrite fexp64_eq. rewrite Ee1, fexp64_eq. lia.
    - assert (Hpos1 : (0 < shr_m mrs1)%Z) by lia.
      destruct (Zdigits2_succ _ Hpos1) as [Hsame | [Hmore Heven]]; rewrite E2.
      + left. rewrite Hsame. lia.
      + rewrite Hmore. rewrite fexp64_eq in *.
        destruct (Z_le_gt_dec (Z.max (Zdigits2 (shr_m mrs1) + 1 + e1 - 53) (-1074) - e1) 0);
          [left; assumption | right; split; [lia | assumption]]. }
  pose proof (shr_exact m2 e1 _ Hm20 Hn2) as Hsh2.
  fold (fexp64 (Zdigits2 m2 + e1)).
  destruct (shr (shr_record_of_loc m2 loc_Exact) e1 (fexp64 (Zdigits2 m2 + e1) - e1))
    as [mrs2 e2].
  destruct Hsh2 as (Hval & Hm2' & He2 & _).
  exists (F2R m2 e1). split.
  - destruct (shr_m mrs2) as [|p|p] eqn:Ep; [| |lia].
    + left. split; [reflexivity|]. rewrite <- Hval. apply F2R_0.
    + right. assert (Hle : (e2 <=? 1024 - 53)%Z = true) by (apply Z.leb_le; lia).
      rewrite Hle. exists p, e2. split; [reflexivity | symmetry; exact Hval].
  - lra.
Qed.

(** **** Valid data *)

Lemma valid_finite (s : bool) (m : positive) (e : Z) :
  SpecFloat.valid_binary 53 1024 (S754_finite s m e) = true ->
  fexp64 (Zdigits2 (Z.pos m) + e) = e /\ (e <= 971)%Z.
Proof.
  cbn [valid_binary]. unfold bounded, canonical_mantissa. intros H.
  apply andb_prop in H. destruct H as [H1 H2].
  apply Z.eqb_eq in H1. apply Z.leb_le in H2. split; [exact H1 | exact H2].
Qed.

Lemma Rabs_signed (s : bool) (a b : R) : Rabs (signed s a - signed s b) = Rabs (a - b).
Proof.
  destruct s; cbn [signed]; [|reflexivity].
  replace (- a - - b) with (- (a - b)) by lra. apply Rabs_Ropp.
Qed.

Lemma SF2R_finite (s : bool) (m : positive) (e : Z) :
  SF2R (S754_finite s m e) = signed s (F2R (Z.pos m) e).
Proof. destruct s; reflexivity. Qed.

Lemma F2R_pos (m : positive) (e : Z) : 0 < F2R (Z.pos m) e.
Proof.
  unfold F2R. pose proof (bpow_pos e).
  assert (0 < IZR (Z.pos m)) by (apply IZR_lt; lia).
  apply Rmult_lt_0_compat; assumption.
Qed.

Lemma binary_round_aux_rounds (sx : bool) (mx ex : Z) (lx : location) (x : R) :
  (0 <= mx)%Z ->
  inbetween mx ex lx x ->
  (ex <= fexp64 (Zdigits2 mx + ex))%Z ->
  x < bpow 1023 ->
  rounds_to (binary_round_aux 53 1024 sx mx ex lx) sx x.
Proof.
  intros Hm Hx Hn Ho.
  destruct (binary_round_aux_correct sx mx ex lx x Hm Hx Hn Ho) as (r & Hz & Hr).
  destruct Hz as [[-> ->] | (m & e & -> & ->)].
  - split; [left; reflexivity|]. exists 0. split; [lra|]. split; [|exact Hr].
    destruct sx; cbn [SF2R signed]; lra.
  - split; [right; eauto|]. exists (F2R (Z.pos m) e).
    split; [left; apply F2R_pos|]. split; [apply SF2R_finite | exact Hr].
Qed.

(** **** Multiplication *)

Lemma Zdigits2_mul_ge (a b : Z) :
  (0 < a)%Z -> (0 < b)%Z -> (Zdigits2 a + Zdigits2 b - 1 <= Zdigits2 (a * b))%Z.
Proof.
  intros Ha Hb. destruct (Zdigits2_bounds a Ha) as [A1 _].
  destruct (Zdigits2_bounds b Hb) as [B1 _].
  pose proof (Zdigits2_pos a Ha). pose proof (Zdigits2_pos b Hb).
  assert (Hab : (0 < a * b)%Z) by lia.
  destruct (Zdigits2_bounds _ Hab) as [_ C2].
  assert (Hp : (2 ^ (Zdigits2 a - 1 + (Zdigits2 b - 1)) <= a * b)%Z).
  { rewrite Z.pow_add_r by lia. apply Z.mul_le_mono_nonneg; try lia;
      apply Z.pow_nonneg; lia. }
  destruct (Z_le_gt_dec (Zdigits2 a + Zdigits2 b - 1) (Zdigits2 (a * b))) as [|Hgt];
    [assumption|].
  assert (2 ^ Zdigits2 (a * b) <= 2 ^ (Zdigits2 a - 1 + (Zdigits2 b - 1)))%Z
    by (apply Z.pow_le_mono_r; lia).
  lia.
Qed.

Lemma SFmul_finite (sx sy : bool) (mx my : positive) (ex ey : Z) :
  SpecFloat.valid_binary 53 1024 (S754_finite sx mx ex) = true ->
  SpecFloat.valid_binary 53 1024 (S754_finite sy my ey) = true ->
  F2R (Z.pos mx) ex * F2R (Z.pos my) ey < bpow 1023 ->
  rounds_to (SFmul 53 1024 (S754_finite sx mx ex) (S754_finite sy my ey))
            (xorb sx sy) (F2R (Z.pos mx) ex * F2R (Z.pos my) ey).
Proof.
  intros Vx Vy Ho. cbn [SFmul].
  destruct (valid_finite _ _ _ Vx) as [Cx _]. destruct (valid_finite _ _ _ Vy) as [Cy _].
  apply binary_round_aux_rounds; try assumption.
  - lia.
  - cbn [inbetween]. unfold F2R. rewrite Pos2Z.inj_mul, mult_IZR, bpow_plus. ring.
  - rewrite Pos2Z.inj_mul.
    pose proof (Zdigits2_mul_ge (Z.pos mx) (Z.pos my) ltac:(lia) ltac:(lia)) as Hd.
    pose proof (Zdigits2_pos (Z.pos mx) ltac:(lia)).
    pose proof (Zdigits2_pos (Z.pos my) ltac:(lia)).
    rewrite fexp64_eq in *. lia.
Qed.

(** **** Division *)

Lemma new_location_correct (nb k : Z) (x : R) :
  (0 < nb)%Z -> (0 <= k < nb)%Z ->
  x = IZR k / IZR nb ->
  match new_location nb k with
  | loc_Exact => x = 0
  | loc_Inexact c => 0 < x < 1 /\ loc_ok c x (/ 2)
  end.
Proof.
  intros Hnb Hk ->. assert (Hn : 0 < IZR nb) by (apply IZR_lt; lia).
  assert (Hk0 : 0 <= IZR k) by (apply IZR_le; lia).
  assert (Hk1 : IZR k < IZR nb) by (apply IZR_lt; lia).
  assert (Hdiv : forall a, IZR k / IZR nb < a <-> IZR k < a * IZR nb).
  { intros a. split; intros H.
    - apply (Rmult_lt_compat_r (IZR nb)) in H; [|assumption].
      unfold Rdiv in H. rewrite Rmult_assoc, Rinv_l, Rmult_1_r in H by lra. exact H.
    - apply (Rmult_lt_reg_r (IZR nb)); [assumption|].
      unfold Rdiv. rewrite Rmult_assoc, Rinv_l, Rmult_1_r by lra. exact H. }
  assert (Hdiv' : forall a, a < IZR k / IZR nb <-> a * IZR nb < IZR k).
  { intros a. split; intros H.
    - apply (Rmult_lt_compat_r (IZR nb)) in H; [|assumption].
      unfold Rdiv in H. rewrite Rmult_assoc, Rinv_l, Rmult_1_r in H by lra. exact H.
    - apply (Rmult_lt_reg_r (IZR nb)); [assumption|].
      unfold Rdiv. rewrite Rmult_assoc, Rinv_l, Rmult_1_r by lra. exact H. }
  unfold new_location, new_location_even, new_location_odd.
  destruct (Z.eqb_spec k 0) as [-> | Hk'].
  { destruct (Z.even nb); unfold Rdiv; rewrite Rmult_0_l; reflexivity. }
  assert (Hkpos : 0 < IZR k) by (apply IZR_lt; lia).
  assert (Hrange : 0 < IZR k / IZR nb < 1).
  { split; [apply Hdiv'; lra | apply Hdiv; lra]. }
  assert (Ek : (k =? 0)%Z = false) by (apply Z.eqb_neq; exact Hk').
  destruct (Z.even nb) eqn:Ev; cbv beta iota; rewrite Ek.
  - split; [exact Hrange|].
    destruct (Z.compare_spec (2 * k) nb) as [E | E | E]; cbn [loc_ok].
    + apply (f_equal IZR) in E. rewrite mult_IZR in E. cbn [IZR IPR IPR_2] in E.
      rewrite <- E. field. lra.
    + apply IZR_lt in E. rewrite mult_IZR in E. cbn [IZR IPR IPR_2] in E.
      apply Hdiv. lra.
    + apply IZR_lt in E. rewrite mult_IZR in E. cbn [IZR IPR IPR_2] in E.
      apply Hdiv'. lra.
  - split; [exact Hrange|].
    assert (Hodd : (2 * k <> nb)%Z).
    { intros E. rewrite <- E, Z.even_mul in Ev. discriminate Ev. }
    destruct (Z.compare_spec (2 * k + 1) nb) as [E | E | E]; cbn [loc_ok].
    + assert (E' : (2 * k < nb)%Z) by lia.
      apply IZR_lt in E'. rewrite mult_IZR in E'. cbn [IZR IPR IPR_2] in E'.
      apply Hdiv. lra.
    + assert (E' : (2 * k < nb)%Z) by lia.
      apply IZR_lt in E'. rewrite mult_IZR in E'. cbn [IZR IPR IPR_2] in E'.
      apply Hdiv. lra.
    + assert (E' : (nb < 2 * k)%Z) by lia.
      apply IZR_lt in E'. rewrite mult_IZR in E'. cbn [IZR IPR IPR_2] in E'.
      apply Hdiv'. lra.
Qed.

Lemma SFdiv_core_correct (mx my : positive) (ex ey : Z) :
  let '(q, e', l) := SFdiv_core_binary 53 1024 (Z.pos mx) ex (Z.pos my) ey in
  (0 <= q)%Z /\
  inbetween q e' l (F2R (Z.pos mx) ex / F2R (Z.pos my) ey) /\
  (e' <= fexp64 (Zdigits2 q + e'))%Z.
Proof.
  unfold SFdiv_core_binary. fold (fexp64 (Zdigits2 (Z.pos mx) + ex - (Zdigits2 (Z.pos my) + ey))).
  set (d1 := Zdigits2 (Z.pos mx)). set (d2 := Zdigits2 (Z.pos my)).
  set (e' := Z.min (fexp64 (d1 + ex - (d2 + ey))) (ex - ey)).
  set (s := (ex - ey - e')%Z).
  assert (Hs : (0 <= s)%Z) by (subst s e'; lia).
  set (m' := match s with
             | 0%Z => Z.pos mx
             | Z.pos _ => Z.shiftl (Z.pos mx) s
             | Z.neg _ => 0%Z
             end).
  assert (Em' : m' = (Z.pos mx * 2 ^ s)%Z).
  { subst m'. destruct s as [|p|p] eqn:Es; [cbn; lia | | lia].
    rewrite Z.shiftl_mul_pow2 by lia. reflexivity. }
  clearbody m'.
  assert (H2s : (0 < 2 ^ s)%Z) by (apply Z.pow_pos_nonneg; lia).
  pose proof (Z_div_mod m' (Z.pos my) ltac:(lia)) as Hdm.
  destruct (Z.div_eucl m' (Z.pos my)) as [q r]. destruct Hdm as [Eq Hr].
  assert (Hq0 : (0 <= q)%Z).
  { assert (0 <= m')%Z by lia. nia. }
  (* the quotient as a real number *)
  assert (Hval : F2R (Z.pos mx) ex / F2R (Z.pos my) ey =
                 (IZR q + IZR r / IZR (Z.pos my)) * bpow e').
  { unfold F2R.
    assert (Hmy : 0 < IZR (Z.pos my)) by (apply IZR_lt; lia).
    assert (Eex : bpow ex = bpow ey * bpow s * bpow e').
    { rewrite <- !bpow_plus. f_equal. subst s. lia. }
    assert (Em'R : IZR (Z.pos mx) * bpow s = IZR q * IZR (Z.pos my) + IZR r).
    { rewrite (bpow_IZR s Hs), <- mult_IZR, <- Em', Eq, plus_IZR, mult_IZR. ring. }
    pose proof (bpow_pos ey). pose proof (bpow_pos s). pose proof (bpow_pos e').
    rewrite Eex. field_simplify_eq; [|lra].
    replace (IZR (Z.pos mx) * bpow ey * bpow s * bpow e')
      with ((IZR (Z.pos mx) * bpow s) * bpow ey * bpow e') by ring.
    rewrite Em'R. ring. }
  split; [exact Hq0|]. split.
  - rewrite Hval.
    pose proof (new_location_correct (Z.pos my) r _ ltac:(lia) Hr eq_refl) as Hl.
    pose proof (bpow_pos e') as HB.
    destruct (new_location (Z.pos my) r) as [|c]; unfold inbetween, F2R.
    + rewrite Hl. ring.
    + destruct Hl as [[L1 L2] L3]. rewrite plus_IZR.
      set (f := IZR r / IZR (Z.pos my)) in *. clearbody f.
      split; [split; nra|].
      destruct c; cbn [loc_ok] in *; nra.
  - destruct (Z.eq_dec q 0%Z) as [E0 | E0].
    + subst q. cbn [Zdigits2 Z.add].
      (* the numerator is below the denominator *)
      assert (Hlt : (Z.pos mx * 2 ^ s < Z.pos my)%Z) by lia.
      destruct (Zdigits2_bounds (Z.pos mx) ltac:(lia)) as [A1 _]. fold d1 in A1.
      destruct (Zdigits2_bounds (Z.pos my) ltac:(lia)) as [_ B2]. fold d2 in B2.
      pose proof (Zdigits2_pos (Z.pos mx) ltac:(lia)) as Hd1. fold d1 in Hd1.
      pose proof (Zdigits2_pos (Z.pos my) ltac:(lia)) as Hd2. fold d2 in Hd2.
      assert (Hd : (d1 - 1 + s < d2)%Z).
      { destruct (Z_lt_le_dec (d1 - 1 + s) d2) as [|Hge]; [assumption|].
        assert (2 ^ d2 <= 2 ^ (d1 - 1 + s))%Z by (apply Z.pow_le_mono_r; lia).
        rewrite Z.pow_add_r in H by lia.
        assert (2 ^ (d1 - 1) * 2 ^ s <= Z.pos mx * 2 ^ s)%Z by nia. lia. }
      rewrite fexp64_eq. subst s e'.
      pose proof (fexp64_eq (d1 + ex - (d2 + ey))) as Hf.
      set (f := fexp64 (d1 + ex - (d2 + ey))) in *. clearbody f. lia.
    + assert (Hq : (0 < q)%Z) by lia.
      destruct (Zdigits2_bounds (Z.pos mx) ltac:(lia)) as [A1 _]. fold d1 in A1.
      destruct (Zdigits2_bounds (Z.pos my) ltac:(lia)) as [_ B2]. fold d2 in B2.
      pose proof (Zdigits2_pos (Z.pos mx) ltac:(lia)) as Hd1. fold d1 in Hd1.
      pose proof (Zdigits2_pos (Z.pos my) ltac:(lia)) as Hd2. fold d2 in Hd2.
      pose proof (Zdigits2_pos q Hq) as Hdq.
      assert (Hd : (d1 + s - d2 <= Zdigits2 q)%Z).
      { destruct (Z_le_gt_dec (d1 + s - d2) (Zdigits2 q)) as [|Hgt]; [assumption|].
        exfalso. destruct (Zdigits2_bounds q Hq) as [_ Q2].
        (* q < 2^(digits q) <= 2^(d1+s-d2-1), so q * my < 2^(d1+s-1) <= m' *)
        assert (Hk : (0 <= d1 + s - d2 - 1)%Z) by lia.
        assert (H1 : (2 ^ Zdigits2 q <= 2 ^ (d1 + s - d2 - 1))%Z)
          by (apply Z.pow_le_mono_r; lia).
        assert (H2 : (2 ^ (d1 + s - d2 - 1) * 2 ^ d2 = 2 ^ (d1 - 1) * 2 ^ s)%Z).
        { rewrite <- !Z.pow_add_r by lia. f_equal. lia. }
        assert (H3 : ((q + 1) * Z.pos my <= 2 ^ (d1 + s - d2 - 1) * 2 ^ d2)%Z).
        { apply Z.mul_le_mono_nonneg; lia. }
        assert (H4 : (2 ^ (d1 - 1) * 2 ^ s <= Z.pos mx * 2 ^ s)%Z) by nia.
        nia. }
      rewrite fexp64_eq. subst s e'.
      pose proof (fexp64_eq (d1 + ex - (d2 + ey))) as Hf.
      set (f := fexp64 (d1 + ex - (d2 + ey))) in *. clearbody f.
      set (dq := Zdigits2 q) in *. clearbody dq. lia.
Qed.

Lemma SFdiv_finite (sx sy : bool) (mx my : positive) (ex ey : Z) :
  F2R (Z.pos mx) ex / F2R (Z.pos my) ey < bpow 1023 ->
  rounds_to (SFdiv 53 1024 (S754_finite sx mx ex) (S754_finite sy my ey))
            (xorb sx sy) (F2R (Z.pos mx) ex / F2R (Z.pos my) ey).
Proof.
  intros Ho. cbn [SFdiv].
  pose proof (SFdiv_core_correct mx my ex ey) as Hc.
  destruct (SFdiv_core_binary 53 1024 (Z.pos mx) ex (Z.pos my) ey) as [[q e'] l].
  destruct Hc as (Hq & Hin & Hn).
  apply binary_round_aux_rounds; assumption.
Qed.

(** **** Addition and subtraction *)

Lemma Pos_iter_xO (m d : positive) :
  Z.pos (Pos.iter xO m d) = (Z.pos m * 2 ^ Z.pos d)%Z.
Proof.
  induction d as [|d IH] using Pos.peano_ind.
  - cbn [Pos.iter]. rewrite Pos2Z.inj_xO. change (2 ^ 1)%Z with 2%Z. lia.
  - rewrite Pos.iter_succ, Pos2Z.inj_xO, IH, Pos2Z.inj_succ, Z.pow_succ_r by lia. ring.
Qed.

Lemma shl_align_correct (mx : positive) (ex ez : Z) :
  let '(mz, ez') := shl_align mx ex ez in
  ez' = Z.min ex ez /\ Z.pos mz = (Z.pos mx * 2 ^ (ex - ez'))%Z.
Proof.
  unfold shl_align. destruct (ez - ex)%Z as [|d|d] eqn:Ed.
  - split; [lia|]. replace (ex - ex)%Z with 0%Z by lia. cbn. lia.
  - split; [lia|]. replace (ex - ex)%Z with 0%Z by lia. cbn. lia.
  - split; [lia|]. rewrite Pos_iter_xO. f_equal. f_equal. lia.
Qed.

Lemma F2R_shift (m e k : Z) : (0 <= k)%Z -> F2R (m * 2 ^ k) (e - k) = F2R m e.
Proof.
  intros Hk. unfold F2R. rewrite mult_IZR, <- (bpow_IZR k Hk).
  replace e with ((e - k) + k)%Z at 2 by lia. rewrite bpow_plus. ring.
Qed.

Lemma Zdigits2_mul_pow2 (m k : Z) :
  (0 < m)%Z -> (0 <= k)%Z -> Zdigits2 (m * 2 ^ k) = (Zdigits2 m + k)%Z.
Proof.
  intros Hm Hk. destruct (Zdigits2_bounds m Hm) as [B1 B2].
  pose proof (Zdigits2_pos m Hm) as Hd.
  assert (H2k : (0 < 2 ^ k)%Z) by (apply Z.pow_pos_nonneg; lia).
  apply Zdigits2_unique; [nia|].
  replace (Zdigits2 m + k - 1)%Z with ((Zdigits2 m - 1) + k)%Z by lia.
  rewrite !Z.pow_add_r by lia. nia.
Qed.

Lemma binary_round_rounds (sx : bool) (m : positive) (e : Z) :
  F2R (Z.pos m) e < bpow 1023 ->
  rounds_to (binary_round 53 1024 sx m e) sx (F2R (Z.pos m) e).
Proof.
  intros Ho. unfold binary_round. fold (Zdigits2 (Z.pos m)).
  fold (fexp64 (Zdigits2 (Z.pos m) + e)).
  pose proof (shl_align_correct m e (fexp64 (Zdigits2 (Z.pos m) + e))) as Hs.
  destruct (shl_align m e (fexp64 (Zdigits2 (Z.pos m) + e))) as [mz ez].
  destruct Hs as [Ez Em].
  assert (Hk : (0 <= e - ez)%Z) by lia.
  assert (Hv : F2R (Z.pos mz) ez = F2R (Z.pos m) e).
  { rewrite Em. replace ez with (e - (e - ez))%Z at 2 by lia. apply F2R_shift. exact Hk. }
  apply binary_round_aux_rounds.
  - lia.
  - cbn [inbetween]. symmetry. exact Hv.
  - rewrite Em, Zdigits2_mul_pow2 by lia.
    replace (Zdigits2 (Z.pos m) + (e - ez) + ez)%Z with (Zdigits2 (Z.pos m) + e)%Z by lia.
    lia.
  - exact Ho.
Qed.

Lemma eta64_pos : 0 < eta64.
Proof. apply bpow_pos. Qed.

Lemma u64_pos : 0 < u64.
Proof. apply bpow_pos. Qed.

Lemma rounded_exact (z : spec_float) :
  is_finite_SF z = true -> rounded z (SF2R z).
Proof.
  intros Hz. split; [exact Hz|]. rewrite Rminus_diag, Rabs_R0.
  pose proof eta64_pos. pose proof u64_pos. pose proof (Rabs_pos (SF2R z)). nra.
Qed.

Lemma rounds_to_rounded (z : spec_float) (s : bool) (x : R) :
  0 <= x -> rounds_to z s x -> rounded z (signed s x).
Proof.
  intros Hx [Hf (r & Hr & Er & He)].
  split; [destruct Hf as [-> | (m & e & ->)]; reflexivity|].
  rewrite Er, Rabs_signed.
  assert (Ea : Rabs (signed s x) = x).
  { destruct s; cbn [signed]; [rewrite Rabs_Ropp|]; apply Rabs_pos_eq; exact Hx. }
  rewrite Ea. exact He.
Qed.

Lemma binary_normalize_rounded (M e : Z) :
  Rabs (F2R M e) < bpow 1023 ->
  rounded (binary_normalize 53 1024 M e false) (F2R M e).
Proof.
  intros Ho. destruct M as [|m|m]; cbn [binary_normalize].
  - rewrite F2R_0. apply (rounded_exact (S754_zero false)). reflexivity.
  - pose proof (F2R_pos m e) as Hp. rewrite Rabs_pos_eq in Ho by lra.
    apply (rounds_to_rounded _ false (F2R (Z.pos m) e)); [lra|].
    apply binary_round_rounds. exact Ho.
  - assert (En : F2R (Z.neg m) e = - F2R (Z.pos m) e).
    { unfold F2R. change (Z.neg m) with (- Z.pos m)%Z. rewrite opp_IZR. ring. }
    pose proof (F2R_pos m e) as Hp. rewrite En, Rabs_Ropp, Rabs_pos_eq in Ho by lra.
    rewrite En. apply (rounds_to_rounded _ true (F2R (Z.pos m) e)); [lra|].
    apply binary_round_rounds. exact Ho.
Qed.

Lemma nonneg_SF_finite (z : spec_float) : nonneg_SF z -> is_finite_SF z = true.
Proof. intros [-> | (m & e & ->)]; reflexivity. Qed.

Lemma nonneg_SF_value (z : spec_float) : nonneg_SF z -> 0 <= SF2R z.
Proof.
  intros [-> | (m & e & ->)]; cbn [SF2R]; [lra|]. left. apply F2R_pos.
Qed.

Lemma aligned_value (mx : positive) (ex ez : Z) :
  (ez <= ex)%Z -> F2R (Z.pos (fst (shl_align mx ex ez))) ez = F2R (Z.pos mx) ex.
Proof.
  intros Hz. pose proof (shl_align_correct mx ex ez) as Hs.
  destruct (shl_align mx ex ez) as [mz ez']. destruct Hs as [E1 E2]. cbn [fst].
  assert (Ez : ez' = ez) by lia. rewrite E2, Ez.
  replace ez with (ex - (ex - ez))%Z at 2 by lia. apply F2R_shift. lia.
Qed.

Lemma SFadd_finite (mx my : positive) (ex ey : Z) :
  F2R (Z.pos mx) ex + F2R (Z.pos my) ey < bpow 1023 ->
  rounded (SFadd 53 1024 (S754_finite false mx ex) (S754_finite false my ey))
          (F2R (Z.pos mx) ex + F2R (Z.pos my) ey) /\
  nonneg_SF (SFadd 53 1024 (S754_finite false mx ex) (S754_finite false my ey)).
Proof.
  intros Ho. cbn [SFadd cond_Zopp].
  set (ez := Z.min ex ey).
  pose proof (aligned_value mx ex ez ltac:(subst ez; lia)) as Hx.
  pose proof (aligned_value my ey ez ltac:(subst ez; lia)) as Hy.
  set (ax := fst (shl_align mx ex ez)) in *. set (ay := fst (shl_align my ey ez)) in *.
  assert (Hsum : F2R (Z.pos ax + Z.pos ay) ez = F2R (Z.pos mx) ex + F2R (Z.pos my) ey).
  { rewrite <- Hx, <- Hy. unfold F2R. rewrite plus_IZR. ring. }
  change (Z.pos ax + Z.pos ay)%Z with (Z.pos (ax + ay)) in *.
  cbn [binary_normalize]. rewrite <- Hsum in Ho |- *.
  pose proof (binary_round_rounds false (ax + ay) ez Ho) as Hr.
  split.
  - apply (rounds_to_rounded _ false (F2R (Z.pos (ax + ay)) ez));
      [left; apply F2R_pos | exact Hr].
  - destruct Hr as [Hf _]. exact Hf.
Qed.

Lemma SFsub_finite (mx my : positive) (ex ey : Z) :
  Rabs (F2R (Z.pos mx) ex - F2R (Z.pos my) ey) < bpow 1023 ->
  rounded (SFsub 53 1024 (S754_finite false mx ex) (S754_finite false my ey))
          (F2R (Z.pos mx) ex - F2R (Z.pos my) ey).
Proof.
  intros Ho. cbn [SFsub cond_Zopp].
  set (ez := Z.min ex ey).
  pose proof (aligned_value mx ex ez ltac:(subst ez; lia)) as Hx.
  pose proof (aligned_value my ey ez ltac:(subst ez; lia)) as Hy.
  set (ax := fst (shl_align mx ex ez)) in *. set (ay := fst (shl_align my ey ez)) in *.
  assert (Hdiff : F2R (Z.pos ax - Z.pos ay) ez = F2R (Z.pos mx) ex - F2R (Z.pos my) ey).
  { rewrite <- Hx, <- Hy. unfold F2R. rewrite minus_IZR. ring. }
  rewrite <- Hdiff in Ho |- *. apply binary_normalize_rounded. exact Ho.
Qed.

(** **** The operations of binary64 *)

Lemma nonneg_B2R (x : float) : nonneg x -> 0 <= B2R x.
Proof. apply nonneg_SF_value. Qed.

Lemma rounded_zero (z : spec_float) (x : R) :
  z = S754_zero false -> x = 0 -> rounded z x.
Proof. intros -> ->. apply (rounded_exact (S754_zero false)). reflexivity. Qed.

Lemma div_correct (x y : float) :
  nonneg x -> (exists m e, Prim2SF y = S754_finite false m e) ->
  B2R x / B2R y < bpow 1023 ->
  rounded (Prim2SF (x / y)) (B2R x / B2R y) /\ nonneg (x / y).
Proof.
  unfold nonneg, B2R. rewrite FloatAxioms.div_spec. unfold SF64div.
  intros Hx (my & ey & Ey) Ho. rewrite Ey in *.
  destruct Hx as [Ex | (mx & ex & Ex)]; rewrite Ex in *.
  - cbn [SFdiv xorb SF2R]. split; [|left; reflexivity].
    apply rounded_zero; [reflexivity|]. unfold Rdiv. ring.
  - cbn [SF2R] in *.
    pose proof (SFdiv_finite false false mx my ex ey Ho) as Hr. cbn [xorb] in Hr.
    split.
    + apply (rounds_to_rounded _ false (F2R (Z.pos mx) ex / F2R (Z.pos my) ey));
        [|exact Hr].
      pose proof (F2R_pos mx ex). pose proof (F2R_pos my ey).
      left. apply Rdiv_lt_0_compat; assumption.
    + destruct Hr as [Hs _]. exact Hs.
Qed.

Lemma mul_correct (x y : float) :
  nonneg x -> nonneg y ->
  B2R x * B2R y < bpow 1023 ->
  rounded (Prim2SF (x * y)) (B2R x * B2R y) /\ nonneg (x * y).
Proof.
  unfold nonneg, B2R. rewrite FloatAxioms.mul_spec. unfold SF64mul.
  pose proof (FloatAxioms.Prim2SF_valid x) as Vx. pose proof (FloatAxioms.Prim2SF_valid y) as Vy.
  intros Hx Hy Ho.
  destruct Hx as [Ex | (mx & ex & Ex)]; destruct Hy as [Ey | (my & ey & Ey)];
    rewrite Ex, Ey in *; cbn [SFmul xorb SF2R] in *;
    try (split; [apply rounded_zero; [reflexivity | ring] | left; reflexivity]).
  pose proof (SFmul_finite false false mx my ex ey Vx Vy Ho) as Hr. cbn [xorb] in Hr.
  split.
  - apply (rounds_to_rounded _ false (F2R (Z.pos mx) ex * F2R (Z.pos my) ey)); [|exact Hr].
    pose proof (F2R_pos mx ex). pose proof (F2R_pos my ey).
    left. apply Rmult_lt_0_compat; assumption.
  - destruct Hr as [Hs _]. exact Hs.
Qed.

Lemma add_correct (x y : float) :
  nonneg x -> nonneg y ->
  B2R x + B2R y < bpow 1023 ->
  rounded (Prim2SF (x + y)) (B2R x + B2R y) /\ nonneg (x + y).
Proof.
  unfold nonneg, B2R. rewrite FloatAxioms.add_spec. unfold SF64add.
  intros Hx Hy Ho.
  destruct Hx as [Ex | (mx & ex & Ex)]; destruct Hy as [Ey | (my & ey & Ey)];
    rewrite Ex, Ey in *; cbn [SF2R] in *.
  - cbn [SFadd]. split; [apply rounded_zero; [reflexivity | ring] | left; reflexivity].
  - cbn [SFadd]. split; [|right; eauto].
    rewrite Rplus_0_l. apply (rounded_exact (S754_finite false my ey)). reflexivity.
  - cbn [SFadd]. split; [|right; eauto].
    rewrite Rplus_0_r. apply (rounded_exact (S754_finite false mx ex)). reflexivity.
  - apply SFadd_finite. exact Ho.
Qed.

Lemma sub_correct (x y : float) :
  nonneg x -> nonneg y ->
  Rabs (B2R x - B2R y) < bpow 1023 ->
  rounded (Prim2SF (x - y)) (B2R x - B2R y).
Proof.
  unfold nonneg, B2R. rewrite FloatAxioms.sub_spec. unfold SF64sub.
  intros Hx Hy Ho.
  destruct Hx as [Ex | (mx & ex & Ex)]; destruct Hy as [Ey | (my & ey & Ey)];
    rewrite Ex, Ey in *; cbn [SF2R] in *.
  - cbn [SFsub]. apply rounded_zero; [reflexivity | ring].
  - cbn [SFsub negb]. rewrite Rminus_0_l.
    apply (rounded_exact (S754_finite true my ey)). reflexivity.
  - cbn [SFsub]. rewrite Rminus_0_r.
    apply (rounded_exact (S754_finite false mx ex)). reflexivity.
  - apply SFsub_finite. exact Ho.
Qed.

(** **** Comparisons *)

(** A valid mantissa has at most 53 digits, and exactly 53 above the
    smallest exponent. *)
Lemma valid_digits (s : bool) (m : positive) (e : Z) :
  SpecFloat.valid_binary 53 1024 (S754_finite s m e) = true ->
  (Zdigits2 (Z.pos m) <= 53)%Z /\ (-1074 <= e)%Z /\
  (-1074 < e -> Zdigits2 (Z.pos m) = 53)%Z.
Proof.
  intros V. destruct (valid_finite s m e V) as [C _]. rewrite fexp64_eq in C. lia.
Qed.

Lemma valid_value_lt (s : bool) (m : positive) (e : Z) :
  SpecFloat.valid_binary 53 1024 (S754_finite s m e) = true ->
  F2R (Z.pos m) e < bpow (e + 53).
Proof.
  intros V. destruct (valid_digits s m e V) as (Hd & _).
  destruct (Zdigits2_bounds (Z.pos m) ltac:(lia)) as [_ B2].
  assert (Hm : (Z.pos m < 2 ^ 53)%Z).
  { apply Z.lt_le_trans with (1 := B2). apply Z.pow_le_mono_r; lia. }
  unfold F2R. rewrite bpow_plus, (bpow_IZR 53) by lia.
  apply IZR_lt in Hm. pose proof (bpow_pos e). nra.
Qed.

Lemma valid_value_ge (s : bool) (m : positive) (e : Z) :
  SpecFloat.valid_binary 53 1024 (S754_finite s m e) = true ->
  (-1074 < e)%Z ->
  bpow (e + 52) <= F2R (Z.pos m) e.
Proof.
  intros V He. destruct (valid_digits s m e V) as (_ & _ & Hd). specialize (Hd He).
  pose proof (F2R_ge_bpow (Z.pos m) e ltac:(lia)) as H. rewrite Hd in H.
  replace (53 - 1 + e)%Z with (e + 52)%Z in H by lia. exact H.
Qed.

(** The order of two valid data that are not negative is the order of
    their values. *)
Lemma SFcompare_finite (m1 m2 : positive) (e1 e2 : Z) :
  SpecFloat.valid_binary 53 1024 (S754_finite false m1 e1) = true ->
  SpecFloat.valid_binary 53 1024 (S754_finite false m2 e2) = true ->
  match SFcompare (S754_finite false m1 e1) (S754_finite false m2 e2) with
  | Some Lt => F2R (Z.pos m1) e1 < F2R (Z.pos m2) e2
  | Some Eq => F2R (Z.pos m1) e1 = F2R (Z.pos m2) e2
  | Some Gt => F2R (Z.pos m2) e2 < F2R (Z.pos m1) e1
  | None => False
  end.
Proof.
  intros V1 V2. cbn [SFcompare].
  assert (Hlt : forall (ma mb : positive) (ea eb : Z),
            SpecFloat.valid_binary 53 1024 (S754_finite false ma ea) = true ->
            SpecFloat.valid_binary 53 1024 (S754_finite false mb eb) = true ->
            (ea < eb)%Z -> F2R (Z.pos ma) ea < F2R (Z.pos mb) eb).
  { intros ma mb ea eb Va Vb Hab.
    pose proof (valid_value_lt _ _ _ Va) as Ha.
    destruct (valid_digits _ _ _ Va) as (_ & Hea & _).
    pose proof (valid_value_ge _ _ _ Vb ltac:(lia)) as Hb.
    pose proof (bpow_le (ea + 53) (eb + 52) ltac:(lia)) as Hle.
    set (Ba := bpow (ea + 53)) in *. set (Bb := bpow (eb + 52)) in *.
    clearbody Ba Bb. lra. }
  destruct (Z.compare_spec e1 e2) as [E | E | E].
  - subst e2. rewrite Pos.compare_cont_spec. cbn [Pos.switch_Eq].
    pose proof (bpow_pos e1) as HB. unfold F2R.
    destruct (Pos.compare_spec m1 m2) as [Em | Em | Em].
    + subst m2. reflexivity.
    + assert (H : IZR (Z.pos m1) < IZR (Z.pos m2)) by (apply IZR_lt; lia).
      apply Rmult_lt_compat_r; assumption.
    + assert (H : IZR (Z.pos m2) < IZR (Z.pos m1)) by (apply IZR_lt; lia).
      apply Rmult_lt_compat_r; assumption.
  - apply Hlt; assumption.
  - apply Hlt; assumption.
Qed.

Lemma bpow_opp (n : Z) : (0 <= n)%Z -> bpow (- n) = / IZR (2 ^ n).
Proof.
  intros Hn. unfold bpow. rewrite powerRZ_neg'. fold (bpow n).
  rewrite bpow_IZR by lia. reflexivity.
Qed.

Lemma bpow_neg (p : positive) : bpow (Z.neg p) = / IZR (2 ^ Z.pos p).
Proof. change (Z.neg p) with (- Z.pos p)%Z. apply bpow_opp. lia. Qed.

(** A float above 0 and at most 3e15 is a positive finite datum. *)
Lemma positive_at_most_3e15 (a : float) :
  PrimFloat.ltb 0 a = true ->
  PrimFloat.leb a 3e15 = true ->
  nonneg a /\ 0 < B2R a <= 3000000000000000.
Proof.
  rewrite FloatAxioms.ltb_spec, FloatAxioms.leb_spec. unfold SFltb, SFleb, nonneg, B2R.
  pose proof (FloatAxioms.Prim2SF_valid a) as Va.
  change (Prim2SF 0) with (S754_zero false).
  assert (E3 : Prim2SF 3e15 = S754_finite false 6000000000000000 (-1)) by reflexivity.
  pose proof (FloatAxioms.Prim2SF_valid 3e15) as V3. rewrite E3 in *.
  destruct (Prim2SF a) as [s|s| |s m e]; [discriminate | | discriminate |].
  - destruct s; cbn [SFcompare]; discriminate.
  - destruct s; [discriminate|]. intros _ Hle.
    pose proof (SFcompare_finite m 6000000000000000 e (-1) Va V3) as Hc.
    assert (Ev : F2R 6000000000000000 (-1) = 3000000000000000).
    { unfold F2R. rewrite bpow_neg. change (2 ^ 1)%Z with 2%Z. lra. }
    cbn [SF2R]. split; [right; eauto|]. split; [apply F2R_pos|].
    destruct (SFcompare (S754_finite false m e) (S754_finite false 6000000000000000 (-1)))
      as [[| |]|]; try discriminate Hle; rewrite Ev in Hc; lra.
Qed.

(** A valid datum that is not negative and whose value is below 1 compares
    as less than 1. *)
Lemma below_one (z : spec_float) :
  SpecFloat.valid_binary 53 1024 z = true ->
  nonneg_SF z -> SF2R z < 1 ->
  SFltb z (Prim2SF 1) = true.
Proof.
  intros Vz Hz Hlt.
  assert (E1 : Prim2SF 1 = S754_finite false 4503599627370496 (-52)) by reflexivity.
  pose proof (FloatAxioms.Prim2SF_valid 1) as V1. rewrite E1 in *.
  destruct Hz as [-> | (m & e & ->)]; [reflexivity|].
  pose proof (SFcompare_finite m 4503599627370496 e (-52) Vz V1) as Hc.
  assert (Ev : F2R 4503599627370496 (-52) = 1).
  { unfold F2R. rewrite bpow_neg.
    change (2 ^ 52)%Z with 4503599627370496%Z. field. }
  unfold SFltb. cbn [SF2R] in Hlt.
  destruct (SFcompare (S754_finite false m e) (S754_finite false 4503599627370496 (-52)))
    as [[| |]|]; try reflexivity; try (rewrite Ev in Hc; lra). destruct Hc.
Qed.

Lemma abs_finite (d : float) :
  is_finite_SF (Prim2SF d) = true ->
  nonneg (PrimFloat.abs d) /\ B2R (PrimFloat.abs d) = Rabs (B2R d).
Proof.
  unfold nonneg, B2R. rewrite FloatAxioms.abs_spec.
  destruct (Prim2SF d) as [s|s| |s m e]; try discriminate; intros _; cbn [SFabs SF2R].
  - split; [left; reflexivity | symmetry; apply Rabs_R0].
  - pose proof (F2R_pos m e) as Hp. split; [right; eauto|].
    destruct s; [rewrite Rabs_Ropp|]; symmetry; apply Rabs_pos_eq; lra.
Qed.

Lemma Rabs_le_inv (x b : R) : Rabs x <= b -> - b <= x <= b.
Proof. unfold Rabs. destruct (Rcase_abs x); lra. Qed.

(** What [rounded] gives for an exact result that is not negative and is
    at most [M]. *)
Lemma rounded_bounds (z : spec_float) (x M : R) :
  rounded z x -> Rabs x <= M ->
  x - (/ 9007199254740992 * M + / 18446744073709551616) <= SF2R z <=
  x + (/ 9007199254740992 * M + / 18446744073709551616).
Proof.
  intros [_ Hr] HM.
  assert (Eu : u64 = / 9007199254740992).
  { unfold u64. rewrite bpow_neg. reflexivity. }
  assert (He : eta64 <= / 18446744073709551616).
  { unfold eta64. replace (/ 18446744073709551616) with (bpow (-64)).
    - apply bpow_le. lia.
    - rewrite bpow_neg. reflexivity. }
  rewrite Eu in Hr. apply Rabs_le_inv in Hr.
  pose proof (Rabs_pos x) as Hx.
  assert (/ 9007199254740992 * Rabs x <= / 9007199254740992 * M).
  { apply Rmult_le_compat_l; lra. }
  lra.
Qed.

Lemma bpow_1023_large : 1152921504606846976 <= bpow 1023.
Proof.
  replace 1152921504606846976 with (bpow 60).
  - apply bpow_le. lia.
  - rewrite bpow_IZR by lia. reflexivity.
Qed.

(** The reconstruction of a total from its base amount at 18% stays within
    1.0 of the total, for every total above 0 and at most 3e15. *)
Theorem reconstruction_within_tolerance (a : float) :
  PrimFloat.ltb 0 a = true ->
  PrimFloat.leb a 3e15 = true ->
  let base_amount := (a / 1.18)%float in
  let expected_gst := (base_amount * 0.18)%float in
  let expected_total := (base_amount + expected_gst)%float in
  PrimFloat.ltb (PrimFloat.abs (a - expected_total)) 1 = true.
Proof.
  intros H0 H3. cbv zeta.
  destruct (positive_at_most_3e15 a H0 H3) as (Na & Ha0 & Ha3).
  pose proof bpow_1023_large as Hbig.
  set (A := B2R a) in *.
  (* the constants *)
  assert (E118 : Prim2SF 1.18 = S754_finite false 5314247560297185 (-52)) by reflexivity.
  assert (E018 : Prim2SF 0.18 = S754_finite false 6485183463413514 (-55)) by reflexivity.
  assert (C118 : B2R 1.18 = 5314247560297185 / 4503599627370496).
  { unfold B2R. rewrite E118. cbn [SF2R]. unfold F2R. rewrite bpow_neg.
    reflexivity. }
  assert (C018 : B2R 0.18 = 6485183463413514 / 36028797018963968).
  { unfold B2R. rewrite E018. cbn [SF2R]. unfold F2R. rewrite bpow_neg.
    reflexivity. }
  assert (N018 : nonneg 0.18) by (unfold nonneg; rewrite E018; right; eauto).
  (* the base amount *)
  set (x0 := A / B2R 1.18).
  assert (Hx0 : x0 * (5314247560297185 / 4503599627370496) = A).
  { subst x0. rewrite C118. field. }
  assert (Hx0pos : 0 <= x0 <= 3000000000000000) by lra.
  destruct (div_correct a 1.18 Na ltac:(eauto) ltac:(fold A; fold x0; lra)) as [Rb Nb].
  fold A in Rb. fold x0 in Rb.
  pose proof (rounded_bounds _ x0 x0 Rb ltac:(rewrite Rabs_pos_eq; lra)) as Bb.
  pose proof (nonneg_B2R _ Nb) as Hb0.
  set (b := (a / 1.18)%float) in *. fold (B2R b) in Bb. set (B := B2R b) in *.
  (* the tax *)
  assert (HBg : 0 <= B * B2R 0.18 <= 19 / 100 * x0 + 1) by (rewrite C018; lra).
  destruct (mul_correct b 0.18 Nb N018 ltac:(fold B; lra)) as [Rg Ng].
  fold B in Rg.
  pose proof (rounded_bounds _ _ (19 / 100 * x0 + 1) Rg ltac:(rewrite Rabs_pos_eq; lra)) as Bg.
  pose proof (nonneg_B2R _ Ng) as Hg0.
  set (g := (b * 0.18)%float) in *. fold (B2R g) in Bg. set (G := B2R g) in *.
  rewrite C018 in Bg, HBg.
  (* the expected total *)
  assert (HBt : 0 <= B + G <= 119 / 100 * x0 + 1) by lra.
  destruct (add_correct b g Nb Ng ltac:(fold B; fold G; lra)) as [Rt Nt].
  fold B in Rt. fold G in Rt.
  pose proof (rounded_bounds _ _ (119 / 100 * x0 + 1) Rt ltac:(rewrite Rabs_pos_eq; lra)) as Bt.
  pose proof (nonneg_B2R _ Nt) as Ht0.
  set (t := (b + g)%float) in *. fold (B2R t) in Bt. set (T := B2R t) in *.
  (* the difference *)
  assert (Hat : - (9 / 10) <= A - T <= 9 / 10) by lra.
  assert (Hat' : Rabs (A - T) <= 9 / 10) by (apply Rabs_le; lra).
  destruct (sub_correct a t Na Nt ltac:(fold A; fold T; lra)) as [Fd Rd'].
  pose proof (rounded_bounds _ _ (9 / 10) (conj Fd Rd') ltac:(fold A; fold T; exact Hat')) as Bd.
  fold A in Bd. fold T in Bd.
  set (d := (a - t)%float) in *. fold (B2R d) in Bd.
  (* the test *)
  destruct (abs_finite d Fd) as [Nabs Eabs].
  rewrite FloatAxioms.ltb_spec. apply below_one.
  - apply FloatAxioms.Prim2SF_valid.
  - exact Nabs.
  - fold (B2R (PrimFloat.abs d)). rewrite Eabs. apply Rabs_def1; lra.
Qed.

(** A float above 0 is not equal to 0. *)
Lemma positive_nonzero (a : float) :
  PrimFloat.ltb 0 a = true -> PrimFloat.eqb a 0 = false.
Proof.
  rewrite FloatAxioms.ltb_spec, FloatAxioms.eqb_spec. unfold SFltb, SFeqb.
  change (Prim2SF 0) with (S754_zero false).
  destruct (Prim2SF a) as [s|s| |s m e]; try destruct s; cbn;
    intros Hlt; (discriminate Hlt || reflexivity).
Qed.

(** A float that equals 0 is one of the two zeros. *)
Lemma zero_cases (a : float) :
  PrimFloat.eqb a 0 = true -> a = 0%float \/ a = (-0)%float.
Proof.
  rewrite FloatAxioms.eqb_spec. unfold SFeqb.
  change (Prim2SF 0) with (S754_zero false).
  pose proof (SF2Prim_Prim2SF a) as E.
  destruct (Prim2SF a) as [s|s| |s m e]; try destruct s; cbn;
    intros Heq; try discriminate Heq; rewrite <- E; [right | left]; reflexivity.
Qed.

(** A float that is at least 0 equals 0 or is above it. *)
Lemma nonnegative_cases (a : float) :
  PrimFloat.leb 0 a = true -> PrimFloat.eqb a 0 = true \/ PrimFloat.ltb 0 a = true.
Proof.
  rewrite FloatAxioms.leb_spec, FloatAxioms.eqb_spec, FloatAxioms.ltb_spec.
  unfold SFleb, SFeqb, SFltb.
  change (Prim2SF 0) with (S754_zero false).
  destruct (Prim2SF a) as [s|s| |s m e]; try destruct s; cbn;
    intros Hle; try discriminate Hle; (left; reflexivity) || (right; reflexivity).
Qed.

(** The reconstruction of a zero is that zero. *)
Lemma reconstruction_of_zero (a : float) :
  PrimFloat.eqb a 0 = true ->
  PrimFloat.ltb (PrimFloat.abs (a - (a / 1.18 + a / 1.18 * 0.18))) 1 = true.
Proof. intros H. destruct (zero_cases a H) as [-> | ->]; reflexivity. Qed.

End Binary64Facts.

(** *** The check *)

(** C10, counterexample. The total 6e15 is positive, and the reconstructed
    total differs from it by exactly 1.0 in binary64: the check reports
    [overall_accurate = false]. *)
Lemma arithmetic_check_fails_on_large_total :
  PrimFloat.ltb 0%float 6e15%float = true /\
  forall float_of_str : string -> option float,
    Api.overall_accurate
      (Api.check_arithmetic_accuracy float_of_str Samples.large_total_invoice) = false.
Proof. split; [reflexivity|]. intros f. vm_compute. reflexivity. Qed.

(** C10, as the code has it. In binary64, for a total that is a positive
    number of at most 3e15 the check reports [overall_accurate = true]
    whatever the invoice's tax arithmetic: the reconstructed total stays
    within the tolerance 1.0 of the total. So it does for a total given as a
    text that is not empty and that [float] reads as a number from 0 to
    3e15: the text ['0'] reports true. For an absent total, a number that
    equals zero, an empty text, and a text that [float] cannot read, the
    check reports false. *)
Theorem arithmetic_check_within_tolerance :
  (forall (float_of_str : string -> option float) (inv : Api.invoice_data float)
          (a : float),
     Api.total_amount inv = Api.Number a ->
     PrimFloat.ltb 0 a = true -> PrimFloat.leb a 3e15 = true ->
     Api.overall_accurate (Api.check_arithmetic_accuracy float_of_str inv) = true) /\
  (forall (float_of_str : string -> option float) (inv : Api.invoice_data float)
          (s : string) (a : float),
     Api.total_amount inv = Api.Text s ->
     s <> EmptyString ->
     float_of_str (remove_char ","%char s) = Some a ->
     PrimFloat.leb 0 a = true -> PrimFloat.leb a 3e15 = true ->
     Api.overall_accurate (Api.check_arithmetic_accuracy float_of_str inv) = true) /\
  (forall (float_of_str : string -> option float) (inv : Api.invoice_data float),
     Api.total_amount inv = Api.Absent \/
     (exists a, Api.total_amount inv = Api.Number a /\ PrimFloat.eqb a 0 = true) \/
     Api.total_amount inv = Api.Text EmptyString \/
     (exists s, Api.total_amount inv = Api.Text s /\
                float_of_str (remove_char ","%char s) = None) ->
     Api.overall_accurate (Api.check_arithmetic_accuracy float_of_str inv) = false).
Proof.
  split; [|split].
  - intros parse inv a Ea H0 H3.
    unfold Api.check_arithmetic_accuracy. rewrite Ea.
    cbn [Api.amount_truthy Api.amount_to_float nonzero binary64].
    rewrite (Binary64Facts.positive_nonzero a H0).
    cbn [negb Api.overall_accurate ltb fabs sub add mul div lit binary64].
    exact (Binary64Facts.reconstruction_within_tolerance a H0 H3).
  - intros parse inv s a Ea Hs Hp H0 H3.
    unfold Api.check_arithmetic_accuracy. rewrite Ea.
    cbn [Api.amount_truthy Api.amount_to_float]. rewrite Hp.
    destruct s as [|c s]; [contradiction|].
    cbn [truthy Api.overall_accurate ltb fabs sub add mul div lit binary64].
    destruct (Binary64Facts.nonnegative_cases a H0) as [Hz | Hpos].
    + exact (Binary64Facts.reconstruction_of_zero a Hz).
    + exact (Binary64Facts.reconstruction_within_tolerance a Hpos H3).
  - intros parse inv [E|[(a & E & Hz)|[E|(s & E & Hs)]]];
      unfold Api.check_arithmetic_accuracy; rewrite E.
    + reflexivity.
    + cbn [Api.amount_truthy nonzero binary64]. rewrite Hz. reflexivity.
    + reflexivity.
    + cbn [Api.amount_truthy Api.amount_to_float]. rewrite Hs.
      destruct (truthy s); reflexivity.
Qed.

Lemma arithmetic_check_within_tolerance_witness :
  Api.overall_accurate
    (Api.check_arithmetic_accuracy Samples.float_of_sample
       (Samples.invoice_of_total 11800)) = true /\
  Api.overall_accurate
    (Api.check_arithmetic_accuracy Samples.float_of_sample
       (Samples.invoice_of_text "11,800")) = true /\
  Api.overall_accurate
    (Api.check_arithmetic_accuracy Samples.float_of_sample
       (Samples.invoice_of_text "0")) = true /\
  Api.overall_accurate
    (Api.check_arithmetic_accuracy Samples.float_of_sample
       (Samples.invoice_of_total 0)) = false /\
  Api.overall_accurate
    (Api.check_arithmetic_accuracy Samples.float_of_sample
       (Samples.invoice_of_text "eleven thousand")) = false.
Proof.
  split; [|split; [|split; [|split]]].
  - apply (proj1 arithmetic_check_within_tolerance Samples.float_of_sample
             (Samples.invoice_of_total 11800) 11800%float);
      reflexivity.
  - apply (proj1 (proj2 arithmetic_check_within_tolerance) Samples.float_of_sample
             (Samples.invoice_of_text "11,800") "11,800" 11800%float);
      [reflexivity | discriminate | reflexivity | reflexivity | reflexivity].
  - apply (proj1 (proj2 arithmetic_check_within_tolerance) Samples.float_of_sample
             (Samples.invoice_of_text "0") "0" 0%float);
      [reflexivity | discriminate | reflexivity | reflexivity | reflexivity].
  - apply (proj2 (proj2 arithmetic_check_within_tolerance) Samples.float_of_sample
             (Samples.invoice_of_total 0)).
    right. left. exists 0%float. split; reflexivity.
  - apply (proj2 (proj2 arithmetic_check_within_tolerance) Samples.float_of_sample
             (Samples.invoice_of_text "eleven thousand")).
    right. right. right. exists "eleven thousand". split; reflexivity.
Defined.

(** ** The document store *)

Import Database.

Lemma opt_eqb_eq (a b : option string) : opt_eqb a b = true <-> a = b.
Proof.
  destruct a as [x|], b as [y|]; simpl; try (split; congruence).
  rewrite String.eqb_eq. split; congruence.
Qed.

Lemma opt_eqb_refl (a : option string) : opt_eqb a a = true.
Proof. apply opt_eqb_eq. reflexivity. Qed.

(** The vendor collection after [store_invoice], by the primary GST number of
    the invoice. *)
Lemma store_invoice_vendors (d : db) (inv : invoice_data) (now : Z) :
  vendors (fst (store_invoice d inv now)) =
  match head (gst_numbers inv) with
  | None => vendors d
  | Some g =>
      if negb (truthy g) || String.eqb g "Unknown" then vendors d
      else
        match vendors d !! g with
        | Some v =>
            <[ g := {| v_gstNumber := v_gstNumber v;
                       v_vendorName := vendor_name inv;
                       totalInvoices := totalInvoices v + 1;
                       v_totalAmount := PrimFloat.add (v_totalAmount v) (total_amount inv);
                       firstInvoiceDate := firstInvoiceDate v;
                       lastInvoiceDate := now |} ]> (vendors d)
        | None =>
            <[ g := {| v_gstNumber := g;
                       v_vendorName := vendor_name inv;
                       totalInvoices := 1;
                       v_totalAmount := total_amount inv;
                       firstInvoiceDate := now;
                       lastInvoiceDate := now |} ]> (vendors d)
        end
  end.
Proof.
  unfold store_invoice, _update_vendor_stats. cbn [fst gstNumber vendors vendorName totalAmount].
  destruct (head (gst_numbers inv)) as [g|]; [|reflexivity].
  destruct (negb (truthy g) || String.eqb g "Unknown"); [reflexivity|].
  destruct (vendors d !! g); reflexivity.
Qed.

(** C8. An invoice with no GST number leaves the vendor collection as it
    was when it is stored, and its anomaly run, on any state of the store,
    reports MISSING_GST. *)
Theorem no_gst_missing_and_no_vendor_update
  (d d' : db) (inv : invoice_data) (now : Z) (invoice_id : value_id) (now' : Z) :
  gst_numbers inv = [] ->
  vendors (fst (store_invoice d inv now)) = vendors d /\
  In (mk_anomaly "MISSING_GST" "HIGH" None) (snd (detect_anomalies d' inv invoice_id now')).
Proof.
  intros E. split.
  - rewrite store_invoice_vendors, E. reflexivity.
  - unfold detect_anomalies, anomalies_of. cbn [snd]. rewrite E.
    apply in_or_app. right. apply in_or_app. left. left. reflexivity.
Qed.

Lemma no_gst_missing_and_no_vendor_update_witness :
  vendors (fst (store_invoice (fst (store_invoice empty_db DbSamples.invoice_A 1)) DbSamples.invoice_B 2))
  = vendors (fst (store_invoice empty_db DbSamples.invoice_A 1)) /\
  In (mk_anomaly "MISSING_GST" "HIGH" None)
     (snd (detect_anomalies
             (fst (store_invoice (fst (store_invoice empty_db DbSamples.invoice_A 1)) DbSamples.invoice_B 2))
             DbSamples.invoice_B (HexStr 1) 3)).
Proof.
  apply (no_gst_missing_and_no_vendor_update
           (fst (store_invoice empty_db DbSamples.invoice_A 1))
           (fst (store_invoice (fst (store_invoice empty_db DbSamples.invoice_A 1)) DbSamples.invoice_B 2))
           DbSamples.invoice_B 2 (HexStr 1) 3).
  reflexivity.
Defined.

(** *** Vendor aggregates *)

Section VendorAggregate.
Variable g : string.
Hypothesis g_present : truthy g = true.
Hypothesis g_known : g <> "Unknown".

Lemma g_not_skipped : negb (truthy g) || String.eqb g "Unknown" = false.
Proof.
  rewrite g_present. simpl. apply String.eqb_neq. exact g_known.
Qed.

(** An invoice of another primary GST number leaves the row of [g] alone. *)
Lemma store_other_vendor (d : db) (inv : invoice_data) (now : Z) :
  opt_eqb (head (gst_numbers inv)) (Some g) = false ->
  vendors (fst (store_invoice d inv now)) !! g = vendors d !! g.
Proof.
  intros Hne. rewrite store_invoice_vendors.
  destruct (head (gst_numbers inv)) as [g'|]; [|reflexivity].
  assert (g' <> g) as Hg.
  { intros ->. rewrite opt_eqb_refl in Hne. discriminate. }
  destruct (negb (truthy g') || String.eqb g' "Unknown"); [reflexivity|].
  destruct (vendors d !! g'); apply lookup_insert_ne; exact Hg.
Qed.

(** Once the row of [g] exists, a run of stored invoices adds one to its
    count and the total to its amount for every invoice of [g]. *)
Lemma store_all_existing_vendor (l : list (invoice_data * Z)) :
  forall (d : db) (v : vendor_doc),
    vendors d !! g = Some v ->
    exists row,
      vendors (store_all d l) !! g = Some row /\
      totalInvoices row = (totalInvoices v + Z.of_nat (length (amounts_for g l)))%Z /\
      v_totalAmount row = fold_left PrimFloat.add (amounts_for g l) (v_totalAmount v) /\
      v_gstNumber row = v_gstNumber v /\
      firstInvoiceDate row = firstInvoiceDate v.
Proof.
  induction l as [|[inv now] rest IH]; intros d v Hv.
  - exists v. unfold amounts_for. simpl. repeat split; [exact Hv | lia].
  - cbn [store_all]. unfold amounts_for. cbn [List.filter fst].
    destruct (opt_eqb (head (gst_numbers inv)) (Some g)) eqn:E.
    + apply opt_eqb_eq in E.
      assert (Hs : vendors (fst (store_invoice d inv now)) !! g =
                   Some {| v_gstNumber := v_gstNumber v;
                           v_vendorName := vendor_name inv;
                           totalInvoices := totalInvoices v + 1;
                           v_totalAmount := PrimFloat.add (v_totalAmount v) (total_amount inv);
                           firstInvoiceDate := firstInvoiceDate v;
                           lastInvoiceDate := now |}).
      { rewrite store_invoice_vendors, E, g_not_skipped, Hv. apply lookup_insert_eq. }
      destruct (IH _ _ Hs) as (row & Hrow & Hn & Ha & Hg & Hf).
      exists row. cbn [map length fold_left fst].
      cbn [totalInvoices v_totalAmount v_gstNumber firstInvoiceDate] in *.
      fold (amounts_for g rest).
      repeat split; [exact Hrow | lia | exact Ha | exact Hg | exact Hf].
    + assert (Hs : vendors (fst (store_invoice d inv now)) !! g = Some v).
      { rewrite store_other_vendor; [exact Hv | exact E]. }
      exact (IH _ _ Hs).
Qed.

(** C4. Let [g] be a GST number that the store does not skip: not empty and
    not "Unknown". From a store with no row for [g], after any run of stored
    invoices the row of [g] counts the invoices of the run whose primary GST
    number is [g] and holds the sum of their totals, added in the order they
    were stored; there is no row when the run has no such invoice. *)
Theorem vendor_aggregate_consistent (d : db) (l : list (invoice_data * Z)) :
  vendors d !! g = None ->
  match amounts_for g l with
  | [] => vendors (store_all d l) !! g = None
  | first :: rest =>
      exists row,
        vendors (store_all d l) !! g = Some row /\
        v_gstNumber row = g /\
        totalInvoices row = Z.of_nat (length (first :: rest)) /\
        v_totalAmount row = fold_left PrimFloat.add rest first
  end.
Proof.
  revert d. induction l as [|[inv now] tl IH]; intros d Hd.
  - exact Hd.
  - cbn [store_all]. unfold amounts_for. cbn [List.filter fst].
    destruct (opt_eqb (head (gst_numbers inv)) (Some g)) eqn:E.
    + apply opt_eqb_eq in E. cbn [map fst]. fold (amounts_for g tl).
      assert (Hs : vendors (fst (store_invoice d inv now)) !! g =
                   Some {| v_gstNumber := g;
                           v_vendorName := vendor_name inv;
                           totalInvoices := 1;
                           v_totalAmount := total_amount inv;
                           firstInvoiceDate := now;
                           lastInvoiceDate := now |}).
      { rewrite store_invoice_vendors, E, g_not_skipped, Hd. apply lookup_insert_eq. }
      destruct (store_all_existing_vendor tl _ _ Hs) as (row & Hrow & Hn & Ha & Hg & _).
      exists row. cbn [totalInvoices v_totalAmount v_gstNumber length] in *.
      repeat split; [exact Hrow | exact Hg | lia | exact Ha].
    + fold (amounts_for g tl). apply IH.
      rewrite store_other_vendor; [exact Hd | exact E].
Qed.

End VendorAggregate.

Lemma vendor_aggregate_consistent_witness :
  exists row,
    vendors (store_all empty_db
               [(DbSamples.phone_1, 1%Z); (DbSamples.other_invoice, 2%Z);
                (DbSamples.phone_3, 3%Z); (DbSamples.invoice_B, 4%Z);
                (DbSamples.invoice_A, 5%Z)]) !! "22AAAAA0000A1Z5" = Some row /\
    v_gstNumber row = "22AAAAA0000A1Z5" /\
    totalInvoices row = 3%Z /\
    v_totalAmount row = 11100%float.
Proof.
  exact (vendor_aggregate_consistent "22AAAAA0000A1Z5" eq_refl ltac:(discriminate) empty_db
           [(DbSamples.phone_1, 1%Z); (DbSamples.other_invoice, 2%Z);
            (DbSamples.phone_3, 3%Z); (DbSamples.invoice_B, 4%Z);
            (DbSamples.invoice_A, 5%Z)] eq_refl).
Defined.

(** *** Duplicate invoice numbers *)

Lemma update_vendor_stats_frame (d : db) (doc : invoice_doc) (now : Z) :
  invoices (_update_vendor_stats d doc now) = invoices d /\
  next_id (_update_vendor_stats d doc now) = next_id d.
Proof.
  unfold _update_vendor_stats.
  destruct (gstNumber doc) as [g|]; [|split; reflexivity].
  destruct (negb (truthy g) || String.eqb g "Unknown"); split; reflexivity.
Qed.

(** The document [store_invoice] inserts. *)
Lemma store_invoice_invoices (d : db) (inv : invoice_data) (now : Z) :
  exists doc,
    invoices (fst (store_invoice d inv now)) = invoices d ++ [doc] /\
    _id doc = ObjectId (next_id d) /\
    invoiceNumber doc = invoice_number inv /\
    next_id (fst (store_invoice d inv now)) = S (next_id d) /\
    snd (store_invoice d inv now) = HexStr (next_id d).
Proof.
  unfold store_invoice. cbn [fst snd str]. eexists.
  rewrite (proj1 (update_vendor_stats_frame _ _ _)),
          (proj2 (update_vendor_stats_frame _ _ _)).
  cbn [invoices next_id]. repeat split.
Qed.

Lemma find_app_found {A} (p : A -> bool) (l1 l2 : list A) (x : A) :
  find p l1 = Some x -> find p (l1 ++ l2) = Some x.
Proof.
  induction l1 as [|a l1 IH]; simpl; [discriminate|].
  destruct (p a); [tauto | exact IH].
Qed.

Lemma find_app_missing {A} (p : A -> bool) (l1 l2 : list A) :
  find p l1 = None -> find p (l1 ++ l2) = find p l2.
Proof.
  induction l1 as [|a l1 IH]; simpl; [reflexivity|].
  destruct (p a); [discriminate | exact IH].
Qed.

Lemma store_all_next_id (l : list (invoice_data * Z)) (d : db) :
  next_id d <= next_id (store_all d l).
Proof.
  revert d. induction l as [|[inv now] tl IH]; intros d; cbn [store_all]; [lia|].
  destruct (store_invoice_invoices d inv now) as (doc & _ & _ & _ & Hn & _).
  specialize (IH (fst (store_invoice d inv now))). lia.
Qed.

(** Invoices with other numbers do not change what the duplicate query
    finds. *)
Lemma store_all_find_number (n : option string) (q : invoice_doc -> bool)
  (l : list (invoice_data * Z)) :
  Forall (fun x => opt_eqb (invoice_number (fst x)) n = false) l ->
  forall d : db,
    find (fun i => opt_eqb (invoiceNumber i) n && q i) (invoices (store_all d l)) =
    find (fun i => opt_eqb (invoiceNumber i) n && q i) (invoices d).
Proof.
  induction 1 as [|[inv now] tl Hx _ IH]; intros d; cbn [store_all]; [reflexivity|].
  rewrite IH.
  destruct (store_invoice_invoices d inv now) as (doc & Hi & _ & Hnum & _).
  rewrite Hi.
  destruct (find _ (invoices d)) as [x|] eqn:E.
  - apply find_app_found. exact E.
  - rewrite (find_app_missing _ _ _ E). cbn [find fst] in *.
    rewrite Hnum, Hx. reflexivity.
Qed.

Lemma hsn_price_deviation_type (d : db) (i : value_id) (x : float) (codes : list string) :
  hsn_price_deviation d i x codes = [] \/
  hsn_price_deviation d i x codes = [mk_anomaly "HSN_PRICE_DEVIATION" "MEDIUM" None].
Proof.
  induction codes as [|c rest IH]; cbn [hsn_price_deviation]; [left; reflexivity|].
  destruct (3 <=? _)%Z; [|exact IH].
  destruct (List.filter _ _); [exact IH|].
  destruct (_ && _); [right; reflexivity | exact IH].
Qed.

Lemma filter_map_const {A B} (p : B -> bool) (b : B) (l : list A) :
  p b = false -> List.filter p (map (fun _ => b) l) = [].
Proof. intros Hb. induction l as [|a l IH]; simpl; [reflexivity|]. rewrite Hb. exact IH. Qed.

(** Decides what a block of [anomalies_of] contributes to a filter by type:
    case analysis on every test of the block. *)
Ltac by_cases_of_block :=
  repeat match goal with
         | |- context [match ?x with _ => _ end] => destruct x
         end;
  reflexivity.

(** The DUPLICATE_INVOICE entries of an anomaly run: the one of check 1. *)
Lemma duplicate_anomalies (d : db) (inv : invoice_data) (invoice_id : value_id) :
  List.filter is_duplicate_anomaly (anomalies_of d inv invoice_id) =
  match find (fun i => opt_eqb (invoiceNumber i) (invoice_number inv) &&
                       negb (id_eqb (_id i) (to_ObjectId invoice_id))) (invoices d) with
  | Some dup => [mk_anomaly "DUPLICATE_INVOICE" "HIGH" (Some (str (_id dup)))]
  | None => []
  end.
Proof.
  unfold anomalies_of. rewrite !List.filter_app.
  rewrite (filter_map_const is_duplicate_anomaly), (filter_map_const is_duplicate_anomaly)
    by reflexivity.
  match goal with |- ?a1 ++ ?a2 ++ ?a3 ++ ?a4 ++ ?a5 ++ [] ++ [] ++ ?a8 = _ =>
    assert (H2 : a2 = []) by by_cases_of_block;
    assert (H3 : a3 = []) by by_cases_of_block;
    assert (H4 : a4 = []) by by_cases_of_block;
    assert (H5 : a5 = []) by by_cases_of_block;
    assert (H8 : a8 = [])
      by (destruct (hsn_price_deviation_type d invoice_id (total_amount inv)
                      (take 3 (hsn_sac_codes inv))) as [-> | ->]; reflexivity)
  end.
  rewrite H2, H3, H4, H5, H8. cbn [app]. rewrite app_nil_r.
  match goal with |- context [find ?p ?l] => destruct (find p l) end; reflexivity.
Qed.

(** C5. From a store with no invoice numbered like B: A is stored, then
    invoices with other numbers, then B with the number of A. The anomaly run
    of B reports DUPLICATE_INVOICE exactly once, with severity HIGH and the
    identifier of A as the related invoice; the identifiers of A and B
    differ. *)
Theorem duplicate_invoice_reported_once
  (d0 : db) (A B : invoice_data) (tA tB now : Z) (others : list (invoice_data * Z)) :
  Forall (fun i => opt_eqb (invoiceNumber i) (invoice_number B) = false) (invoices d0) ->
  invoice_number A = invoice_number B ->
  Forall (fun x => opt_eqb (invoice_number (fst x)) (invoice_number B) = false) others ->
  let d1 := fst (store_invoice d0 A tA) in
  let id_A := snd (store_invoice d0 A tA) in
  let d2 := store_all d1 others in
  let d3 := fst (store_invoice d2 B tB) in
  let id_B := snd (store_invoice d2 B tB) in
  id_A <> id_B /\
  List.filter is_duplicate_anomaly (snd (detect_anomalies d3 B id_B now)) =
    [ {| type := "DUPLICATE_INVOICE"; severity := "HIGH"; relatedInvoiceId := Some id_A |} ].
Proof.
  intros H0 HAB Hothers d1 id_A d2 id_B0 id_B.
  destruct (store_invoice_invoices d0 A tA) as (docA & HiA & HidA & HnumA & HnA & HsA).
  destruct (store_invoice_invoices d2 B tB) as (docB & HiB & HidB & HnumB & HnB & HsB).
  fold d1 in HiA, HnA. fold id_A in HsA. fold id_B0 in HiB, HnB. fold id_B in HsB.
  pose proof (store_all_next_id others d1) as Hmono. fold d2 in Hmono.
  assert (Hlt : next_id d0 < next_id d2) by lia.
  split.
  - rewrite HsA, HsB. intros E. injection E as E. lia.
  - unfold detect_anomalies. cbn [snd]. rewrite duplicate_anomalies.
    rewrite HsB. cbn [to_ObjectId]. rewrite HiB.
    set (p := fun i : invoice_doc => _).
    assert (Hfind : find p (invoices d2) = Some docA).
    { unfold p. unfold d2.
      pose proof (store_all_find_number (invoice_number B)
        (fun i => negb (id_eqb (_id i) (ObjectId (next_id (store_all d1 others)))))
        others Hothers d1) as Hsame.
      cbv beta in Hsame. rewrite Hsame, HiA.
      assert (Hnone : find (fun i => opt_eqb (invoiceNumber i) (invoice_number B) &&
                 negb (id_eqb (_id i) (ObjectId (next_id (store_all d1 others))))) (invoices d0) = None).
      { clear -H0. induction H0 as [|x l Hx _ IH]; simpl; [reflexivity|]. rewrite Hx. exact IH. }
      rewrite (find_app_missing _ _ _ Hnone). cbn [find].
      rewrite HnumA, HAB, opt_eqb_refl, HidA. cbn [id_eqb andb].
      fold d2. destruct (Nat.eqb_spec (next_id d0) (next_id d2)) as [E|E]; [lia|reflexivity]. }
    rewrite (find_app_found _ _ _ _ Hfind). rewrite HidA, HsA. reflexivity.
Qed.

Lemma duplicate_invoice_reported_once_witness :
  HexStr 0 <> HexStr 2 /\
  List.filter is_duplicate_anomaly
    (snd (detect_anomalies
            (fst (store_invoice
                    (store_all (fst (store_invoice empty_db DbSamples.phone_1 1))
                               [(DbSamples.other_invoice, 2%Z)])
                    DbSamples.phone_1 3))
            DbSamples.phone_1 (HexStr 2) 4)) =
    [ {| type := "DUPLICATE_INVOICE"; severity := "HIGH"; relatedInvoiceId := Some (HexStr 0) |} ].
Proof.
  apply (duplicate_invoice_reported_once empty_db DbSamples.phone_1 DbSamples.phone_1
           1 3 4 [(DbSamples.other_invoice, 2%Z)]).
  - constructor.
  - reflexivity.
  - repeat constructor.
Defined.

(** *** Unusual amounts *)

(** C2, on the code. Invoice A (10000, Acme, one GST number) is stored, then
    invoice B (35000, Acme, no GST number), and the anomaly run of B
    executes. The average [vendors_stats] returns for Acme counts B itself,
    stored before the run: it is 22500, and 35000 is not above three times
    it. The run reports MISSING_GST and nothing else. Over the invoices
    stored before B the average is 10000, and 35000 is above three times
    that. *)
Theorem unusual_amount_not_reported :
  let d1 := fst (store_invoice empty_db DbSamples.invoice_A 1) in
  let d2 := fst (store_invoice d1 DbSamples.invoice_B 2) in
  let id_B := snd (store_invoice d1 DbSamples.invoice_B 2) in
  map avgAmount (vendors_stats d2 "Acme") = [22500%float] /\
  snd (detect_anomalies d2 DbSamples.invoice_B id_B 3) = [mk_anomaly "MISSING_GST" "HIGH" None] /\
  map avgAmount (vendors_stats d1 "Acme") = [10000%float] /\
  PrimFloat.ltb (10000 * 3)%float (total_amount DbSamples.invoice_B) = true.
Proof. vm_compute. repeat split. Qed.

(** *** HSN price deviation *)

(** C6, on the code. Two invoices of 100 with the HSN code 8517 are stored,
    then a third of 1000 with the same code. Two other invoices share the
    code, fewer than the three the check asks for; the query of the check
    compares the stored identifiers with the identifier string, excludes
    nothing, and finds three: the run of the third invoice reports
    HSN_PRICE_DEVIATION. *)
Theorem hsn_price_deviation_counts_the_invoice_itself :
  let d2 := store_all empty_db [(DbSamples.phone_1, 1%Z); (DbSamples.phone_2, 2%Z)] in
  let d3 := fst (store_invoice d2 DbSamples.phone_3 3) in
  let id_3 := snd (store_invoice d2 DbSamples.phone_3 3) in
  length (other_invoices_sharing d3 id_3 "8517") = 2 /\
  snd (detect_anomalies d3 DbSamples.phone_3 id_3 4) =
    [mk_anomaly "HSN_PRICE_DEVIATION" "MEDIUM" None].
Proof. vm_compute. repeat split. Qed.

(** An anomaly run reports HSN_PRICE_DEVIATION at most once. *)
Lemma hsn_price_deviation_at_most_once (d : db) (inv : invoice_data) (invoice_id : value_id) :
  length (List.filter (fun a => String.eqb (type a) "HSN_PRICE_DEVIATION")
                      (anomalies_of d inv invoice_id)) <= 1.
Proof.
  unfold anomalies_of. rewrite !List.filter_app, !length_app.
  rewrite (filter_map_const (fun a => String.eqb (type a) "HSN_PRICE_DEVIATION")),
          (filter_map_const (fun a => String.eqb (type a) "HSN_PRICE_DEVIATION")) by reflexivity.
  match goal with
  | |- length ?a1 + (length ?a2 + (length ?a3 + (length ?a4 + (length ?a5 + (_ + (_ + length ?a8)))))) <= 1 =>
    assert (H1 : a1 = []) by by_cases_of_block;
    assert (H2 : a2 = []) by by_cases_of_block;
    assert (H3 : a3 = []) by by_cases_of_block;
    assert (H4 : a4 = []) by by_cases_of_block;
    assert (H5 : a5 = []) by by_cases_of_block;
    assert (H8 : length a8 <= 1)
      by (destruct (hsn_price_deviation_type d invoice_id (total_amount inv)
                      (take 3 (hsn_sac_codes inv))) as [-> | ->]; simpl; lia)
  end.
  rewrite H1, H2, H3, H4, H5. simpl. lia.
Qed.

(** *** Anomaly trends *)

Lemma fill_dates_unfold (t : gmap Z trend) (end_date current_date : Z) :
  fill_dates t end_date current_date =
  if (current_date <=? end_date)%Z
  then match add_days current_date 1 with
       | Some _ =>
           cons (entry_at t (day_of current_date))
             <$> fill_dates t end_date (current_date + day_us)
       | None => None
       end
  else Some [].
Proof.
  rewrite fill_dates_equation_1. unfold fill_dates_unfold_clause_1.
  destruct (Z_le_gt_dec current_date end_date) as [Hle|Hgt];
    destruct (Z.leb_spec current_date end_date); try lia; reflexivity.
Qed.

Lemma add_days_in_range (t k : Z) :
  (0 <= t + k * day_us)%Z -> (t + k * day_us <= datetime_max)%Z ->
  add_days t k = Some (t + k * day_us)%Z.
Proof.
  intros Hlo Hhi. unfold add_days.
  destruct (Z.leb_spec 0 (t + k * day_us)); [|lia].
  destruct (Z.leb_spec (t + k * day_us) datetime_max); [reflexivity|lia].
Qed.

Lemma day_of_next (t : Z) : day_of (t + day_us) = (day_of t + 1)%Z.
Proof.
  unfold day_of. replace (t + day_us)%Z with (t + 1 * day_us)%Z by ring.
  apply Z.div_add. unfold day_us. lia.
Qed.

Lemma day_of_back (t k : Z) : day_of (t - k * day_us) = (day_of t - k)%Z.
Proof.
  unfold day_of. replace (t - k * day_us)%Z with (t + (- k) * day_us)%Z by ring.
  rewrite Z.div_add by (unfold day_us; lia). ring.
Qed.

(** The loop started [n] days before the end runs [n + 1] times, once for
    each day, when the day after the end is a valid instant. *)
Lemma fill_dates_run (t : gmap Z trend) (end_date : Z) (n : nat) :
  (end_date + day_us <= datetime_max)%Z ->
  forall current_date : Z,
    current_date = (end_date - Z.of_nat n * day_us)%Z ->
    (0 <= current_date)%Z ->
    fill_dates t end_date current_date =
    Some (map (fun i => entry_at t (day_of current_date + Z.of_nat i)) (seq 0 (S n))).
Proof.
  intros Hmax.
  assert (HD : (0 < day_us)%Z) by (unfold day_us; lia).
  induction n as [|n IH]; intros c Hc Hpos; rewrite fill_dates_unfold.
  - assert (c = end_date) as -> by lia.
    rewrite Z.leb_refl, (add_days_in_range end_date 1) by lia.
    rewrite fill_dates_unfold.
    destruct (Z.leb_spec (end_date + day_us) end_date) as [H|H]; [lia|].
    cbn [seq map fmap option_fmap option_map]. rewrite Z.add_0_r. reflexivity.
  - destruct (Z.leb_spec c end_date) as [H|H]; [|lia].
    rewrite (add_days_in_range c 1) by lia.
    rewrite (IH (c + day_us)%Z) by lia.
    rewrite day_of_next. cbn [fmap option_fmap option_map]. f_equal.
    change (seq 0 (S (S n))) with (0%nat :: seq 1 (S n)).
    rewrite <- seq_shift. cbn [map]. rewrite map_map, Z.add_0_r. f_equal.
    apply map_ext. intros i. f_equal. lia.
Qed.

(** Every entry of the dictionary carries the date it is filed under, and
    is filed under the date of one of the groups. *)
Lemma add_group_dates (groups : list ((Z * string) * Z)) :
  forall t : gmap Z trend,
    (forall k e, t !! k = Some e -> date e = k) ->
    forall k e,
      fold_left add_group groups t !! k = Some e ->
      date e = k /\ (is_Some (t !! k) \/ exists g, In g groups /\ fst (fst g) = k).
Proof.
  induction groups as [|[[day ty] n] rest IH]; intros t Ht k e Hk; cbn [fold_left] in Hk.
  - split; [exact (Ht k e Hk) | left; eauto].
  - apply IH in Hk.
    + destruct Hk as [Hd [Hs | (g & Hg & Hgk)]].
      * split; [exact Hd|]. unfold add_group in Hs.
        destruct (decide (day = k)) as [->|Hne].
        -- right. exists (k, ty, n). split; [left; reflexivity | reflexivity].
        -- rewrite lookup_insert_ne in Hs by exact Hne. left. exact Hs.
      * split; [exact Hd|]. right. exists g. split; [right; exact Hg | exact Hgk].
    + intros k' e' Hk'. unfold add_group in Hk'.
      destruct (decide (day = k')) as [->|Hne].
      * rewrite lookup_insert_eq in Hk'. injection Hk' as <-. cbn [date].
        destruct (t !! k') as [e0|] eqn:E0.
        -- repeat (match goal with |- context [if ?b then _ else _] => destruct b end);
             cbn [date]; exact (Ht k' e0 E0).
        -- repeat (match goal with |- context [if ?b then _ else _] => destruct b end);
             reflexivity.
      * rewrite lookup_insert_ne in Hk' by exact Hne. exact (Ht k' e' Hk').
Qed.

(** A group of the pipeline comes from a stored anomaly of its day. *)
Lemma trend_groups_day (d : db) (start_date end_date : Z) (g : (Z * string) * Z) :
  In g (trend_groups d start_date end_date) ->
  exists a, In a (anomalies d) /\ day_of (detectedDate a) = fst (fst g).
Proof.
  unfold trend_groups. intros Hg.
  apply list_elem_of_In in Hg. rewrite merge_sort_Permutation in Hg.
  apply list_elem_of_In, in_map_iff in Hg. destruct Hg as (k & <- & Hk).
  apply list_elem_of_In, elem_of_remove_dups, list_elem_of_In, in_map_iff in Hk.
  destruct Hk as (a & <- & Ha). apply filter_In in Ha. destruct Ha as [Ha _].
  exists a. split; [exact Ha | reflexivity].
Qed.

(** Consecutive days are in ascending order. *)
Lemma consecutive_days_sorted (base : Z) (n start : nat) :
  StronglySorted Z.lt (map (fun i => (base + Z.of_nat i)%Z) (seq start n)).
Proof.
  revert start. induction n as [|n IH]; intros start; cbn [seq map]; constructor.
  - apply IH.
  - apply List.Forall_forall. intros x Hx. apply in_map_iff in Hx.
    destruct Hx as (i & <- & Hi). apply in_seq in Hi. lia.
Qed.

(** C9. For a range of [days] days, [days] at least 0, that starts within
    the calendar, the trend query returns [days + 1] entries, one for each
    calendar day from [days] days before today to today, in ascending order;
    the entry of a day on which no anomaly is stored has its four counts and
    its total at zero. *)
Theorem anomaly_trends_one_entry_per_day (d : db) (now days : Z) :
  (0 <= days)%Z ->
  (days * day_us <= now)%Z ->
  (now + day_us <= datetime_max)%Z ->
  exists r,
    get_anomaly_trends d now days = Some r /\
    Z.of_nat (length r) = (days + 1)%Z /\
    map date r = map (fun i => (day_of now - days + Z.of_nat i)%Z) (seq 0 (S (Z.to_nat days))) /\
    StronglySorted Z.lt (map date r) /\
    (forall e, In e r ->
       (forall a, In a (anomalies d) -> day_of (detectedDate a) <> date e) ->
       duplicates e = 0%Z /\ invalidGst e = 0%Z /\ missingGst e = 0%Z /\
       hsnAnomalies e = 0%Z /\ total e = 0%Z).
Proof.
  intros Hdays Hstart Hend. unfold get_anomaly_trends.
  assert (HD : (0 < day_us)%Z) by (unfold day_us; lia).
  rewrite (add_days_in_range now (- days)) by lia.
  set (start_date := (now + - days * day_us)%Z).
  set (t := fold_left add_group (trend_groups d start_date now) ∅).
  rewrite (fill_dates_run t now (Z.to_nat days) Hend start_date)
    by (unfold start_date; lia).
  eexists. split; [reflexivity|].
  assert (Ht : forall k e, t !! k = Some e ->
             date e = k /\ exists a, In a (anomalies d) /\ day_of (detectedDate a) = k).
  { intros k e Hk. apply add_group_dates in Hk.
    - destruct Hk as [Hd [Hs | (g & Hg & Hgk)]].
      + rewrite lookup_empty in Hs. destruct Hs as [? Hs]. discriminate Hs.
      + split; [exact Hd|]. apply trend_groups_day in Hg.
        destruct Hg as (a & Ha & Hday). exists a. split; [exact Ha | congruence].
    - intros k' e' Hk'. rewrite lookup_empty in Hk'. discriminate Hk'. }
  assert (Hdate : forall k, date (entry_at t k) = k).
  { intros k. unfold entry_at. destruct (t !! k) as [e|] eqn:E; [|reflexivity].
    exact (proj1 (Ht k e E)). }
  assert (Hdates : map date (map (fun i => entry_at t (day_of start_date + Z.of_nat i))
                                 (seq 0 (S (Z.to_nat days)))) =
                   map (fun i => (day_of now - days + Z.of_nat i)%Z) (seq 0 (S (Z.to_nat days)))).
  { rewrite map_map. apply map_ext. intros i. rewrite Hdate.
    unfold start_date. replace (now + - days * day_us)%Z with (now - days * day_us)%Z by ring.
    rewrite day_of_back. reflexivity. }
  split; [|split; [|split]].
  - rewrite length_map, length_seq. lia.
  - exact Hdates.
  - rewrite Hdates. apply consecutive_days_sorted.
  - intros e He Hnone. apply in_map_iff in He. destruct He as (i & <- & _).
    set (k := (day_of start_date + Z.of_nat i)%Z) in *.
    rewrite Hdate in Hnone. unfold entry_at.
    destruct (t !! k) as [e|] eqn:E.
    + destruct (Ht k e E) as [_ (a & Ha & Hday)]. exfalso. exact (Hnone a Ha Hday).
    + repeat split.
Qed.

Lemma anomaly_trends_one_entry_per_day_witness :
  get_anomaly_trends DbSamples.checked_store (DbSamples.day 738000) 3 =
  Some [ zero_trend 737997;
         {| date := 737998; duplicates := 0; invalidGst := 0; missingGst := 1;
            hsnAnomalies := 0; total := 1 |};
         zero_trend 737999;
         {| date := 738000; duplicates := 1; invalidGst := 0; missingGst := 0;
            hsnAnomalies := 0; total := 1 |} ] /\
  exists r,
    get_anomaly_trends DbSamples.checked_store (DbSamples.day 738000) 3 = Some r /\
    Z.of_nat (length r) = 4%Z.
Proof.
  split.
  - vm_compute. reflexivity.
  - destruct (anomaly_trends_one_entry_per_day DbSamples.checked_store (DbSamples.day 738000) 3)
      as (r & Hr & Hlen & _).
    + lia.
    + vm_compute. discriminate.
    + vm_compute. discriminate.
    + exists r. split; [exact Hr | exact Hlen].
Defined.

(* ===================================================================== *)
(** * Further properties of the code *)
(* ===================================================================== *)

(** ** gst_verifier.py: cleaning and verification *)

Lemma upper_char_idem c :
  upper_char (upper_char c) = upper_char c /\
  is_char " "%char (upper_char c) = is_char " "%char c.
Proof. destruct c as [[] [] [] [] [] [] [] []]; vm_compute; split; reflexivity. Qed.

Lemma upper_idem s : upper (upper s) = upper s.
Proof.
  induction s as [|c r IH]; simpl; [reflexivity|].
  rewrite IH, (proj1 (upper_char_idem c)). reflexivity.
Qed.

Lemma remove_space_upper s :
  remove_char " "%char (upper s) = upper (remove_char " "%char s).
Proof.
  induction s as [|c r IH]; simpl; [reflexivity|].
  rewrite (proj2 (upper_char_idem c)).
  destruct (is_char " "%char c); simpl; rewrite IH; reflexivity.
Qed.

Lemma remove_char_idem x s : remove_char x (remove_char x s) = remove_char x s.
Proof.
  induction s as [|c r IH]; simpl; [reflexivity|].
  destruct (is_char x c) eqn:E; simpl; [exact IH|]. rewrite E, IH. reflexivity.
Qed.

(** The cleaning step is idempotent. *)
Lemma cleaned_fixpoint s :
  upper (remove_char " "%char (upper (remove_char " "%char s))) =
  upper (remove_char " "%char s).
Proof. rewrite remove_space_upper, remove_char_idem, upper_idem. reflexivity. Qed.

(** What a pattern of classes matches at the start of a string has one
    character for each class, in the class, and matches the anchored
    pattern. *)
Lemma match_here_sound (p : ascii -> bool) (classes : list (ascii -> bool)) :
  Forall (fun cl => forall c, cl c = true -> p c = true) classes ->
  forall x m,
    match_here classes x = Some m ->
    all_chars p m = true /\ String.length m = length classes /\
    re_match_classes classes m = true.
Proof.
  induction 1 as [|cl rest Hcl _ IH]; intros x m Hm; cbn [match_here] in Hm.
  - injection Hm as <-. repeat split.
  - destruct x as [|c r]; [discriminate|].
    destruct (cl c) eqn:Ec; [|discriminate].
    destruct (match_here rest r) as [m'|] eqn:Em; [|discriminate].
    injection Hm as <-. destruct (IH r m' Em) as (Ha & Hl & Hr).
    cbn [all_chars String.length length re_match_classes].
    rewrite (Hcl c Ec), Ha, Hl, Ec, Hr. repeat split.
Qed.

Lemma re_search_sound (classes : list (ascii -> bool)) (x m : string) :
  re_search_classes classes x = Some m ->
  exists y, match_here classes y = Some m.
Proof.
  induction x as [|c r IH]; cbn [re_search_classes].
  - destruct (match_here classes EmptyString) eqn:E; [|discriminate].
    intros H. injection H as <-. eauto.
  - destruct (match_here classes (String c r)) eqn:E.
    + intros H. injection H as <-. eauto.
    + exact IH.
Qed.

Lemma gst_pattern_alnum :
  Forall (fun cl => forall c, cl c = true -> GstVerifier.spec_alnum c = true)
         GstVerifier.gst_pattern.
Proof.
  unfold GstVerifier.gst_pattern, GstVerifier.spec_alnum. cbn [repeat app].
  repeat constructor; intros c Hc;
    first [ exact (digit_fix c Hc) | exact (upper_fix c Hc)
          | exact (entity_fix c Hc) | exact (zed_fix c Hc) | exact Hc ].
Qed.


Lemma truthy_of_length (s : string) (n : nat) :
  String.length s = S n -> truthy s = true.
Proof. destruct s; [discriminate | reflexivity]. Qed.

(** A string of 15 characters that the cleaning step leaves as it is comes
    back from [clean_gst_number]. *)
Lemma clean_gst_number_of_clean (r : string) :
  String.length r = 15%nat ->
  upper (remove_char " "%char r) = r ->
  GstVerifier.clean_gst_number r = Some r.
Proof.
  intros Hl Hc. unfold GstVerifier.clean_gst_number.
  rewrite (truthy_of_length r 14 Hl), Hc. unfold len. rewrite Hl. reflexivity.
Qed.

(** X1. A GST number that [clean_gst_number] returns has exactly 15
    characters, and cleaning it again returns it unchanged. *)
Theorem clean_gst_number_stable (s r : string) :
  GstVerifier.clean_gst_number s = Some r ->
  String.length r = 15%nat /\ GstVerifier.clean_gst_number r = Some r.
Proof.
  unfold GstVerifier.clean_gst_number at 1.
  destruct (negb (truthy s)); [discriminate|].
  unfold len.
  destruct (Z.eqb_spec (Z.of_nat (String.length (upper (remove_char " "%char s)))) 15) as [E|E].
  - intros H. injection H as <-.
    assert (Hl : String.length (upper (remove_char " "%char s)) = 15%nat) by lia.
    split; [exact Hl|].
    apply clean_gst_number_of_clean; [exact Hl | apply cleaned_fixpoint].
  - destruct (15 <? _)%Z; [|discriminate].
    intros H. apply re_search_sound in H. destruct H as (y & Hy).
    destruct (match_here_sound _ _ gst_pattern_alnum y r Hy) as (Ha & Hl & _).
    change (length GstVerifier.gst_pattern) with 15%nat in Hl.
    split; [exact Hl|].
    apply clean_gst_number_of_clean; [exact Hl | exact (clean_fixpoint r Ha)].
Qed.

Lemma clean_gst_number_stable_witness :
  String.length "24ABYFM2874M1ZD" = 15%nat /\
  GstVerifier.clean_gst_number "24ABYFM2874M1ZD" = Some "24ABYFM2874M1ZD".
Proof.
  apply (clean_gst_number_stable "GSTIN: 24 abyfm 2874 m1zd (Gujarat)" "24ABYFM2874M1ZD").
  vm_compute. reflexivity.
Defined.



(** X3. [verify_gst] reports success only for a number that came out of the
    cleaning step, passes [validate_gst_format], and for which the API
    answered 200 with [success] set; the result then carries that number,
    and it is active only when the API status is "Active". A verification
    that is active is a success. *)
Theorem verify_gst_success_sound
  (api : string -> Http.outcome GstVerifier.gst_api_body) (s : string) :
  (GstVerifier.success (GstVerifier.verify_gst api s) = true ->
   exists g body,
     GstVerifier.clean_gst_number s = Some g /\
     GstVerifier.validate_gst_format g = true /\
     api g = Http.Response 200 (Some body) /\
     GstVerifier.api_success body = true /\
     GstVerifier.gst_number (GstVerifier.verify_gst api s) = g /\
     GstVerifier.is_valid (GstVerifier.verify_gst api s) = Some true /\
     (GstVerifier.is_active (GstVerifier.verify_gst api s) = true <->
      GstVerifier.sts body = Json.Value "Active")) /\
  (GstVerifier.is_active (GstVerifier.verify_gst api s) = true ->
   GstVerifier.success (GstVerifier.verify_gst api s) = true).
Proof.
  unfold GstVerifier.verify_gst.
  destruct (GstVerifier.clean_gst_number s) as [g|]; [|split; discriminate].
  destruct (GstVerifier.validate_gst_format g) eqn:Ev; [|split; discriminate].
  cbn [negb].
  destruct (api g) as [| |code body] eqn:Ea; try (split; discriminate).
  destruct (Z.eqb_spec code 200) as [->|Hc].
  - destruct body as [body|]; [|split; discriminate].
    destruct (GstVerifier.api_success body) eqn:Es; [|split; discriminate].
    cbn [GstVerifier.success GstVerifier.gst_number GstVerifier.is_valid GstVerifier.is_active].
    split; [|reflexivity]. intros _. exists g, body. repeat split; try assumption.
    + destruct (GstVerifier.sts body) as [| |x]; try discriminate.
      intros H. apply String.eqb_eq in H. congruence.
    + intros ->. apply String.eqb_refl.
  - destruct (code =? 404)%Z; [split; discriminate|].
    destruct (code =? 429)%Z; split; discriminate.
Qed.

(** X4. An input that the cleaning step refuses, or whose cleaned form
    fails [validate_gst_format], is answered without a call to the API: the
    result is the same whatever the API would say, and it is a failure
    marked invalid. *)
Theorem verify_gst_malformed_offline
  (api1 api2 : string -> Http.outcome GstVerifier.gst_api_body) (s : string) :
  (forall g, GstVerifier.clean_gst_number s = Some g ->
             GstVerifier.validate_gst_format g = false) ->
  GstVerifier.verify_gst api1 s = GstVerifier.verify_gst api2 s /\
  GstVerifier.success (GstVerifier.verify_gst api1 s) = false /\
  GstVerifier.is_valid (GstVerifier.verify_gst api1 s) = Some false.
Proof.
  intros H. unfold GstVerifier.verify_gst.
  destruct (GstVerifier.clean_gst_number s) as [g|]; [|repeat split].
  rewrite (H g eq_refl). repeat split.
Qed.

Lemma verify_gst_malformed_offline_witness :
  GstVerifier.verify_gst (fun _ => Http.Timeout) "22AAAAA0000A0Z5" =
  GstVerifier.verify_gst
    (fun _ => Http.Response 200
                (Some {| GstVerifier.api_success := true;
                         GstVerifier.sts := Json.Value "Active";
                         GstVerifier.lgnm := Json.Value "ACME TRADERS";
                         GstVerifier.tradeName := Json.Missing |})) "22AAAAA0000A0Z5" /\
  GstVerifier.success (GstVerifier.verify_gst (fun _ => Http.Timeout) "22AAAAA0000A0Z5") = false /\
  GstVerifier.is_valid (GstVerifier.verify_gst (fun _ => Http.Timeout) "22AAAAA0000A0Z5") = Some false.
Proof.
  apply verify_gst_malformed_offline.
  intros g Hg. vm_compute in Hg. injection Hg as <-. vm_compute. reflexivity.
Defined.

(** ** gst_verifier.py: vendor names *)

Lemma lower_char_facts c :
  lower_char (upper_char c) = lower_char c /\
  lower_char (lower_char c) = lower_char c.
Proof. destruct c as [[] [] [] [] [] [] [] []]; vm_compute; split; reflexivity. Qed.

Lemma lower_upper s : lower (upper s) = lower s.
Proof.
  induction s as [|c r IH]; simpl; [reflexivity|].
  rewrite IH, (proj1 (lower_char_facts c)). reflexivity.
Qed.

Lemma lower_idem s : lower (lower s) = lower s.
Proof.
  induction s as [|c r IH]; simpl; [reflexivity|].
  rewrite IH, (proj2 (lower_char_facts c)). reflexivity.
Qed.

Lemma contains_empty (s : string) : contains EmptyString s = true.
Proof. destruct s; reflexivity. Qed.

(** X5. For a vendor name of ASCII characters, the verdict of
    [check_vendor_name_match], that is whether it raises and the keys
    ['match'], ['matched_with'] and ['ratio'] of what it returns, does not
    depend on the letter case of the vendor name. The reason of a refusal
    is another matter: it quotes the vendor name as it was given. *)
Theorem check_vendor_name_match_ignores_case
  (gst_data : GstVerifier.gst_result) (vendor_name : string) :
  all_chars is_ascii vendor_name = true ->
  (GstVerifier.verdict <$> GstVerifier.check_vendor_name_match gst_data (upper vendor_name) =
   GstVerifier.verdict <$> GstVerifier.check_vendor_name_match gst_data vendor_name) /\
  (GstVerifier.verdict <$> GstVerifier.check_vendor_name_match gst_data (lower vendor_name) =
   GstVerifier.verdict <$> GstVerifier.check_vendor_name_match gst_data vendor_name) /\
  (forall m given legal,
     GstVerifier.check_vendor_name_match gst_data vendor_name = Some m ->
     GstVerifier.reason m = Some (GstVerifier.NamesDiffer given legal) ->
     given = vendor_name).
Proof.
  intros _.
  assert (Hcase : forall v, lower v = lower vendor_name ->
            GstVerifier.verdict <$> GstVerifier.check_vendor_name_match gst_data v =
            GstVerifier.verdict <$> GstVerifier.check_vendor_name_match gst_data vendor_name).
  { intros v Hv. unfold GstVerifier.check_vendor_name_match. rewrite Hv.
    destruct (negb (GstVerifier.success gst_data)); [reflexivity|].
    destruct (Json.get_or (GstVerifier.legal_name gst_data) EmptyString) as [legal|];
      [|reflexivity].
    destruct (Json.get_or (GstVerifier.trade_name gst_data) EmptyString) as [trade|];
      [|reflexivity].
    cbv zeta.
    repeat match goal with
           | |- context [if ?b then _ else _] => destruct b
           | |- context [match ?l with [] => _ | _ :: _ => _ end] => destruct l
           end; reflexivity. }
  split; [apply Hcase, lower_upper|]. split; [apply Hcase, lower_idem|].
  intros m given legal. unfold GstVerifier.check_vendor_name_match.
  destruct (negb (GstVerifier.success gst_data)).
  { intros Hm. injection Hm as <-. discriminate. }
  destruct (Json.get_or (GstVerifier.legal_name gst_data) EmptyString) as [l|];
    [|discriminate].
  destruct (Json.get_or (GstVerifier.trade_name gst_data) EmptyString) as [t|];
    [|discriminate].
  cbv zeta.
  repeat match goal with
         | |- context [if ?b then _ else _] => destruct b
         | |- context [match ?l with [] => _ | _ :: _ => _ end] => destruct l
         end;
    intros Hm; injection Hm as <-; cbn [GstVerifier.reason GstVerifier.no_match];
    intros Hr; congruence.
Qed.

Lemma check_vendor_name_match_ignores_case_witness :
  GstVerifier.verdict <$>
    GstVerifier.check_vendor_name_match
      (GstVerifier.verify_gst UploadSamples.gst_api "24ABYFM2874M1ZD") "ACME TRADERS" =
  GstVerifier.verdict <$>
    GstVerifier.check_vendor_name_match
      (GstVerifier.verify_gst UploadSamples.gst_api "24ABYFM2874M1ZD") "Acme Traders".
Proof.
  apply (proj1 (check_vendor_name_match_ignores_case
                  (GstVerifier.verify_gst UploadSamples.gst_api "24ABYFM2874M1ZD")
                  "Acme Traders" eq_refl)).
Defined.

(** X6. A failed verification matches no vendor name, and its names are
    not read. After a successful one the check raises exactly when the
    registered legal name or trade name is [null]; when both are strings, an
    empty vendor name, and any vendor name when the registered legal name is
    empty, is reported as a match with the legal name. *)
Theorem check_vendor_name_match_edges
  (gst_data : GstVerifier.gst_result) (vendor_name : string) :
  (GstVerifier.success gst_data = false ->
   GstVerifier.check_vendor_name_match gst_data vendor_name =
   Some (GstVerifier.no_match GstVerifier.GstVerificationFailed)) /\
  (GstVerifier.success gst_data = true ->
   (GstVerifier.check_vendor_name_match gst_data vendor_name = None <->
    GstVerifier.legal_name gst_data = Json.Null \/
    GstVerifier.trade_name gst_data = Json.Null)) /\
  (forall legal trade,
     GstVerifier.success gst_data = true ->
     Json.get_or (GstVerifier.legal_name gst_data) EmptyString = Some legal ->
     Json.get_or (GstVerifier.trade_name gst_data) EmptyString = Some trade ->
     vendor_name = EmptyString \/ legal = EmptyString ->
     GstVerifier.check_vendor_name_match gst_data vendor_name =
     Some {| GstVerifier.matched := true;
             GstVerifier.matched_with := Some "legal_name";
             GstVerifier.ratio := None;
             GstVerifier.reason := None |}).
Proof.
  unfold GstVerifier.check_vendor_name_match. split; [|split].
  - intros ->. reflexivity.
  - intros ->. cbn [negb].
    destruct (GstVerifier.legal_name gst_data) as [| |legal];
      destruct (GstVerifier.trade_name gst_data) as [| |trade]; cbn [Json.get_or];
      try (split; [intros _; (left; reflexivity) || (right; reflexivity) | reflexivity]);
      (split; [|intros [Hn | Hn]; discriminate Hn]); cbv zeta;
      repeat match goal with
             | |- context [if ?b then _ else _] => destruct b
             | |- context [match ?l with [] => _ | _ :: _ => _ end] => destruct l
             end; discriminate.
  - intros legal trade -> -> -> [-> | ->]; cbn [negb lower].
    + rewrite contains_empty. reflexivity.
    + rewrite contains_empty, orb_true_r. reflexivity.
Qed.

(** ** hsn_sac_verifier.py *)

Section HsnSac.
Import HsnSacVerifier.
Variables api_hsn api_sac : string -> Http.outcome tax_body.

Lemma lookup_facts (api : string -> Http.outcome tax_body) (kind given clean : string) :
  success (lookup api kind given clean) = is_valid (lookup api kind given clean) /\
  (success (lookup api kind given clean) = true ->
   code (lookup api kind given clean) = clean /\
   code_type (lookup api kind given clean) = Some kind /\
   is_Some (gst_rates (lookup api kind given clean)) /\
   exists body, api clean = Http.Response 200 (Some body)).
Proof.
  unfold lookup. destruct (api clean) as [| |status body] eqn:Ea;
    try (split; [reflexivity | discriminate]).
  destruct (Z.eqb_spec status 200) as [->|Hs].
  - destruct body as [body|]; [|split; [reflexivity | discriminate]].
    split; [reflexivity|]. intros _. cbn. repeat split; eauto.
  - destruct (status =? 404)%Z; split; try reflexivity; discriminate.
Qed.

Lemma verify_hsn_code_facts (c : string) :
  success (verify_hsn_code api_hsn c) = is_valid (verify_hsn_code api_hsn c) /\
  (success (verify_hsn_code api_hsn c) = true ->
   code (verify_hsn_code api_hsn c) = digits_of c /\
   code_type (verify_hsn_code api_hsn c) = Some "HSN" /\
   is_Some (gst_rates (verify_hsn_code api_hsn c)) /\
   (4 <= len (digits_of c))%Z /\
   exists body, api_hsn (digits_of c) = Http.Response 200 (Some body)).
Proof.
  unfold verify_hsn_code.
  destruct (negb (truthy (digits_of c))); cbn [orb]; [split; [reflexivity|discriminate]|].
  destruct (Z.ltb_spec (len (digits_of c)) 4); [split; [reflexivity|discriminate]|].
  destruct (lookup_facts api_hsn "HSN" c (digits_of c)) as [H1 H2].
  split; [exact H1|]. intros Hs. destruct (H2 Hs) as (? & ? & ? & ?). repeat split; assumption.
Qed.

Lemma verify_sac_code_facts (c : string) :
  success (verify_sac_code api_sac c) = is_valid (verify_sac_code api_sac c) /\
  (success (verify_sac_code api_sac c) = true ->
   code (verify_sac_code api_sac c) = digits_of c /\
   code_type (verify_sac_code api_sac c) = Some "SAC" /\
   is_Some (gst_rates (verify_sac_code api_sac c)) /\
   (4 <= len (digits_of c))%Z /\
   exists body, api_sac (digits_of c) = Http.Response 200 (Some body)).
Proof.
  unfold verify_sac_code.
  destruct (negb (truthy (digits_of c))); cbn [orb]; [split; [reflexivity|discriminate]|].
  destruct (Z.ltb_spec (len (digits_of c)) 4); [split; [reflexivity|discriminate]|].
  destruct (lookup_facts api_sac "SAC" c (digits_of c)) as [H1 H2].
  split; [exact H1|]. intros Hs. destruct (H2 Hs) as (? & ? & ? & ?). repeat split; assumption.
Qed.

(** X7. A verification by [verify_code] is a success exactly when it is
    valid. A successful one carries the digits of the code given, at least
    4 of them, the rates, and the type HSN or SAC of the endpoint that
    answered 200 for those digits. *)
Theorem verify_code_success_sound (c : string) :
  let v := verify_code api_hsn api_sac c in
  success v = is_valid v /\
  (success v = true ->
   code v = digits_of c /\ (4 <= len (digits_of c))%Z /\ is_Some (gst_rates v) /\
   ((code_type v = Some "HSN" /\
     exists body, api_hsn (digits_of c) = Http.Response 200 (Some body)) \/
    (code_type v = Some "SAC" /\
     exists body, api_sac (digits_of c) = Http.Response 200 (Some body)))).
Proof.
  cbv zeta. unfold verify_code.
  pose proof (verify_hsn_code_facts c) as [Hh1 Hh2].
  pose proof (verify_sac_code_facts c) as [Hs1 Hs2].
  destruct (String.eqb (detect_code_type c) "SAC").
  - split; [exact Hs1|]. intros H. destruct (Hs2 H) as (? & ? & ? & ? & ?).
    repeat split; try assumption. right. split; assumption.
  - destruct (String.eqb (detect_code_type c) "HSN").
    + split; [exact Hh1|]. intros H. destruct (Hh2 H) as (? & ? & ? & ? & ?).
      repeat split; try assumption. left. split; assumption.
    + destruct (success (verify_hsn_code api_hsn c)) eqn:Eh.
      * split; [congruence|]. intros _. destruct (Hh2 eq_refl) as (? & ? & ? & ? & ?).
        repeat split; try assumption. left. split; assumption.
      * destruct (success (verify_sac_code api_sac c)) eqn:Es.
        -- split; [congruence|]. intros _. destruct (Hs2 eq_refl) as (? & ? & ? & ? & ?).
           repeat split; try assumption. right. split; assumption.
        -- split; [reflexivity | discriminate].
Qed.

(** X8. A code with fewer than 4 digits is answered by [verify_code]
    without a call to either endpoint: the result is the failure of type
    UNKNOWN. *)
Theorem verify_code_too_short (c : string) :
  (String.length (digits_of c) < 4)%nat ->
  verify_code api_hsn api_sac c = failure false c (Some "UNKNOWN") NotInHsnOrSac.
Proof.
  intros Hl. unfold verify_code, detect_code_type, verify_hsn_code, verify_sac_code, len.
  destruct (Z.eqb_spec (Z.of_nat (String.length (digits_of c))) 6); [lia|].
  destruct (Z.eqb_spec (Z.of_nat (String.length (digits_of c))) 4); [lia|].
  destruct (Z.eqb_spec (Z.of_nat (String.length (digits_of c))) 8); [lia|].
  destruct (Z.ltb_spec (Z.of_nat (String.length (digits_of c))) 4); [|lia].
  cbn [andb orb]. rewrite orb_true_r. reflexivity.
Qed.

End HsnSac.

Lemma verify_code_too_short_witness :
  HsnSacVerifier.verify_code (fun _ => Http.Timeout) (fun _ => Http.Failed) "HSN-85" =
  HsnSacVerifier.failure false "HSN-85" (Some "UNKNOWN") HsnSacVerifier.NotInHsnOrSac.
Proof.
  apply (verify_code_too_short (fun _ => Http.Timeout) (fun _ => Http.Failed) "HSN-85").
  vm_compute. lia.
Defined.

(** X9. [detect_code_type] gives the type SAC to a code with six digits
    that begin with 99, the type HSN to a code with four or eight digits, or
    with six digits that do not begin with 99, and UNKNOWN to every other
    code. [verify_code] sends a code of the SAC type to the SAC endpoint
    only, and a code of the HSN type to the HSN endpoint only: the result is
    that of [verify_sac_code], of [verify_hsn_code], and the other endpoint
    has no effect on it. A code of unknown type is tried as an HSN code,
    then as a SAC code, and fails with the type UNKNOWN when both fail. *)
Theorem verify_code_routing
  (h1 h2 s1 s2 : string -> Http.outcome HsnSacVerifier.tax_body) (c : string) :
  let n := String.length (HsnSacVerifier.digits_of c) in
  let starts99 := startswith "99" (HsnSacVerifier.digits_of c) in
  (HsnSacVerifier.detect_code_type c = "SAC" <-> n = 6%nat /\ starts99 = true) /\
  (HsnSacVerifier.detect_code_type c = "HSN" <->
   n = 4%nat \/ n = 8%nat \/ (n = 6%nat /\ starts99 = false)) /\
  (HsnSacVerifier.detect_code_type c = "UNKNOWN" <->
   n <> 4%nat /\ n <> 6%nat /\ n <> 8%nat) /\
  (HsnSacVerifier.detect_code_type c = "SAC" ->
   HsnSacVerifier.verify_code h1 s1 c = HsnSacVerifier.verify_sac_code s1 c /\
   HsnSacVerifier.verify_code h1 s1 c = HsnSacVerifier.verify_code h2 s1 c) /\
  (HsnSacVerifier.detect_code_type c = "HSN" ->
   HsnSacVerifier.verify_code h1 s1 c = HsnSacVerifier.verify_hsn_code h1 c /\
   HsnSacVerifier.verify_code h1 s1 c = HsnSacVerifier.verify_code h1 s2 c) /\
  (HsnSacVerifier.detect_code_type c = "UNKNOWN" ->
   HsnSacVerifier.verify_code h1 s1 c =
   if HsnSacVerifier.success (HsnSacVerifier.verify_hsn_code h1 c)
   then HsnSacVerifier.verify_hsn_code h1 c
   else if HsnSacVerifier.success (HsnSacVerifier.verify_sac_code s1 c)
        then HsnSacVerifier.verify_sac_code s1 c
        else HsnSacVerifier.failure false c (Some "UNKNOWN") HsnSacVerifier.NotInHsnOrSac).
Proof.
  cbv zeta.
  assert (Htype :
    HsnSacVerifier.detect_code_type c =
    if (String.length (HsnSacVerifier.digits_of c) =? 6)%nat &&
       startswith "99" (HsnSacVerifier.digits_of c) then "SAC"
    else if (String.length (HsnSacVerifier.digits_of c) =? 4)%nat ||
            (String.length (HsnSacVerifier.digits_of c) =? 6)%nat ||
            (String.length (HsnSacVerifier.digits_of c) =? 8)%nat then "HSN"
    else "UNKNOWN").
  { unfold HsnSacVerifier.detect_code_type, len.
    destruct (Z.eqb_spec (Z.of_nat (String.length (HsnSacVerifier.digits_of c))) 6);
      destruct (Nat.eqb_spec (String.length (HsnSacVerifier.digits_of c)) 6); try lia;
      destruct (Z.eqb_spec (Z.of_nat (String.length (HsnSacVerifier.digits_of c))) 4);
      destruct (Nat.eqb_spec (String.length (HsnSacVerifier.digits_of c)) 4); try lia;
      destruct (Z.eqb_spec (Z.of_nat (String.length (HsnSacVerifier.digits_of c))) 8);
      destruct (Nat.eqb_spec (String.length (HsnSacVerifier.digits_of c)) 8); try lia;
      reflexivity. }
  split; [|split; [|split; [|split; [|split]]]].
  - rewrite Htype.
    destruct (Nat.eqb_spec (String.length (HsnSacVerifier.digits_of c)) 6) as [E|E];
      destruct (startswith "99" (HsnSacVerifier.digits_of c)); cbn [andb orb];
      try (split; [intros _; split; [assumption | reflexivity] | reflexivity]);
      repeat match goal with |- context [if ?b then _ else _] => destruct b end;
      (split; [discriminate | intros [H1 H2]; congruence]).
  - rewrite Htype.
    destruct (Nat.eqb_spec (String.length (HsnSacVerifier.digits_of c)) 6) as [E6|E6];
      destruct (Nat.eqb_spec (String.length (HsnSacVerifier.digits_of c)) 4) as [E4|E4];
      destruct (Nat.eqb_spec (String.length (HsnSacVerifier.digits_of c)) 8) as [E8|E8];
      destruct (startswith "99" (HsnSacVerifier.digits_of c)); cbn [andb orb];
      try lia;
      (split; [try discriminate; intros _; tauto
              | try reflexivity; intros [H|[H|[H1 H2]]]; congruence]).
  - rewrite Htype.
    destruct (Nat.eqb_spec (String.length (HsnSacVerifier.digits_of c)) 6) as [E6|E6];
      destruct (Nat.eqb_spec (String.length (HsnSacVerifier.digits_of c)) 4) as [E4|E4];
      destruct (Nat.eqb_spec (String.length (HsnSacVerifier.digits_of c)) 8) as [E8|E8];
      destruct (startswith "99" (HsnSacVerifier.digits_of c)); cbn [andb orb];
      try lia;
      (split; [try discriminate; intros _; tauto
              | try reflexivity; intros (H4 & H6 & H8); congruence]).
  - intros E. unfold HsnSacVerifier.verify_code. rewrite E. split; reflexivity.
  - intros E. unfold HsnSacVerifier.verify_code. rewrite E. split; reflexivity.
  - intros E. unfold HsnSacVerifier.verify_code. rewrite E. reflexivity.
Qed.

(** *** Reports over several codes *)

Lemma count_where_split {A} (p : A -> bool) (l : list A) :
  (HsnSacVerifier.count_where p l + HsnSacVerifier.count_where (fun x => negb (p x)) l
   = Z.of_nat (length l))%Z.
Proof.
  unfold HsnSacVerifier.count_where.
  induction l as [|a l IH]; simpl; [reflexivity|].
  destruct (p a); simpl; lia.
Qed.

Lemma count_where_app {A} (p : A -> bool) (l1 l2 : list A) :
  HsnSacVerifier.count_where p (l1 ++ l2) =
  (HsnSacVerifier.count_where p l1 + HsnSacVerifier.count_where p l2)%Z.
Proof.
  unfold HsnSacVerifier.count_where. rewrite List.filter_app, length_app. lia.
Qed.

Lemma count_where_cons {A} (p : A -> bool) (a : A) (l : list A) :
  HsnSacVerifier.count_where p (a :: l) =
  ((if p a then 1 else 0) + HsnSacVerifier.count_where p l)%Z.
Proof.
  unfold HsnSacVerifier.count_where. cbn [List.filter].
  destruct (p a); cbn [length]; lia.
Qed.

Section Reports.
Import HsnSacVerifier.
Variables api_hsn api_sac : string -> Http.outcome tax_body.

Lemma verify_invoice_codes_loop (codes : list string) :
  forall (results : list verification) (valid invalid : Z),
    fold_left
      (fun '(results, valid_count, invalid_count) code =>
         if skipped (Some code) then (results, valid_count, invalid_count)
         else
           let v := verify_code api_hsn api_sac code in
           if is_valid v
           then (results ++ [v], valid_count + 1, invalid_count)%Z
           else (results ++ [v], valid_count, invalid_count + 1)%Z)
      codes (results, valid, invalid) =
    (results ++ map (verify_code api_hsn api_sac) (kept_codes codes),
     (valid + count_where is_valid (map (verify_code api_hsn api_sac) (kept_codes codes)))%Z,
     (invalid + count_where (fun v => negb (is_valid v))
                  (map (verify_code api_hsn api_sac) (kept_codes codes)))%Z).
Proof.
  induction codes as [|c rest IH]; intros results valid invalid.
  - cbn. rewrite app_nil_r, !Z.add_0_r. reflexivity.
  - cbn [fold_left kept_codes List.filter].
    destruct (skipped (Some c)); cbn [negb].
    + apply IH.
    + destruct (is_valid (verify_code api_hsn api_sac c)) eqn:Ev; rewrite IH;
        cbn [map]; rewrite <- app_assoc; cbn [app];
        rewrite !(count_where_cons _ (verify_code api_hsn api_sac c)), Ev; cbn [negb];
        unfold kept_codes;
        (apply pair_equal_spec; split; [apply pair_equal_spec; split|]);
        first [reflexivity | lia].
Qed.

(** X10. The report of [verify_invoice_codes] holds one verification for
    every code that is neither empty nor "Unknown", in the order of the
    list; its valid and invalid counts add up to the number of codes
    verified, which is at most the number of codes given, and [all_valid]
    says that no verification is invalid. *)
Theorem verify_invoice_codes_counts (codes : list string) :
  let r := verify_invoice_codes api_hsn api_sac codes in
  verifications r = map (verify_code api_hsn api_sac) (kept_codes codes) /\
  verified_codes r = (valid_codes r + invalid_codes r)%Z /\
  (0 <= valid_codes r)%Z /\ (0 <= invalid_codes r)%Z /\
  (verified_codes r <= total_codes r)%Z /\
  (all_valid r = true <-> forallb is_valid (verifications r) = true).
Proof.
  cbv zeta. unfold verify_invoice_codes. rewrite verify_invoice_codes_loop.
  cbn [app Z.add verifications verified_codes valid_codes invalid_codes total_codes all_valid].
  set (vs := map (verify_code api_hsn api_sac) (kept_codes codes)).
  pose proof (count_where_split is_valid vs) as Hsplit.
  assert (Hlen : length vs <= length codes).
  { unfold vs, kept_codes. rewrite length_map. apply List.filter_length_le. }
  assert (Hv : (0 <= count_where is_valid vs)%Z) by (unfold count_where; lia).
  assert (Hi : (0 <= count_where (fun v => negb (is_valid v)) vs)%Z) by (unfold count_where; lia).
  repeat split; try lia.
  - intros H. apply Z.eqb_eq in H. unfold count_where in H.
    assert (Hnil : List.filter (fun v => negb (is_valid v)) vs = []).
    { destruct (List.filter _ vs); [reflexivity | simpl in H; lia]. }
    clear -Hnil. induction vs as [|v vs IH]; [reflexivity|].
    cbn in *. destruct (is_valid v); [exact (IH Hnil) | discriminate].
  - intros H. apply Z.eqb_eq. unfold count_where.
    clear -H. induction vs as [|v vs IH]; [reflexivity|].
    cbn in *. destruct (is_valid v); [exact (IH H) | discriminate].
Qed.

Variable float_of_str : string -> option float.

Lemma line_item_step_invariant
  (acc acc' : list verification * list rate_mismatch) (item : line_item) :
  line_item_step float_of_str api_hsn api_sac acc item = Some acc' ->
  (length (snd acc) <= length (List.filter is_valid (fst acc)))%nat ->
  (length (snd acc') <= length (List.filter is_valid (fst acc')))%nat /\
  (length (fst acc') <= S (length (fst acc)))%nat.
Proof.
  destruct acc as [results mismatches]. unfold line_item_step. cbn [fst snd].
  destruct (code_or (li_hsn_code item) (li_hsn_sac_code item)) as [c|];
    [|intros H; injection H as <-; cbn; lia].
  destruct (skipped (Some c)); [intros H; injection H as <-; cbn; lia|].
  destruct (rate_truthy _ && is_valid (verify_code api_hsn api_sac c)) eqn:Et.
  - apply andb_prop in Et. destruct Et as [_ Ev].
    destruct (gst_rates (verify_code api_hsn api_sac c)) as [rates|]; [|discriminate].
    destruct (rate_to_float float_of_str _) as [x|]; [|discriminate].
    intros H. injection H as <-. cbn [fst snd].
    rewrite List.filter_app, !length_app. cbn [List.filter is_valid]. rewrite Ev.
    destruct (PrimFloat.ltb _ _); cbn [length]; intros Hinv; rewrite ?length_app; cbn [length]; lia.
  - intros H. injection H as <-. cbn [fst snd].
    rewrite List.filter_app, !length_app. cbn [List.filter is_valid length]. intros Hinv.
    destruct (is_valid (verify_code api_hsn api_sac c)); cbn [length]; lia.
Qed.

Lemma line_items_loop_invariant (items : list line_item) :
  forall acc acc',
    line_items_loop float_of_str api_hsn api_sac acc items = Some acc' ->
    (length (snd acc) <= length (List.filter is_valid (fst acc)))%nat ->
    (length (snd acc') <= length (List.filter is_valid (fst acc')))%nat /\
    (length (fst acc') <= length (fst acc) + length items)%nat.
Proof.
  induction items as [|item rest IH]; intros acc acc' H Hinv; cbn [line_items_loop] in H.
  - injection H as <-. cbn. split; [exact Hinv | lia].
  - destruct (line_item_step float_of_str api_hsn api_sac acc item) as [acc1|] eqn:E1;
      [|discriminate].
    destruct (line_item_step_invariant acc acc1 item E1 Hinv) as [H1 H2].
    destruct (IH acc1 acc' H H1) as [H3 H4]. cbn [length]. split; [exact H3 | lia].
Qed.

(** X11. When [verify_with_line_items] returns, its valid and invalid
    counts add up to the number of items verified, which is at most the
    number of line items; every rate mismatch belongs to an item whose code
    is valid, so there are at most as many mismatches as valid codes; and
    [rate_mismatch_count] and [all_rates_match] describe the list of
    mismatches. *)
Theorem verify_with_line_items_counts (line_items : list line_item) (r : line_items_report) :
  verify_with_line_items float_of_str api_hsn api_sac line_items = Some r ->
  verified_items r = (li_valid_codes r + li_invalid_codes r)%Z /\
  (verified_items r <= total_items r)%Z /\
  verified_items r = Z.of_nat (length (li_verifications r)) /\
  (rate_mismatch_count r <= li_valid_codes r)%Z /\
  rate_mismatch_count r = Z.of_nat (length (rate_mismatches r)) /\
  (all_rates_match r = true <-> rate_mismatches r = []).
Proof.
  unfold verify_with_line_items.
  destruct (line_items_loop float_of_str api_hsn api_sac ([], []) line_items)
    as [[results mismatches]|] eqn:El; [|discriminate].
  intros H. injection H as <-.
  cbn [verified_items li_valid_codes li_invalid_codes total_items li_verifications
       rate_mismatch_count rate_mismatches all_rates_match].
  destruct (line_items_loop_invariant line_items _ _ El) as [H1 H2]; [cbn; lia|].
  cbn [fst snd length] in H1, H2.
  pose proof (count_where_split is_valid results) as Hsplit.
  repeat split; try lia.
  - unfold count_where. lia.
  - intros H. apply Nat.eqb_eq in H. destruct mismatches; [reflexivity | discriminate].
  - intros ->. reflexivity.
Qed.

End Reports.


Lemma verify_with_line_items_counts_witness :
  let r := {| HsnSacVerifier.total_items := 4; HsnSacVerifier.verified_items := 3;
              HsnSacVerifier.li_valid_codes := 2; HsnSacVerifier.li_invalid_codes := 1;
              HsnSacVerifier.rate_mismatches :=
                [ {| HsnSacVerifier.item := "Phone"; HsnSacVerifier.hsn_code := "8517";
                     HsnSacVerifier.extracted_rate := HsnSacVerifier.RateNumber 12%float;
                     HsnSacVerifier.actual_rate := 18%float;
                     HsnSacVerifier.difference := 6%float |} ];
              HsnSacVerifier.rate_mismatch_count := 1;
              HsnSacVerifier.all_rates_match := false;
              HsnSacVerifier.li_verifications :=
                match HsnSacVerifier.verify_with_line_items HsnSamples.float_of_str
                        HsnSamples.api_hsn HsnSamples.api_sac HsnSamples.line_items with
                | Some r => HsnSacVerifier.li_verifications r
                | None => []
                end |} in
  HsnSacVerifier.verify_with_line_items HsnSamples.float_of_str HsnSamples.api_hsn
    HsnSamples.api_sac HsnSamples.line_items = Some r /\
  HsnSacVerifier.verified_items r =
    (HsnSacVerifier.li_valid_codes r + HsnSacVerifier.li_invalid_codes r)%Z /\
  (HsnSacVerifier.rate_mismatch_count r <= HsnSacVerifier.li_valid_codes r)%Z.
Proof.
  cbv zeta.
  assert (E : HsnSacVerifier.verify_with_line_items HsnSamples.float_of_str HsnSamples.api_hsn
                HsnSamples.api_sac HsnSamples.line_items = Some
      {| HsnSacVerifier.total_items := 4; HsnSacVerifier.verified_items := 3;
              HsnSacVerifier.li_valid_codes := 2; HsnSacVerifier.li_invalid_codes := 1;
              HsnSacVerifier.rate_mismatches :=
                [ {| HsnSacVerifier.item := "Phone"; HsnSacVerifier.hsn_code := "8517";
                     HsnSacVerifier.extracted_rate := HsnSacVerifier.RateNumber 12%float;
                     HsnSacVerifier.actual_rate := 18%float;
                     HsnSacVerifier.difference := 6%float |} ];
              HsnSacVerifier.rate_mismatch_count := 1;
              HsnSacVerifier.all_rates_match := false;
              HsnSacVerifier.li_verifications :=
                match HsnSacVerifier.verify_with_line_items HsnSamples.float_of_str
                        HsnSamples.api_hsn HsnSamples.api_sac HsnSamples.line_items with
                | Some r => HsnSacVerifier.li_verifications r
                | None => []
                end |}) by (vm_compute; reflexivity).
  split; [exact E|].
  destruct (verify_with_line_items_counts _ _ _ _ _ E) as (H1 & _ & _ & H4 & _).
  split; [exact H1 | exact H4].
Defined.

(** *** When [verify_with_line_items] raises *)

Section LineItemErrors.
Import HsnSacVerifier.
Variable float_of_str : string -> option float.
Variables api_hsn api_sac : string -> Http.outcome tax_body.

Lemma verify_code_valid_rates (c : string) :
  is_valid (verify_code api_hsn api_sac c) = true ->
  is_Some (gst_rates (verify_code api_hsn api_sac c)).
Proof.
  unfold verify_code.
  pose proof (verify_hsn_code_facts api_hsn c) as [Hh1 Hh2].
  pose proof (verify_sac_code_facts api_sac c) as [Hs1 Hs2].
  destruct (String.eqb (detect_code_type c) "SAC").
  - intros H. rewrite <- Hs1 in H. apply (Hs2 H).
  - destruct (String.eqb (detect_code_type c) "HSN").
    + intros H. rewrite <- Hh1 in H. apply (Hh2 H).
    + destruct (success (verify_hsn_code api_hsn c)) eqn:Eh.
      * intros _. apply (Hh2 eq_refl).
      * destruct (success (verify_sac_code api_sac c)) eqn:Es.
        -- intros _. apply (Hs2 eq_refl).
        -- discriminate.
Qed.

Lemma line_item_step_raises (acc : list verification * list rate_mismatch) (item : line_item) :
  line_item_step float_of_str api_hsn api_sac acc item = None <-> unreadable_rate float_of_str api_hsn api_sac item = true.
Proof.
  destruct acc as [results mismatches]. unfold line_item_step, unreadable_rate.
  destruct (code_or (li_hsn_code item) (li_hsn_sac_code item)) as [c|];
    [|split; discriminate].
  destruct (skipped (Some c)); cbn [negb andb]; [split; discriminate|].
  destruct (rate_truthy (rate_or (li_gst_rate item) (li_tax_rate item))); cbn [andb];
    [|split; discriminate].
  destruct (is_valid (verify_code api_hsn api_sac c)) eqn:Ev; cbn [andb];
    [|split; discriminate].
  destruct (verify_code_valid_rates c Ev) as [rates ->].
  destruct (rate_to_float float_of_str _); split; try discriminate; reflexivity.
Qed.

Lemma line_items_loop_raises (line_items : list line_item) :
  forall acc,
    line_items_loop float_of_str api_hsn api_sac acc line_items = None <->
    existsb (unreadable_rate float_of_str api_hsn api_sac) line_items = true.
Proof.
  induction line_items as [|item rest IH]; intros acc; cbn [line_items_loop existsb].
  - split; discriminate.
  - pose proof (line_item_step_raises acc item) as Hs.
    destruct (line_item_step float_of_str api_hsn api_sac acc item) as [acc1|].
    + destruct (unreadable_rate float_of_str api_hsn api_sac item);
        [destruct Hs as [_ Hs]; discriminate (Hs eq_refl)|].
      cbn [orb]. apply IH.
    + destruct Hs as [Hs _]. rewrite (Hs eq_refl). split; reflexivity.
Qed.

(** X12. [verify_with_line_items] raises when some line item has a code
    that verifies as valid and a GST rate that is given and that [float]
    cannot read, wherever the item stands in the list: the items before and
    after it do not matter. A rate given as a number is never such a
    rate. *)
Theorem verify_with_line_items_raises (line_items : list line_item) :
  (existsb (unreadable_rate float_of_str api_hsn api_sac) line_items = true ->
   verify_with_line_items float_of_str api_hsn api_sac line_items = None) /\
  (forall item after,
     unreadable_rate float_of_str api_hsn api_sac item = true ->
     verify_with_line_items float_of_str api_hsn api_sac (line_items ++ item :: after) = None) /\
  (forall item,
     (forall s, rate_or (li_gst_rate item) (li_tax_rate item) <> RateText s) ->
     unreadable_rate float_of_str api_hsn api_sac item = false).
Proof.
  assert (Hraise : forall l,
            existsb (unreadable_rate float_of_str api_hsn api_sac) l = true ->
            verify_with_line_items float_of_str api_hsn api_sac l = None).
  { intros l Hl. unfold verify_with_line_items.
    rewrite (proj2 (line_items_loop_raises l ([], [])) Hl). reflexivity. }
  split; [apply Hraise|]. split.
  - intros item after Hi. apply Hraise. rewrite existsb_app. cbn [existsb].
    rewrite Hi. apply orb_true_r.
  - intros item Hr. unfold unreadable_rate.
    destruct (code_or (li_hsn_code item) (li_hsn_sac_code item)) as [c|]; [|reflexivity].
    destruct (rate_or (li_gst_rate item) (li_tax_rate item)) as [|x|s] eqn:Er.
    + cbn. rewrite andb_false_r. reflexivity.
    + cbn [rate_to_float]. rewrite andb_false_r. reflexivity.
    + destruct (Hr s eq_refl).
Qed.

End LineItemErrors.

Lemma verify_with_line_items_raises_witness :
  HsnSacVerifier.verify_with_line_items HsnSamples.float_of_str HsnSamples.api_hsn
    HsnSamples.api_sac HsnSamples.unreadable_line_items = None.
Proof.
  apply (proj1 (verify_with_line_items_raises HsnSamples.float_of_str HsnSamples.api_hsn
                  HsnSamples.api_sac HsnSamples.unreadable_line_items)).
  vm_compute. reflexivity.
Defined.


(** ** database.py: the states of the store and the dashboard queries *)

Lemma reachable_ids (d : db) :
  reachable d ->
  length (invoices d) = next_id d /\
  forall k doc, invoices d !! k = Some doc -> _id doc = ObjectId k.
Proof.
  induction 1 as [|d inv now Hr [IHl IHk]|d inv n now Hr IH].
  - split; [reflexivity|]. intros k doc H. discriminate H.
  - destruct (store_invoice_invoices d inv now) as (doc & Hi & Hid & _ & Hn & _).
    rewrite Hi, Hn. split.
    + rewrite length_app. cbn [length]. lia.
    + intros k doc' Hk. apply lookup_app_Some in Hk. destruct Hk as [Hk | [Hge Hk]].
      * exact (IHk k doc' Hk).
      * apply list_lookup_singleton_Some in Hk. destruct Hk as [Hz <-].
        rewrite Hid. f_equal. lia.
  - exact IH.
Qed.

Lemma reachable_object_ids (d : db) (doc : invoice_doc) :
  reachable d -> In doc (invoices d) -> exists k, _id doc = ObjectId k /\ k < next_id d.
Proof.
  intros Hr Hin. destruct (reachable_ids d Hr) as [Hl Hk].
  apply list_elem_of_In, list_elem_of_lookup in Hin. destruct Hin as [k Hin].
  exists k. split; [exact (Hk k doc Hin)|].
  rewrite <- Hl. apply lookup_lt_is_Some. eauto.
Qed.

(** What a block of [anomalies_of] may hold. *)
Ltac kinds_of_block H :=
  repeat match type of H with
         | In _ (match ?x with _ => _ end) => destruct x
         end;
  cbn [In] in H; try (destruct H as [<- | []]); try (destruct H); vm_compute; tauto.

Lemma anomalies_of_kinds (d : db) (inv : invoice_data) (invoice_id : value_id) (a : anomaly) :
  In a (anomalies_of d inv invoice_id) -> In (type a, severity a) anomaly_kinds.
Proof.
  unfold anomalies_of. rewrite !in_app_iff.
  intros [H | [H | [H | [H | [H | [H | [H | H]]]]]]].
  - kinds_of_block H.
  - kinds_of_block H.
  - kinds_of_block H.
  - kinds_of_block H.
  - kinds_of_block H.
  - apply in_map_iff in H. destruct H as (? & <- & _). vm_compute. tauto.
  - apply in_map_iff in H. destruct H as (? & <- & _). vm_compute. tauto.
  - destruct (hsn_price_deviation_type d invoice_id (total_amount inv)
                (take 3 (hsn_sac_codes inv))) as [E | E];
      rewrite E in H; [destruct H|]. destruct H as [<- | []]. vm_compute. tauto.
Qed.

Lemma reachable_anomalies (d : db) (a : anomaly_doc) :
  reachable d -> In a (anomalies d) ->
  (exists n, invoiceId a = HexStr n) /\ In (anomalyType a, a_severity a) anomaly_kinds.
Proof.
  induction 1 as [|d inv now Hr IH|d inv n now Hr IH]; intros Hin.
  - destruct Hin.
  - apply IH. unfold store_invoice in Hin. cbn [fst] in Hin.
    unfold _update_vendor_stats in Hin. cbn [gstNumber] in Hin.
    destruct (head (gst_numbers inv)) as [g|]; [|exact Hin].
    destruct (negb (truthy g) || String.eqb g "Unknown"); exact Hin.
  - cbn [detect_anomalies fst anomalies] in Hin. apply in_app_iff in Hin.
    destruct Hin as [Hin | Hin]; [exact (IH Hin)|].
    apply in_map_iff in Hin. destruct Hin as (x & <- & Hx). cbn [invoiceId anomalyType a_severity].
    split; [eauto | exact (anomalies_of_kinds _ _ _ _ Hx)].
Qed.



#[local] Instance by_upload_desc_total : Total by_upload_desc.
Proof. intros x y. unfold by_upload_desc. lia. Qed.

#[local] Instance by_upload_desc_trans : Transitive by_upload_desc.
Proof. intros x y z. unfold by_upload_desc. lia. Qed.

#[local] Instance by_detected_desc_total : Total by_detected_desc.
Proof. intros x y. unfold by_detected_desc. lia. Qed.

#[local] Instance by_detected_desc_trans : Transitive by_detected_desc.
Proof. intros x y z. unfold by_detected_desc. lia. Qed.





Lemma reachable_vendor_count (d : db) :
  reachable d -> size (vendors d) <= length (invoices d).
Proof.
  induction 1 as [|d inv now Hr IH|d inv n now Hr IH].
  - cbn [empty_db vendors invoices length]. rewrite map_size_empty. lia.
  - destruct (store_invoice_invoices d inv now) as (doc & Hi & _).
    rewrite Hi, length_app, store_invoice_vendors. cbn [length].
    destruct (head (gst_numbers inv)) as [g|]; [|lia].
    destruct (negb (truthy g) || String.eqb g "Unknown"); [lia|].
    destruct (vendors d !! g) eqn:E; rewrite map_size_insert, E; unfold id; lia.
  - exact IH.
Qed.

Lemma filter_split_length {A} (p : A -> bool) (l : list A) :
  length l = length (List.filter p l) + length (List.filter (fun x => negb (p x)) l).
Proof.
  induction l as [|a l IH]; [reflexivity|]. cbn [List.filter].
  destruct (p a); cbn [negb length]; lia.
Qed.

(** X15. In every state of the store, the dashboard counts at most one
    vendor per invoice, and the anomalies that are not of HIGH severity are
    exactly those of the types UNUSUAL_AMOUNT and HSN_PRICE_DEVIATION. *)
Theorem dashboard_stats_consistent (d : db) :
  reachable d ->
  let s := get_dashboard_stats d in
  (0 <= ds_totalVendors s <= ds_totalInvoices s)%Z /\
  (0 <= ds_highSeverityAnomalies s <= ds_totalAnomalies s)%Z /\
  (ds_totalAnomalies s - ds_highSeverityAnomalies s)%Z =
    Z.of_nat (length (List.filter
                        (fun a => String.eqb (anomalyType a) "UNUSUAL_AMOUNT" ||
                                  String.eqb (anomalyType a) "HSN_PRICE_DEVIATION")
                        (anomalies d))).
Proof.
  intros Hr. cbv zeta. unfold get_dashboard_stats.
  cbn [ds_totalVendors ds_totalInvoices ds_highSeverityAnomalies ds_totalAnomalies].
  pose proof (reachable_vendor_count d Hr) as Hv.
  assert (Hm : List.filter (fun a => negb (String.eqb (a_severity a) "HIGH")) (anomalies d) =
               List.filter (fun a => String.eqb (anomalyType a) "UNUSUAL_AMOUNT" ||
                                     String.eqb (anomalyType a) "HSN_PRICE_DEVIATION")
                           (anomalies d)).
  { assert (Hk : forall a, In a (anomalies d) ->
                   In (anomalyType a, a_severity a) anomaly_kinds)
      by (intros a Ha; apply (reachable_anomalies d a Hr Ha)).
    induction (anomalies d) as [|a l IH]; [reflexivity|]. cbn [List.filter].
    rewrite IH by (intros x Hx; apply Hk; right; exact Hx).
    specialize (Hk a (or_introl eq_refl)). unfold anomaly_kinds in Hk. cbn [In] in Hk.
    repeat (destruct Hk as [Hk | Hk]; [injection Hk as <- <-; reflexivity|]).
    destruct Hk. }
  pose proof (filter_split_length (fun a => String.eqb (a_severity a) "HIGH") (anomalies d)) as Hs.
  cbv beta in Hs. rewrite <- Hm. lia.
Qed.


Lemma checked_store_reachable : reachable DbSamples.checked_store.
Proof.
  unfold DbSamples.checked_store. cbv zeta.
  apply (reach_detect _ _ 2), reach_store, (reach_detect _ _ 1), reach_store,
        (reach_detect _ _ 0), reach_store, reach_empty.
Defined.



Lemma dashboard_stats_consistent_witness :
  ds_totalInvoices (get_dashboard_stats DbSamples.checked_store) = 3%Z /\
  ds_totalVendors (get_dashboard_stats DbSamples.checked_store) = 1%Z /\
  (0 <= ds_highSeverityAnomalies (get_dashboard_stats DbSamples.checked_store)
     <= ds_totalAnomalies (get_dashboard_stats DbSamples.checked_store))%Z.
Proof.
  split; [vm_compute; reflexivity|]. split; [vm_compute; reflexivity|].
  apply (dashboard_stats_consistent DbSamples.checked_store checked_store_reachable).
Defined.

(** *** The vendor rows *)

Lemma store_invoice_doc (d : db) (inv : invoice_data) (now : Z) :
  invoices (fst (store_invoice d inv now)) =
  invoices d ++
  [ {| _id := ObjectId (next_id d);
       uploadDate := now;
       invoiceNumber := invoice_number inv;
       vendorName := vendor_name inv;
       gstNumber := head (gst_numbers inv);
       allGstNumbers := gst_numbers inv;
       totalAmount := total_amount inv;
       invoiceDate := invoice_date inv;
       hsnCodes := hsn_sac_codes inv;
       ocrConfidence := ocr_confidence inv |} ].
Proof.
  unfold store_invoice. cbn [fst].
  rewrite (proj1 (update_vendor_stats_frame _ _ _)). reflexivity.
Qed.

Lemma tracked_not_skipped (g : string) :
  negb (truthy g) || String.eqb g "Unknown" = negb (tracked g).
Proof.
  unfold tracked. destruct (truthy g), (String.eqb g "Unknown"); reflexivity.
Qed.

(** The amounts of a vendor row: the first total, then the others added
    one by one. *)
Lemma fold_add_snoc (l : list float) (x : float) :
  match l ++ [x] with
  | [] => 0%float
  | a :: rest => fold_left PrimFloat.add rest a
  end =
  match l with
  | [] => x
  | a :: rest => PrimFloat.add (fold_left PrimFloat.add rest a) x
  end.
Proof.
  destruct l as [|a rest]; [reflexivity|]. cbn [app]. rewrite fold_left_app. reflexivity.
Qed.

(** X16. In every state of the store, the vendor collection is a summary
    of the invoice collection: a GST number has a row exactly when it is
    neither empty nor "Unknown" and is the primary GST number of some stored
    invoice; the row then counts those invoices, holds their totals added in
    the order they were stored, and carries the vendor name of the latest
    of them. *)
Theorem vendor_rows_summarise_invoices (d : db) (g : string) :
  reachable d ->
  match vendors d !! g with
  | Some row =>
      tracked g = true /\ v_gstNumber row = g /\
      invoices_of g d <> [] /\
      totalInvoices row = Z.of_nat (length (invoices_of g d)) /\
      last (map vendorName (invoices_of g d)) = Some (v_vendorName row) /\
      v_totalAmount row =
        match map totalAmount (invoices_of g d) with
        | [] => 0%float
        | a :: rest => fold_left PrimFloat.add rest a
        end
  | None => tracked g = false \/ invoices_of g d = []
  end.
Proof.
  induction 1 as [|d inv now Hr IH|d inv n now Hr IH].
  - right. reflexivity.
  - unfold invoices_of in *. rewrite store_invoice_doc, List.filter_app.
    cbn [List.filter gstNumber]. rewrite store_invoice_vendors.
    destruct (head (gst_numbers inv)) as [g'|] eqn:Eh; cbn [opt_eqb].
    + rewrite tracked_not_skipped.
      destruct (String.eqb_spec g' g) as [->|Hne].
      * destruct (tracked g) eqn:Et; cbn [negb].
        -- destruct (vendors d !! g) as [v|] eqn:Ev; rewrite lookup_insert_eq.
           ++ destruct IH as (_ & Hg & Hne & Hn & Hl & Ha).
              cbn [v_gstNumber totalInvoices v_vendorName v_totalAmount].
              repeat split.
              ** exact Hg.
              ** intros E. apply app_eq_nil in E. destruct E as [_ E]. discriminate E.
              ** rewrite length_app. cbn [length]. lia.
              ** rewrite map_app. cbn [map vendorName]. apply last_snoc.
              ** rewrite map_app. cbn [map totalAmount]. rewrite fold_add_snoc.
                 rewrite Ha.
                 destruct (map totalAmount _) as [|a rest] eqn:Em; [|reflexivity].
                 apply map_eq_nil in Em. contradiction.
           ++ destruct IH as [IH | IH]; [congruence|]. rewrite IH.
              cbn [app map length v_gstNumber totalInvoices v_vendorName v_totalAmount].
              repeat split; discriminate.
        -- destruct (vendors d !! g) as [v|] eqn:Ev.
           ++ destruct IH as (IH & _). discriminate IH.
           ++ left. reflexivity.
      * assert (Hl : forall row t, (if negb (tracked g') then vendors d
                                    else match vendors d !! g' with
                                         | Some v => <[ g' := row v ]> (vendors d)
                                         | None => <[ g' := t ]> (vendors d)
                                         end) !! g = vendors d !! g).
        { intros row t. destruct (negb (tracked g')); [reflexivity|].
          destruct (vendors d !! g'); apply lookup_insert_ne; exact Hne. }
        rewrite (Hl (fun v => _) _). rewrite app_nil_r. exact IH.
    + rewrite app_nil_r. exact IH.
  - exact IH.
Qed.


Lemma vendor_rows_summarise_invoices_witness :
  exists row,
    vendors DbSamples.checked_store !! "22AAAAA0000A1Z5" = Some row /\
    totalInvoices row = 2%Z /\
    length (invoices_of "22AAAAA0000A1Z5" DbSamples.checked_store) = 2 /\
    v_totalAmount row = 200%float.
Proof.
  pose proof (vendor_rows_summarise_invoices DbSamples.checked_store "22AAAAA0000A1Z5"
                checked_store_reachable) as H.
  destruct (vendors DbSamples.checked_store !! "22AAAAA0000A1Z5") as [row|] eqn:E.
  - exists row. destruct H as (_ & _ & _ & Hn & _ & Ha).
    split; [reflexivity|]. split; [rewrite Hn; vm_compute; reflexivity|].
    split; [vm_compute; reflexivity | rewrite Ha; vm_compute; reflexivity].
  - exfalso. vm_compute in E. discriminate E.
Defined.

(** *** The checks across invoices, for an invoice just stored *)

Lemma find_ext_in {A} (p q : A -> bool) (l : list A) :
  (forall x, In x l -> p x = q x) -> find p l = find q l.
Proof.
  induction l as [|a l IH]; intros H; [reflexivity|]. cbn [find].
  rewrite (H a (or_introl eq_refl)), IH; [reflexivity|].
  intros x Hx. apply H. right. exact Hx.
Qed.

(** A query that excludes the invoice just stored is a query on the
    invoices stored before. *)
Lemma find_excluding_stored (d : db) (inv : invoice_data) (now : Z) (p : invoice_doc -> bool) :
  reachable d ->
  find (fun i => p i && negb (id_eqb (_id i) (ObjectId (next_id d))))
       (invoices (fst (store_invoice d inv now))) =
  find p (invoices d).
Proof.
  intros Hr. rewrite store_invoice_doc.
  assert (Hold : find (fun i => p i && negb (id_eqb (_id i) (ObjectId (next_id d))))
                      (invoices d) = find p (invoices d)).
  { apply find_ext_in. intros x Hx.
    destruct (reachable_object_ids d x Hr Hx) as (k & -> & Hk). cbn [id_eqb].
    destruct (Nat.eqb_spec k (next_id d)); [lia|]. cbn [negb]. apply andb_true_r. }
  destruct (find p (invoices d)) as [i|] eqn:E.
  - apply find_app_found. exact Hold.
  - rewrite find_app_missing by exact Hold. cbn [find _id id_eqb].
    rewrite Nat.eqb_refl. cbn [negb]. rewrite andb_false_r. reflexivity.
Qed.

Lemma mismatch_anomalies (d : db) (inv : invoice_data) (invoice_id : value_id) :
  List.filter (of_type "GST_VENDOR_MISMATCH") (anomalies_of d inv invoice_id) =
  if truthy_opt (head (gst_numbers inv)) then
    match find (fun i => opt_eqb (gstNumber i) (head (gst_numbers inv)) &&
                         negb (opt_eqb (vendorName i) (vendor_name inv)) &&
                         negb (id_eqb (_id i) (to_ObjectId invoice_id))) (invoices d) with
    | Some different_vendor =>
        [mk_anomaly "GST_VENDOR_MISMATCH" "HIGH" (Some (str (_id different_vendor)))]
    | None => []
    end
  else [].
Proof.
  unfold anomalies_of. rewrite !List.filter_app.
  rewrite (filter_map_const (of_type "GST_VENDOR_MISMATCH")),
          (filter_map_const (of_type "GST_VENDOR_MISMATCH")) by reflexivity.
  match goal with |- ?a1 ++ ?a2 ++ ?a3 ++ ?a4 ++ ?a5 ++ [] ++ [] ++ ?a8 = _ =>
    assert (H1 : a1 = []) by by_cases_of_block;
    assert (H2 : a2 = []) by by_cases_of_block;
    assert (H3 : a3 = []) by by_cases_of_block;
    assert (H5 : a5 = []) by by_cases_of_block;
    assert (H8 : a8 = [])
      by (destruct (hsn_price_deviation_type d invoice_id (total_amount inv)
                      (take 3 (hsn_sac_codes inv))) as [-> | ->]; reflexivity)
  end.
  rewrite H1, H2, H3, H5, H8. cbn [app]. rewrite app_nil_r.
  destruct (truthy_opt (head (gst_numbers inv))); [|reflexivity].
  match goal with |- context [find ?p ?l] => destruct (find p l) end; reflexivity.
Qed.

(** X17. When an invoice is stored and its anomaly run is given the
    identifier returned, the two searches for a related invoice look at the
    invoices stored before, never at the invoice itself. DUPLICATE_INVOICE
    is reported, once, exactly when an earlier invoice has the same invoice
    number, and GST_VENDOR_MISMATCH, once, exactly when an earlier invoice
    has the same primary GST number under another vendor name; each names
    the earliest such invoice. *)
Theorem stored_invoice_cross_checks (d : db) (inv : invoice_data) (now later : Z) :
  reachable d ->
  let found := snd (store_and_detect d inv now later) in
  List.filter (of_type "DUPLICATE_INVOICE") found =
    match find (fun i => opt_eqb (invoiceNumber i) (invoice_number inv)) (invoices d) with
    | Some dup => [mk_anomaly "DUPLICATE_INVOICE" "HIGH" (Some (str (_id dup)))]
    | None => []
    end /\
  List.filter (of_type "GST_VENDOR_MISMATCH") found =
    if truthy_opt (head (gst_numbers inv)) then
      match find (fun i => opt_eqb (gstNumber i) (head (gst_numbers inv)) &&
                           negb (opt_eqb (vendorName i) (vendor_name inv))) (invoices d) with
      | Some other => [mk_anomaly "GST_VENDOR_MISMATCH" "HIGH" (Some (str (_id other)))]
      | None => []
      end
    else [].
Proof.
  intros Hr. cbv zeta. unfold store_and_detect.
  destruct (store_invoice d inv now) as [d1 invoice_id] eqn:Es.
  assert (Hd1 : d1 = fst (store_invoice d inv now)) by (rewrite Es; reflexivity).
  assert (Hid : invoice_id = HexStr (next_id d)).
  { destruct (store_invoice_invoices d inv now) as (_ & _ & _ & _ & _ & H).
    rewrite Es in H. exact H. }
  cbn [detect_anomalies snd]. subst invoice_id. split.
  - change (of_type "DUPLICATE_INVOICE") with is_duplicate_anomaly.
    rewrite duplicate_anomalies. cbn [to_ObjectId]. rewrite Hd1.
    rewrite (find_excluding_stored d inv now
               (fun i => opt_eqb (invoiceNumber i) (invoice_number inv)) Hr).
    reflexivity.
  - rewrite mismatch_anomalies. cbn [to_ObjectId]. rewrite Hd1.
    rewrite (find_excluding_stored d inv now
               (fun i => opt_eqb (gstNumber i) (head (gst_numbers inv)) &&
                         negb (opt_eqb (vendorName i) (vendor_name inv))) Hr).
    reflexivity.
Qed.

Lemma stored_invoice_cross_checks_witness :
  List.filter (of_type "DUPLICATE_INVOICE")
    (snd (store_and_detect DbSamples.checked_store DbSamples.phone_1 1 2)) =
    [mk_anomaly "DUPLICATE_INVOICE" "HIGH" (Some (HexStr 0))] /\
  List.filter (of_type "GST_VENDOR_MISMATCH")
    (snd (store_and_detect DbSamples.checked_store
            (DbSamples.plain_invoice "INV-X" "Globex" ["22AAAAA0000A1Z5"] 5%float []) 1 2)) =
    [mk_anomaly "GST_VENDOR_MISMATCH" "HIGH" (Some (HexStr 0))].
Proof.
  split.
  - rewrite (proj1 (stored_invoice_cross_checks DbSamples.checked_store DbSamples.phone_1 1 2
                      checked_store_reachable)).
    vm_compute. reflexivity.
  - rewrite (proj2 (stored_invoice_cross_checks DbSamples.checked_store
                      (DbSamples.plain_invoice "INV-X" "Globex" ["22AAAAA0000A1Z5"] 5%float [])
                      1 2 checked_store_reachable)).
    vm_compute. reflexivity.
Defined.


(** *** The anomalies of one run, by type *)

Lemma filter_map_const_all {A B} (p : B -> bool) (b : B) (l : list A) :
  p b = true -> List.filter p (map (fun _ => b) l) = map (fun _ => b) l.
Proof.
  intros Hb. induction l as [|a l IH]; cbn [map List.filter]; [reflexivity|].
  rewrite Hb, IH. reflexivity.
Qed.

(** Bounds what a block of [anomalies_of] contributes to a filter by type. *)
Ltac at_most_one_of_block :=
  repeat match goal with
         | |- context [match ?x with _ => _ end] => destruct x
         end;
  cbn; lia.

(** X18. In the list an anomaly run returns, INVALID_HSN_SAC occurs once
    for every verification that is not valid and HSN_GST_RATE_MISMATCH once
    for every rate mismatch, and each of the six other types occurs at most
    once. The entries of the types MISSING_GST, INVALID_GST, INVALID_HSN_SAC
    and HSN_GST_RATE_MISMATCH depend on the invoice data alone: they are the
    same whatever the store holds and whatever the identifier. *)
Theorem anomalies_of_by_type (d d' : db) (inv : invoice_data) (invoice_id invoice_id' : value_id) :
  let found := anomalies_of d inv invoice_id in
  let count t := length (List.filter (of_type t) found) in
  count "INVALID_HSN_SAC" =
    length (List.filter (fun v => negb (is_valid v)) (hsn_sac_verification inv)) /\
  count "HSN_GST_RATE_MISMATCH" = length (rate_mismatches inv) /\
  (forall t, In t ["DUPLICATE_INVOICE"; "MISSING_GST"; "INVALID_GST"; "GST_VENDOR_MISMATCH";
                   "UNUSUAL_AMOUNT"; "HSN_PRICE_DEVIATION"] -> count t <= 1) /\
  (forall t, In t ["MISSING_GST"; "INVALID_GST"; "INVALID_HSN_SAC"; "HSN_GST_RATE_MISMATCH"] ->
     List.filter (of_type t) found =
     List.filter (of_type t) (anomalies_of d' inv invoice_id')).
Proof.
  cbv zeta.
  pose proof (hsn_price_deviation_type d invoice_id (total_amount inv)
                (take 3 (hsn_sac_codes inv))) as H8.
  pose proof (hsn_price_deviation_type d' invoice_id' (total_amount inv)
                (take 3 (hsn_sac_codes inv))) as H8'.
  split; [|split; [|split]].
  - unfold anomalies_of. rewrite !List.filter_app.
    rewrite (filter_map_const_all (of_type "INVALID_HSN_SAC")),
            (filter_map_const (of_type "INVALID_HSN_SAC")) by reflexivity.
    match goal with |- length (?a1 ++ ?a2 ++ ?a3 ++ ?a4 ++ ?a5 ++ ?a6 ++ [] ++ ?a8) = _ =>
      assert (E1 : a1 = []) by by_cases_of_block;
      assert (E2 : a2 = []) by by_cases_of_block;
      assert (E3 : a3 = []) by by_cases_of_block;
      assert (E4 : a4 = []) by by_cases_of_block;
      assert (E5 : a5 = []) by by_cases_of_block;
      assert (E8 : a8 = []) by (destruct H8 as [-> | ->]; reflexivity)
    end.
    rewrite E1, E2, E3, E4, E5, E8. cbn [app]. rewrite app_nil_r. apply length_map.
  - unfold anomalies_of. rewrite !List.filter_app.
    rewrite (filter_map_const_all (of_type "HSN_GST_RATE_MISMATCH")
               (mk_anomaly "HSN_GST_RATE_MISMATCH" "HIGH" None)),
            (filter_map_const (of_type "HSN_GST_RATE_MISMATCH")
               (mk_anomaly "INVALID_HSN_SAC" "HIGH" None)) by reflexivity.
    match goal with |- length (?a1 ++ ?a2 ++ ?a3 ++ ?a4 ++ ?a5 ++ [] ++ ?a7 ++ ?a8) = _ =>
      assert (E1 : a1 = []) by by_cases_of_block;
      assert (E2 : a2 = []) by by_cases_of_block;
      assert (E3 : a3 = []) by by_cases_of_block;
      assert (E4 : a4 = []) by by_cases_of_block;
      assert (E5 : a5 = []) by by_cases_of_block;
      assert (E8 : a8 = []) by (destruct H8 as [-> | ->]; reflexivity)
    end.
    rewrite E1, E2, E3, E4, E5, E8. cbn [app]. rewrite app_nil_r. apply length_map.
  - intros t Ht. unfold anomalies_of. rewrite !List.filter_app, !length_app.
    cbn [In] in Ht.
    repeat (destruct Ht as [<- | Ht];
      [rewrite (filter_map_const (of_type _)), (filter_map_const (of_type _)) by reflexivity;
       match goal with
       |- length ?a1 + (length ?a2 + (length ?a3 + (length ?a4 + (length ?a5 +
            (length [] + (length [] + length ?a8)))))) <= 1 =>
         first [ assert (E1 : a1 = []) by by_cases_of_block; rewrite E1
               | assert (E1 : length a1 <= 1) by at_most_one_of_block ];
         first [ assert (E2 : a2 = []) by by_cases_of_block; rewrite E2
               | assert (E2 : length a2 <= 1) by at_most_one_of_block ];
         first [ assert (E3 : a3 = []) by by_cases_of_block; rewrite E3
               | assert (E3 : length a3 <= 1) by at_most_one_of_block ];
         first [ assert (E4 : a4 = []) by by_cases_of_block; rewrite E4
               | assert (E4 : length a4 <= 1) by at_most_one_of_block ];
         first [ assert (E5 : a5 = []) by by_cases_of_block; rewrite E5
               | assert (E5 : length a5 <= 1) by at_most_one_of_block ];
         first [ assert (E8 : a8 = []) by (destruct H8 as [-> | ->]; reflexivity); rewrite E8
               | assert (E8 : length a8 <= 1) by (destruct H8 as [-> | ->]; cbn; lia) ]
       end; cbn [length]; lia|]).
    destruct Ht.
  - intros t Ht. unfold anomalies_of. rewrite !List.filter_app.
    cbn [In] in Ht.
    repeat (destruct Ht as [<- | Ht];
      [match goal with
       |- ?a1 ++ ?a2 ++ ?a3 ++ ?a4 ++ ?a5 ++ ?a6 ++ ?a7 ++ ?a8 =
          ?b1 ++ ?b2 ++ ?b3 ++ ?b4 ++ ?b5 ++ ?b6 ++ ?b7 ++ ?b8 =>
         assert (E1 : a1 = []) by by_cases_of_block;
         assert (E1' : b1 = []) by by_cases_of_block;
         assert (E4 : a4 = []) by by_cases_of_block;
         assert (E4' : b4 = []) by by_cases_of_block;
         assert (E5 : a5 = []) by by_cases_of_block;
         assert (E5' : b5 = []) by by_cases_of_block;
         assert (E8 : a8 = []) by (destruct H8 as [-> | ->]; reflexivity);
         assert (E8' : b8 = []) by (destruct H8' as [-> | ->]; reflexivity);
         rewrite E1, E1', E4, E4', E5, E5', E8, E8'; reflexivity
       end|]).
    destruct Ht.
Qed.


(** *** What the entries of the trend count *)

Lemma group_sum_cons (p : Z * string -> bool) (g : (Z * string) * Z)
  (l : list ((Z * string) * Z)) :
  group_sum p (g :: l) = if p (fst g) then (snd g + group_sum p l)%Z else group_sum p l.
Proof. reflexivity. Qed.

Lemma group_sum_app (p : Z * string -> bool) (l1 l2 : list ((Z * string) * Z)) :
  group_sum p (l1 ++ l2) = (group_sum p l1 + group_sum p l2)%Z.
Proof.
  induction l1 as [|g l1 IH]; cbn [app group_sum fold_right]; [reflexivity|].
  fold (group_sum p (l1 ++ l2)). fold (group_sum p l1). rewrite IH.
  destruct (p (fst g)); lia.
Qed.

Lemma group_sum_Permutation (p : Z * string -> bool) (l1 l2 : list ((Z * string) * Z)) :
  l1 ≡ₚ l2 -> group_sum p l1 = group_sum p l2.
Proof.
  induction 1 as [|g l1 l2 _ IH|g g' l|l1 l2 l3 _ IH1 _ IH2].
  - reflexivity.
  - cbn [group_sum fold_right]. fold (group_sum p l1). fold (group_sum p l2).
    rewrite IH. reflexivity.
  - cbn [group_sum fold_right]. fold (group_sum p l).
    destruct (p (fst g)), (p (fst g')); lia.
  - congruence.
Qed.

(** One more occurrence of [x] among the keys adds one to the group of
    [x]. *)
Lemma group_sum_one_more (p : Z * string -> bool) (c : Z * string -> Z) (x : Z * string)
  (ks : list (Z * string)) :
  NoDup ks ->
  group_sum p (map (fun k => (k, (c k + if bool_decide (x = k) then 1 else 0)%Z)) ks) =
  (group_sum p (map (fun k => (k, c k)) ks) +
   if bool_decide (x ∈ ks) then (if p x then 1 else 0) else 0)%Z.
Proof.
  induction 1 as [|k ks Hk Hnd IH]; [reflexivity|].
  cbn [map group_sum fold_right fst snd].
  fold (group_sum p (map (fun k => (k, (c k + if bool_decide (x = k) then 1 else 0)%Z)) ks)).
  fold (group_sum p (map (fun k => (k, c k)) ks)).
  rewrite IH.
  destruct (decide (x = k)) as [->|Hne].
  - rewrite (bool_decide_eq_true_2 (k = k)) by reflexivity.
    rewrite (bool_decide_eq_true_2 (k ∈ k :: ks)) by (left).
    rewrite (bool_decide_eq_false_2 (k ∈ ks)) by exact Hk.
    destruct (p k); lia.
  - rewrite (bool_decide_eq_false_2 (x = k)) by exact Hne.
    destruct (decide (x ∈ ks)) as [Hin|Hnin].
    + rewrite (bool_decide_eq_true_2 (x ∈ ks)) by exact Hin.
      rewrite (bool_decide_eq_true_2 (x ∈ k :: ks)) by (right; exact Hin).
      destruct (p k); lia.
    + rewrite (bool_decide_eq_false_2 (x ∈ ks)) by exact Hnin.
      rewrite (bool_decide_eq_false_2 (x ∈ k :: ks))
        by (intros Hin; apply elem_of_cons in Hin; destruct Hin; [congruence | contradiction]).
      destruct (p k); lia.
Qed.

(** The groups of the [$group] stage add up to the keys they were made
    of. *)
Lemma group_sum_keys (p : Z * string -> bool) (keys : list (Z * string)) :
  group_sum p
    (map (fun k => (k, Z.of_nat (length (List.filter (fun k' => bool_decide (k' = k)) keys))))
         (remove_dups keys)) =
  Z.of_nat (length (List.filter p keys)).
Proof.
  induction keys as [|x l IH]; [reflexivity|].
  assert (Hc : forall ks,
    map (fun k => (k, Z.of_nat (length (List.filter (fun k' => bool_decide (k' = k)) (x :: l))))) ks =
    map (fun k => (k, (Z.of_nat (length (List.filter (fun k' => bool_decide (k' = k)) l)) +
                       if bool_decide (x = k) then 1 else 0)%Z)) ks).
  { intros ks. apply map_ext. intros k. cbn [List.filter].
    destruct (bool_decide (x = k)); cbn [length]; f_equal; lia. }
  rewrite Hc. cbn [remove_dups].
  destruct (decide_rel elem_of x l) as [Hin|Hnin].
  - rewrite group_sum_one_more by apply NoDup_remove_dups. rewrite IH.
    rewrite (bool_decide_eq_true_2 (x ∈ remove_dups l)) by (apply elem_of_remove_dups; exact Hin).
    cbn [List.filter]. destruct (p x); cbn [length]; lia.
  - cbn [map group_sum fold_right fst snd].
    fold (group_sum p (map (fun k => (k, (Z.of_nat (length (List.filter (fun k' => bool_decide (k' = k)) l)) +
                       if bool_decide (x = k) then 1 else 0)%Z)) (remove_dups l))).
    rewrite group_sum_one_more by apply NoDup_remove_dups. rewrite IH.
    rewrite (bool_decide_eq_false_2 (x ∈ remove_dups l))
      by (rewrite elem_of_remove_dups; exact Hnin).
    rewrite (bool_decide_eq_true_2 (x = x)) by reflexivity.
    assert (H0 : List.filter (fun k' => bool_decide (k' = x)) l = []).
    { clear -Hnin. induction l as [|a l IH]; [reflexivity|]. cbn [List.filter].
      rewrite (bool_decide_eq_false_2 (a = x)).
      - apply IH. intros H. apply Hnin. right. exact H.
      - intros ->. apply Hnin. left. }
    rewrite H0. cbn [List.filter length]. destruct (p x); cbn [length]; lia.
Qed.

(** The groups by day: what they add up to in terms of the anomalies. *)
Lemma trend_groups_sum (d : db) (start_date end_date : Z) (p : Z * string -> bool) :
  group_sum p (trend_groups d start_date end_date) =
  Z.of_nat (length (List.filter
                      (fun a => (start_date <=? detectedDate a)%Z &&
                                (detectedDate a <=? end_date)%Z &&
                                p (day_of (detectedDate a), anomalyType a))
                      (anomalies d))).
Proof.
  unfold trend_groups.
  rewrite (group_sum_Permutation p _ _ (merge_sort_Permutation by_date _)).
  rewrite group_sum_keys. f_equal.
  induction (anomalies d) as [|a l IH]; [reflexivity|]. cbn [List.filter].
  destruct ((start_date <=? detectedDate a)%Z && (detectedDate a <=? end_date)%Z);
    cbn [map List.filter andb]; [|exact IH].
  destruct (p (day_of (detectedDate a), anomalyType a)); cbn [length]; rewrite IH; reflexivity.
Qed.


(** The keys of a day that are of one of the given types. *)
Lemma add_group_entry (t : gmap Z trend) (day : Z) (ty : string) (n k : Z) :
  let e := entry_at t k in
  let e' := entry_at (add_group t ((day, ty), n)) k in
  let hit (types : list string) := (day =? k)%Z && existsb (String.eqb ty) types in
  total e' = (total e + if (day =? k)%Z then n else 0)%Z /\
  duplicates e' = (duplicates e + if hit ["DUPLICATE_INVOICE"] then n else 0)%Z /\
  invalidGst e' = (invalidGst e + if hit ["INVALID_GST"; "GST_VENDOR_MISMATCH"] then n else 0)%Z /\
  missingGst e' = (missingGst e + if hit ["MISSING_GST"] then n else 0)%Z /\
  hsnAnomalies e' =
    (hsnAnomalies e +
     if hit ["INVALID_HSN_SAC"; "HSN_GST_RATE_MISMATCH"; "HSN_PRICE_DEVIATION"; "UNUSUAL_AMOUNT"]
     then n else 0)%Z.
Proof.
  cbv zeta. unfold add_group, entry_at.
  destruct (Z.eqb_spec day k) as [->|Hne].
  - rewrite lookup_insert_eq. cbn [andb existsb].
    assert (Hcase : forall e0 : trend,
      let e1 :=
        if String.eqb ty "DUPLICATE_INVOICE" then
          {| date := date e0; duplicates := duplicates e0 + n; invalidGst := invalidGst e0;
             missingGst := missingGst e0; hsnAnomalies := hsnAnomalies e0; total := total e0 |}
        else if String.eqb ty "INVALID_GST" || String.eqb ty "GST_VENDOR_MISMATCH" then
          {| date := date e0; duplicates := duplicates e0; invalidGst := invalidGst e0 + n;
             missingGst := missingGst e0; hsnAnomalies := hsnAnomalies e0; total := total e0 |}
        else if String.eqb ty "MISSING_GST" then
          {| date := date e0; duplicates := duplicates e0; invalidGst := invalidGst e0;
             missingGst := missingGst e0 + n; hsnAnomalies := hsnAnomalies e0; total := total e0 |}
        else if String.eqb ty "INVALID_HSN_SAC" || String.eqb ty "HSN_GST_RATE_MISMATCH" ||
                String.eqb ty "HSN_PRICE_DEVIATION" || String.eqb ty "UNUSUAL_AMOUNT" then
          {| date := date e0; duplicates := duplicates e0; invalidGst := invalidGst e0;
             missingGst := missingGst e0; hsnAnomalies := hsnAnomalies e0 + n; total := total e0 |}
        else e0 in
      total e1 = total e0 /\
      duplicates e1 =
        (duplicates e0 + if String.eqb ty "DUPLICATE_INVOICE" || false then n else 0)%Z /\
      invalidGst e1 =
        (invalidGst e0 +
         if String.eqb ty "INVALID_GST" || (String.eqb ty "GST_VENDOR_MISMATCH" || false)
         then n else 0)%Z /\
      missingGst e1 = (missingGst e0 + if String.eqb ty "MISSING_GST" || false then n else 0)%Z /\
      hsnAnomalies e1 =
        (hsnAnomalies e0 +
         if String.eqb ty "INVALID_HSN_SAC" ||
            (String.eqb ty "HSN_GST_RATE_MISMATCH" ||
             (String.eqb ty "HSN_PRICE_DEVIATION" || (String.eqb ty "UNUSUAL_AMOUNT" || false)))
         then n else 0)%Z).
    { intros e0. cbv zeta.
      destruct (String.eqb_spec ty "DUPLICATE_INVOICE") as [->|_];
        [cbn; repeat split; lia|].
      destruct (String.eqb_spec ty "INVALID_GST") as [->|_];
        [cbn; repeat split; lia|].
      destruct (String.eqb_spec ty "GST_VENDOR_MISMATCH") as [->|_];
        [cbn; repeat split; lia|].
      destruct (String.eqb_spec ty "MISSING_GST") as [->|_];
        [cbn; repeat split; lia|].
      destruct (String.eqb_spec ty "INVALID_HSN_SAC") as [->|_];
        [cbn; repeat split; lia|].
      destruct (String.eqb_spec ty "HSN_GST_RATE_MISMATCH") as [->|_];
        [cbn; repeat split; lia|].
      destruct (String.eqb_spec ty "HSN_PRICE_DEVIATION") as [->|_];
        [cbn; repeat split; lia|].
      destruct (String.eqb_spec ty "UNUSUAL_AMOUNT") as [->|_];
        cbn; repeat split; lia. }
    destruct (t !! k) as [e0|].
    + specialize (Hcase e0). cbv zeta in Hcase.
      destruct Hcase as (H1 & H2 & H3 & H4 & H5).
      cbn [total duplicates invalidGst missingGst hsnAnomalies].
      rewrite H1, H2, H3, H4, H5. repeat split.
    + specialize (Hcase (zero_trend k)). cbv zeta in Hcase.
      destruct Hcase as (H1 & H2 & H3 & H4 & H5).
      cbn [total duplicates invalidGst missingGst hsnAnomalies].
      rewrite H1, H2, H3, H4, H5. repeat split.
  - rewrite lookup_insert_ne by exact Hne. cbn [andb]. repeat split; lia.
Qed.

Lemma fold_add_group_entry (groups : list ((Z * string) * Z)) :
  forall (t : gmap Z trend) (k : Z),
    let e := entry_at t k in
    let e' := entry_at (fold_left add_group groups t) k in
    let sum (types : list string) :=
      group_sum (fun key => (fst key =? k)%Z && existsb (String.eqb (snd key)) types) groups in
    total e' = (total e + group_sum (fun key => (fst key =? k)%Z) groups)%Z /\
    duplicates e' = (duplicates e + sum ["DUPLICATE_INVOICE"])%Z /\
    invalidGst e' = (invalidGst e + sum ["INVALID_GST"; "GST_VENDOR_MISMATCH"])%Z /\
    missingGst e' = (missingGst e + sum ["MISSING_GST"])%Z /\
    hsnAnomalies e' =
      (hsnAnomalies e +
       sum ["INVALID_HSN_SAC"; "HSN_GST_RATE_MISMATCH"; "HSN_PRICE_DEVIATION"; "UNUSUAL_AMOUNT"])%Z.
Proof.
  induction groups as [|[[day ty] n] rest IH]; intros t k; cbv zeta.
  - cbn [fold_left group_sum fold_right]. repeat split; lia.
  - cbn [fold_left].
    pose proof (IH (add_group t (day, ty, n)) k) as H. cbv zeta beta in H.
    destruct H as (H1 & H2 & H3 & H4 & H5).
    pose proof (add_group_entry t day ty n k) as G. cbv zeta beta in G.
    destruct G as (G1 & G2 & G3 & G4 & G5).
    rewrite H1, H2, H3, H4, H5, G1, G2, G3, G4, G5.
    rewrite !group_sum_cons. cbn [fst snd].
    repeat split;
      repeat match goal with |- context [if ?b then _ else _] => destruct b end; lia.
Qed.


(** The four counts of an entry cover the eight types, each once. *)
Lemma bucket_of_kind (a : anomaly_doc) :
  In (anomalyType a, a_severity a) anomaly_kinds ->
  (if typed_as ["DUPLICATE_INVOICE"] a then 1 else 0) +
  (if typed_as ["INVALID_GST"; "GST_VENDOR_MISMATCH"] a then 1 else 0) +
  (if typed_as ["MISSING_GST"] a then 1 else 0) +
  (if typed_as ["INVALID_HSN_SAC"; "HSN_GST_RATE_MISMATCH";
                "HSN_PRICE_DEVIATION"; "UNUSUAL_AMOUNT"] a then 1 else 0) = 1.
Proof.
  intros Hk. unfold typed_as. unfold anomaly_kinds in Hk. cbn [In] in Hk.
  repeat (destruct Hk as [Hk | Hk]; [injection Hk as <- _; reflexivity|]).
  destruct Hk.
Qed.

Lemma buckets_partition (w : anomaly_doc -> bool) (l : list anomaly_doc) :
  (forall a, In a l -> In (anomalyType a, a_severity a) anomaly_kinds) ->
  length (List.filter w l) =
  length (List.filter (fun a => w a && typed_as ["DUPLICATE_INVOICE"] a) l) +
  length (List.filter (fun a => w a && typed_as ["INVALID_GST"; "GST_VENDOR_MISMATCH"] a) l) +
  length (List.filter (fun a => w a && typed_as ["MISSING_GST"] a) l) +
  length (List.filter
            (fun a => w a && typed_as ["INVALID_HSN_SAC"; "HSN_GST_RATE_MISMATCH";
                                       "HSN_PRICE_DEVIATION"; "UNUSUAL_AMOUNT"] a) l).
Proof.
  induction l as [|a l IH]; intros Hk; [reflexivity|].
  cbn [List.filter]. specialize (IH (fun x Hx => Hk x (or_intror Hx))).
  destruct (w a); cbn [andb]; [|exact IH].
  pose proof (bucket_of_kind a (Hk a (or_introl eq_refl))) as Hb.
  destruct (typed_as ["DUPLICATE_INVOICE"] a),
           (typed_as ["INVALID_GST"; "GST_VENDOR_MISMATCH"] a),
           (typed_as ["MISSING_GST"] a),
           (typed_as ["INVALID_HSN_SAC"; "HSN_GST_RATE_MISMATCH";
                      "HSN_PRICE_DEVIATION"; "UNUSUAL_AMOUNT"] a);
    cbn [length] in *; lia.
Qed.

(** X19. Under the conditions of the trend query (a range of [days] days,
    at least 0, that starts within the calendar), the entry of a day counts
    the stored anomalies of that day detected between [days] days ago, to
    the microsecond, and now: [total] counts them all, [duplicates] those of
    the type DUPLICATE_INVOICE, [invalidGst] those of INVALID_GST and
    GST_VENDOR_MISMATCH, [missingGst] those of MISSING_GST and
    [hsnAnomalies] those of the four other types. In every state of the
    store the total is the sum of the four counts. *)
Theorem anomaly_trends_counts (d : db) (now days : Z) (r : list trend) :
  (0 <= days)%Z ->
  (days * day_us <= now)%Z ->
  (now + day_us <= datetime_max)%Z ->
  get_anomaly_trends d now days = Some r ->
  forall e, In e r ->
    let start_date := (now - days * day_us)%Z in
    let count types :=
      count_anomalies (fun a => in_window start_date now (date e) a && typed_as types a) d in
    total e = count_anomalies (in_window start_date now (date e)) d /\
    duplicates e = count ["DUPLICATE_INVOICE"] /\
    invalidGst e = count ["INVALID_GST"; "GST_VENDOR_MISMATCH"] /\
    missingGst e = count ["MISSING_GST"] /\
    hsnAnomalies e = count ["INVALID_HSN_SAC"; "HSN_GST_RATE_MISMATCH";
                            "HSN_PRICE_DEVIATION"; "UNUSUAL_AMOUNT"] /\
    (reachable d ->
     total e = (duplicates e + invalidGst e + missingGst e + hsnAnomalies e)%Z).
Proof.
  intros Hdays Hstart Hend Hr e He.
  assert (HD : (0 < day_us)%Z) by (unfold day_us; lia).
  unfold get_anomaly_trends in Hr.
  rewrite (add_days_in_range now (- days)) in Hr by lia.
  replace (now + - days * day_us)%Z with (now - days * day_us)%Z in Hr by ring.
  set (start_date := (now - days * day_us)%Z) in *.
  set (t := fold_left add_group (trend_groups d start_date now) ∅) in *.
  rewrite (fill_dates_run t now (Z.to_nat days) Hend start_date) in Hr
    by (unfold start_date; lia).
  assert (Er : r = map (fun i => entry_at t (day_of start_date + Z.of_nat i))
                       (seq 0 (S (Z.to_nat days)))) by congruence.
  clear Hr. subst r. apply in_map_iff in He. destruct He as (i & <- & _).
  set (k := (day_of start_date + Z.of_nat i)%Z).
  assert (Hdate : date (entry_at t k) = k).
  { unfold entry_at. destruct (t !! k) as [e|] eqn:E; [|reflexivity].
    apply add_group_dates in E; [exact (proj1 E)|].
    intros k' e' Hk'. rewrite lookup_empty in Hk'. discriminate Hk'. }
  cbv zeta. rewrite Hdate.
  pose proof (fold_add_group_entry (trend_groups d start_date now) ∅ k) as H.
  cbv zeta beta in H. fold t in H.
  assert (Hzero : entry_at ∅ k = zero_trend k)
    by (unfold entry_at; rewrite lookup_empty; reflexivity).
  rewrite Hzero in H. cbn [zero_trend total duplicates invalidGst missingGst hsnAnomalies] in H.
  rewrite !trend_groups_sum in H. cbn [fst snd] in H.
  assert (Hty : forall types,
    List.filter (fun a => (start_date <=? detectedDate a)%Z && (detectedDate a <=? now)%Z &&
                          ((day_of (detectedDate a) =? k)%Z &&
                           existsb (String.eqb (anomalyType a)) types)) (anomalies d) =
    List.filter (fun a => in_window start_date now k a && typed_as types a) (anomalies d)).
  { intros types. apply List.filter_ext. intros a. unfold in_window, typed_as.
    rewrite andb_assoc. reflexivity. }
  rewrite !Hty in H. destruct H as (H1 & H2 & H3 & H4 & H5).
  unfold count_anomalies.
  assert (G1 : total (entry_at t k) =
               Z.of_nat (length (List.filter (in_window start_date now k) (anomalies d))))
    by (rewrite H1; reflexivity).
  repeat split; try assumption.
  intros Hreach. rewrite G1, H2, H3, H4, H5.
  rewrite (buckets_partition (in_window start_date now k) (anomalies d)).
  - cbn [Z.add]. lia.
  - intros a Ha. apply (reachable_anomalies d a Hreach Ha).
Qed.

Lemma anomaly_trends_counts_witness :
  get_anomaly_trends DbSamples.checked_store (DbSamples.day 738000) 3 =
  Some [ zero_trend 737997;
         {| date := 737998; duplicates := 0; invalidGst := 0; missingGst := 1;
            hsnAnomalies := 0; total := 1 |};
         zero_trend 737999;
         {| date := 738000; duplicates := 1; invalidGst := 0; missingGst := 0;
            hsnAnomalies := 0; total := 1 |} ] /\
  count_anomalies
    (in_window (DbSamples.day 738000 - 3 * day_us) (DbSamples.day 738000) 737998)
    DbSamples.checked_store = 1%Z /\
  count_anomalies
    (fun a => in_window (DbSamples.day 738000 - 3 * day_us) (DbSamples.day 738000) 737998 a &&
              typed_as ["MISSING_GST"] a)
    DbSamples.checked_store = 1%Z.
Proof.
  assert (E : get_anomaly_trends DbSamples.checked_store (DbSamples.day 738000) 3 =
              Some [ zero_trend 737997;
                     {| date := 737998; duplicates := 0; invalidGst := 0; missingGst := 1;
                        hsnAnomalies := 0; total := 1 |};
                     zero_trend 737999;
                     {| date := 738000; duplicates := 1; invalidGst := 0; missingGst := 0;
                        hsnAnomalies := 0; total := 1 |} ])
    by (vm_compute; reflexivity).
  split; [exact E|].
  destruct (anomaly_trends_counts DbSamples.checked_store (DbSamples.day 738000) 3 _
              ltac:(lia) ltac:(vm_compute; discriminate) ltac:(vm_compute; discriminate) E
              {| date := 737998; duplicates := 0; invalidGst := 0; missingGst := 1;
                 hsnAnomalies := 0; total := 1 |} ltac:(right; left; reflexivity))
    as (H1 & _ & _ & H4 & _).
  cbn [date total missingGst] in H1, H4. split; [symmetry; exact H1 | symmetry; exact H4].
Defined.


(** ** gemini_vision_ocr.py: the GST numbers of the OCR stage *)

Lemma valid_gst_numbers_In (raw : list string) (g : string) :
  In g (GeminiOcr.valid_gst_numbers raw) <->
  exists s, In s raw /\ g = upper (remove_char " "%char s) /\ String.length g = 15%nat.
Proof.
  induction raw as [|a raw IH]; cbn [GeminiOcr.valid_gst_numbers In].
  - split; [tauto | intros (s & [] & _)].
  - destruct (Z.eqb_spec (len (upper (remove_char " "%char a))) 15) as [E|E].
    + cbn [In]. rewrite IH. unfold len in E. split.
      * intros [<- | (s & Hs & Hg)].
        -- exists a. repeat split; [left; reflexivity | lia].
        -- exists s. split; [right; exact Hs | exact Hg].
      * intros (s & [<- | Hs] & Hg & Hl); [left; symmetry; exact Hg|].
        right. exists s. repeat split; assumption.
    + rewrite IH. split.
      * intros (s & Hs & Hg). exists s. split; [right; exact Hs | exact Hg].
      * intros (s & [<- | Hs] & Hg & Hl).
        -- exfalso. apply E. unfold len. rewrite <- Hg, Hl. reflexivity.
        -- exists s. repeat split; assumption.
Qed.




(** ** fintel_api_fixed.py: the compliance run *)

Section Compliance.
Context {F : Type} `{Ops F}.
Variable float_of_str : string -> option F.

(** The status, the risk and the anomalies of a compliance run. *)
Lemma compliance_shape (inv : Api.invoice_data F) (enh : Api.enhanced_data F)
  (ml : option (Api.ml_result F)) (r : Api.compliance_results F) :
  Api.process_complete_compliance float_of_str inv enh ml = Some r ->
  let flagged := match ml with Some m => Api.is_anomaly m | None => false end in
  let score := Api.compliance_score r in
  (exists status risk base,
     (status, risk, base) =
       (if leb (lit 90%float) score then ("Excellent", "Low Risk", 10%Z)
        else if leb (lit 75%float) score then ("Good", "Low Risk", 25%Z)
        else if leb (lit 60%float) score then ("Fair", "Medium Risk", 50%Z)
        else ("Poor", "High Risk", 75%Z)) /\
     Api.compliance_status r = status /\
     Api.risk_score r = (if flagged then base + 20 else base)%Z /\
     Api.risk_level r = if flagged && (50 <? base + 20)%Z then "High Risk" else risk) /\
  Api.anomalies_detected r =
    (if flagged then ["ML anomaly detected"] else []) ++
    (if ltb (Api.ocr_confidence inv) (lit 70%float) then ["Low OCR confidence"] else []) ++
    (if negb (Api.overall_accurate (Api.check_arithmetic_accuracy float_of_str inv))
     then ["Arithmetic error"] else []) /\
  Api.gst_validations r = map Api.validate_gst_number (Api.gst_numbers inv).
Proof.
  unfold Api.process_complete_compliance.
  destruct (Api.analyze_market_prices float_of_str enh inv) as [prices|]; [|discriminate].
  cbv zeta.
  match goal with
  | |- context [leb (lit 90%float) ?s] => set (score := s)
  end.
  destruct (leb (lit 90%float) score) eqn:E90;
    [|destruct (leb (lit 75%float) score) eqn:E75;
      [|destruct (leb (lit 60%float) score) eqn:E60]];
    intros Hr; injection Hr as <-;
    cbn [Api.compliance_score Api.compliance_status Api.risk_score Api.risk_level
         Api.anomalies_detected Api.gst_validations]; fold score;
    rewrite ?E90, ?E75, ?E60;
    (split; [eexists _, _, _; repeat split; try reflexivity;
             destruct ml as [m|]; [destruct (Api.is_anomaly m)|]; reflexivity
            | split; reflexivity]).
Qed.

(** X21. The status of a compliance run is one of Excellent, Good, Fair and
    Poor, by the thresholds 90, 75 and 60 on the score, and the risk score
    is 10, 25, 50 or 75 for them, plus 20 when the classifier flagged the
    invoice. The risk level is "High Risk" exactly for a Poor status, or a
    Fair one that is flagged; it is "Low Risk" exactly for Excellent and
    Good: a flag never changes the level of those. *)
Theorem compliance_risk_level (inv : Api.invoice_data F) (enh : Api.enhanced_data F)
  (ml : option (Api.ml_result F)) (r : Api.compliance_results F) :
  Api.process_complete_compliance float_of_str inv enh ml = Some r ->
  let flagged := match ml with Some m => Api.is_anomaly m | None => false end in
  let bonus := (if flagged then 20 else 0)%Z in
  let score := Api.compliance_score r in
  ((Api.compliance_status r = "Excellent" /\ Api.risk_score r = (10 + bonus)%Z /\
    leb (lit 90%float) score = true) \/
   (Api.compliance_status r = "Good" /\ Api.risk_score r = (25 + bonus)%Z /\
    leb (lit 90%float) score = false /\ leb (lit 75%float) score = true) \/
   (Api.compliance_status r = "Fair" /\ Api.risk_score r = (50 + bonus)%Z /\
    leb (lit 75%float) score = false /\ leb (lit 60%float) score = true) \/
   (Api.compliance_status r = "Poor" /\ Api.risk_score r = (75 + bonus)%Z /\
    leb (lit 60%float) score = false)) /\
  (Api.risk_level r = "High Risk" <->
   Api.compliance_status r = "Poor" \/
   (flagged = true /\ Api.compliance_status r = "Fair")) /\
  (Api.risk_level r = "Low Risk" <->
   Api.compliance_status r = "Excellent" \/ Api.compliance_status r = "Good") /\
  (In "ML anomaly detected" (Api.anomalies_detected r) <-> flagged = true).
Proof.
  intros Hr. destruct (compliance_shape inv enh ml r Hr)
    as ((status & risk & base & Hb & Hs & Hrs & Hrl) & Ha & _).
  cbv zeta. rewrite Hs, Hrs, Hrl, Ha. clear Hs Hrs Hrl Ha.
  set (flagged := match ml with Some m => Api.is_anomaly m | None => false end) in *.
  assert (Hml : In "ML anomaly detected"
                  ((if flagged then ["ML anomaly detected"] else []) ++
                   (if ltb (Api.ocr_confidence inv) (lit 70%float)
                    then ["Low OCR confidence"] else []) ++
                   (if negb (Api.overall_accurate (Api.check_arithmetic_accuracy float_of_str inv))
                    then ["Arithmetic error"] else [])) <-> flagged = true).
  { destruct flagged; [split; [reflexivity | intros _; left; reflexivity]|].
    split; [|discriminate]. cbn [app]. intros Hin. apply in_app_iff in Hin.
    destruct Hin as [Hin | Hin];
      match type of Hin with In _ (if ?b then _ else _) => destruct b end;
      cbn [In] in Hin; intuition discriminate. }
  destruct (leb (lit 90%float) (Api.compliance_score r)) eqn:E90;
    [|destruct (leb (lit 75%float) (Api.compliance_score r)) eqn:E75;
      [|destruct (leb (lit 60%float) (Api.compliance_score r)) eqn:E60]];
    injection Hb as -> -> ->; destruct flagged; cbn [andb Z.ltb Z.add Z.compare Pos.compare
                                                    Pos.compare_cont Pos.add Pos.succ];
    (split; [tauto|]);
    (split; [split; [try discriminate; tauto
                    | intros [Hc | [Hc1 Hc2]]; try discriminate; reflexivity]|]);
    (split; [split; [try discriminate; tauto
                    | intros [Hc | Hc]; try discriminate; reflexivity]
            | exact Hml]).
Qed.

(** X22. [analyze_market_prices] returns no entry when there is no item
    description or when the invoice has no amount (an absent or zero amount,
    or an empty string), and else one entry for every item description, in
    their order; it raises exactly when there are item descriptions and the
    amount is a string that is not empty and that [float] cannot read. Every
    entry bills the item the total of the invoice against the market average
    25000, so that all the entries carry the same variance and the same
    verdict. *)
Theorem analyze_market_prices_uniform (enh : Api.enhanced_data F) (inv : Api.invoice_data F) :
  let priced := Api.nonempty (Api.item_descriptions enh) &&
                Api.amount_truthy (Api.total_amount inv) in
  (Api.analyze_market_prices float_of_str enh inv = None <->
   priced = true /\ Api.amount_to_float float_of_str (Api.total_amount inv) = None) /\
  (forall l, Api.analyze_market_prices float_of_str enh inv = Some l ->
     map Api.item l = (if priced then Api.item_descriptions enh else []) /\
     (forall e, In e l ->
        Api.amount_to_float float_of_str (Api.total_amount inv) = Some (Api.billed_price e) /\
        Api.market_avg e = lit 25000%float /\
        Api.variance_percent e =
          mul (div (sub (Api.billed_price e) (lit 25000%float)) (lit 25000%float))
              (lit 100%float) /\
        Api.is_outlier e = ltb (lit 50%float) (fabs (Api.variance_percent e))) /\
     (forall e e', In e l -> In e' l ->
        Api.variance_percent e = Api.variance_percent e' /\
        Api.is_outlier e = Api.is_outlier e') /\
     existsb Api.is_outlier l = Api.nonempty l && forallb Api.is_outlier l).
Proof.
  cbv zeta. unfold Api.analyze_market_prices.
  destruct (Api.item_descriptions enh) as [|it items] eqn:Ei.
  - cbn [Api.nonempty andb]. split; [split; [discriminate | intros [Hp _]; discriminate Hp]|].
    intros l Hl. injection Hl as <-. cbn. repeat split; tauto.
  - cbn [Api.nonempty andb].
    destruct (Api.amount_truthy (Api.total_amount inv)).
    + destruct (Api.amount_to_float float_of_str (Api.total_amount inv)) as [amount|].
      * split; [split; [discriminate | intros [_ Hp]; discriminate Hp]|].
        match goal with |- forall l, Some (map ?f _) = _ -> _ => set (entry := f) end.
        intros l Hl. apply (inj Some) in Hl. subst l.
        assert (Hin : forall e, In e (map entry (it :: items)) -> exists x, e = entry x).
        { intros e He. apply in_map_iff in He. destruct He as (x & <- & _). eauto. }
        split; [rewrite map_map; apply map_id|].
        split; [intros e He; destruct (Hin e He) as [x ->]; repeat split; reflexivity|].
        split; [intros e e' He He'; destruct (Hin e He) as [x ->];
                destruct (Hin e' He') as [x' ->]; split; reflexivity|].
        set (verdict := Api.is_outlier (entry it)).
        assert (Ho : forall x, Api.is_outlier (entry x) = verdict) by reflexivity.
        clearbody verdict. cbn [map existsb forallb Api.nonempty andb]. rewrite Ho.
        clear Hin Ei. destruct verdict; cbn [orb andb].
        -- induction items as [|x xs IH]; [reflexivity|]. cbn [map forallb].
           rewrite Ho. exact IH.
        -- induction items as [|x xs IH]; [reflexivity|]. cbn [map existsb].
           rewrite Ho. exact IH.
      * split; [split; [intros _; split; reflexivity | reflexivity]|].
        intros l Hl. discriminate Hl.
    + split; [split; [discriminate | intros [Hp _]; discriminate Hp]|].
      intros l Hl. injection Hl as <-. cbn. repeat split; tauto.
Qed.

End Compliance.

(** ** fintel_api_fixed.py: the upload *)

Lemma verify_gst_active_success
  (api : string -> Http.outcome GstVerifier.gst_api_body) (s : string) :
  GstVerifier.is_active (GstVerifier.verify_gst api s) = true ->
  GstVerifier.success (GstVerifier.verify_gst api s) = true.
Proof.
  unfold GstVerifier.verify_gst.
  destruct (GstVerifier.clean_gst_number s) as [g|]; [|discriminate].
  destruct (GstVerifier.validate_gst_format g); [|discriminate]. cbn [negb].
  destruct (api g) as [| |code body]; try discriminate.
  destruct (code =? 200)%Z.
  - destruct body as [body|]; [|discriminate].
    destruct (GstVerifier.api_success body); [reflexivity | discriminate].
  - destruct (code =? 404)%Z; [discriminate|].
    destruct (code =? 429)%Z; discriminate.
Qed.

(** The MISSING_GST and INVALID_GST entries of an anomaly run. *)
Lemma missing_gst_anomalies (d : db) (inv : invoice_data) (invoice_id : value_id) :
  List.filter (of_type "MISSING_GST") (anomalies_of d inv invoice_id) =
  match gst_numbers inv with
  | [] => [mk_anomaly "MISSING_GST" "HIGH" None]
  | _ => if gst_missing inv then [mk_anomaly "MISSING_GST" "HIGH" None] else []
  end.
Proof.
  unfold anomalies_of. rewrite !List.filter_app.
  rewrite (filter_map_const (of_type "MISSING_GST")),
          (filter_map_const (of_type "MISSING_GST")) by reflexivity.
  match goal with |- ?a1 ++ ?a2 ++ ?a3 ++ ?a4 ++ ?a5 ++ [] ++ [] ++ ?a8 = _ =>
    assert (H1 : a1 = []) by by_cases_of_block;
    assert (H3 : a3 = []) by by_cases_of_block;
    assert (H4 : a4 = []) by by_cases_of_block;
    assert (H5 : a5 = []) by by_cases_of_block;
    assert (H8 : a8 = [])
      by (destruct (hsn_price_deviation_type d invoice_id (total_amount inv)
                      (take 3 (hsn_sac_codes inv))) as [-> | ->]; reflexivity)
  end.
  rewrite H1, H3, H4, H5, H8. cbn [app]. rewrite app_nil_r.
  destruct (gst_numbers inv); [reflexivity|]. destruct (gst_missing inv); reflexivity.
Qed.

Lemma invalid_gst_anomalies (d : db) (inv : invoice_data) (invoice_id : value_id) :
  List.filter (of_type "INVALID_GST") (anomalies_of d inv invoice_id) =
  if truthy_opt (head (gst_numbers inv)) then
    match gst_verification inv with
    | verification_result :: _ =>
        if negb (success verification_result) || negb (is_active verification_result)
        then [mk_anomaly "INVALID_GST" "HIGH" None] else []
    | [] => []
    end
  else [].
Proof.
  unfold anomalies_of. rewrite !List.filter_app.
  rewrite (filter_map_const (of_type "INVALID_GST")),
          (filter_map_const (of_type "INVALID_GST")) by reflexivity.
  match goal with |- ?a1 ++ ?a2 ++ ?a3 ++ ?a4 ++ ?a5 ++ [] ++ [] ++ ?a8 = _ =>
    assert (H1 : a1 = []) by by_cases_of_block;
    assert (H2 : a2 = []) by by_cases_of_block;
    assert (H4 : a4 = []) by by_cases_of_block;
    assert (H5 : a5 = []) by by_cases_of_block;
    assert (H8 : a8 = [])
      by (destruct (hsn_price_deviation_type d invoice_id (total_amount inv)
                      (take 3 (hsn_sac_codes inv))) as [-> | ->]; reflexivity)
  end.
  rewrite H1, H2, H4, H5, H8. cbn [app]. rewrite app_nil_r.
  destruct (truthy_opt (head (gst_numbers inv))); [|reflexivity].
  destruct (gst_verification inv) as [|v ?]; [reflexivity|].
  destruct (negb (success v) || negb (is_active v)); reflexivity.
Qed.

(** The numbers of INVALID_HSN_SAC and HSN_GST_RATE_MISMATCH entries. *)
Lemma hsn_anomalies_count (d : db) (inv : invoice_data) (invoice_id : value_id) :
  length (List.filter (of_type "INVALID_HSN_SAC") (anomalies_of d inv invoice_id)) =
    length (List.filter (fun v => negb (is_valid v)) (hsn_sac_verification inv)) /\
  length (List.filter (of_type "HSN_GST_RATE_MISMATCH") (anomalies_of d inv invoice_id)) =
    length (rate_mismatches inv).
Proof.
  pose proof (hsn_price_deviation_type d invoice_id (total_amount inv)
                (take 3 (hsn_sac_codes inv))) as H8.
  split.
  - unfold anomalies_of. rewrite !List.filter_app.
    rewrite (filter_map_const_all (of_type "INVALID_HSN_SAC")),
            (filter_map_const (of_type "INVALID_HSN_SAC")) by reflexivity.
    match goal with |- length (?a1 ++ ?a2 ++ ?a3 ++ ?a4 ++ ?a5 ++ ?a6 ++ [] ++ ?a8) = _ =>
      assert (E1 : a1 = []) by by_cases_of_block;
      assert (E2 : a2 = []) by by_cases_of_block;
      assert (E3 : a3 = []) by by_cases_of_block;
      assert (E4 : a4 = []) by by_cases_of_block;
      assert (E5 : a5 = []) by by_cases_of_block;
      assert (E8 : a8 = []) by (destruct H8 as [-> | ->]; reflexivity)
    end.
    rewrite E1, E2, E3, E4, E5, E8. cbn [app]. rewrite app_nil_r. apply length_map.
  - unfold anomalies_of. rewrite !List.filter_app.
    rewrite (filter_map_const_all (of_type "HSN_GST_RATE_MISMATCH")
               (mk_anomaly "HSN_GST_RATE_MISMATCH" "HIGH" None)),
            (filter_map_const (of_type "HSN_GST_RATE_MISMATCH")
               (mk_anomaly "INVALID_HSN_SAC" "HIGH" None)) by reflexivity.
    match goal with |- length (?a1 ++ ?a2 ++ ?a3 ++ ?a4 ++ ?a5 ++ [] ++ ?a7 ++ ?a8) = _ =>
      assert (E1 : a1 = []) by by_cases_of_block;
      assert (E2 : a2 = []) by by_cases_of_block;
      assert (E3 : a3 = []) by by_cases_of_block;
      assert (E4 : a4 = []) by by_cases_of_block;
      assert (E5 : a5 = []) by by_cases_of_block;
      assert (E8 : a8 = []) by (destruct H8 as [-> | ->]; reflexivity)
    end.
    rewrite E1, E2, E3, E4, E5, E8. cbn [app]. rewrite app_nil_r. apply length_map.
Qed.

Section UploadRun.
Variable gst_api : string -> Http.outcome GstVerifier.gst_api_body.
Variables api_hsn api_sac : string -> Http.outcome HsnSacVerifier.tax_body.
Variable float_of_str : string -> option float.
Variable float_mod : float -> float -> float.
Variable int_digits : float -> option Z.
Variable to_datetime : string -> option (Z * Z * Z).
Variable predict : list (Api.feature float) -> Api.ml_result float.
Variable extract_enhanced_invoice_data : string -> Api.enhanced_data float.
Variable message : HsnSacVerifier.hsn_error -> string.

(** The classifier is not reached: the feature vector is too short. *)
Lemma ml_step_none (inv : Api.invoice_data float) :
  Api.ml_step float_of_str float_mod int_digits to_datetime predict inv = None.
Proof.
  unfold Api.ml_step, Api.extract_ml_features.
  destruct (Api.built_features float_of_str float_mod int_digits to_datetime inv)
    as [features|] eqn:Eb; [|reflexivity].
  rewrite (built_features_length float_of_str float_mod int_digits to_datetime inv features Eb).
  reflexivity.
Qed.

(** The compliance run does not raise on an amount that is a number. *)
Lemma compliance_of_number (inv : Api.invoice_data float) (enh : Api.enhanced_data float)
  (ml : option (Api.ml_result float)) (x : float) :
  Api.total_amount inv = Api.Number x ->
  is_Some (Api.process_complete_compliance float_of_str inv enh ml).
Proof.
  intros Ea. unfold Api.process_complete_compliance.
  assert (Hp : is_Some (Api.analyze_market_prices float_of_str enh inv)).
  { unfold Api.analyze_market_prices. rewrite Ea. cbn [Api.amount_to_float].
    destruct (Api.item_descriptions enh); [eauto|].
    destruct (Api.amount_truthy (Api.Number x)); eauto. }
  destruct Hp as [prices ->].
  repeat match goal with |- context [if ?b then _ else _] => destruct b end; eauto.
Qed.

(** An entry of the GST verification is stored with the verdict of
    [verify_gst] for its number. *)
Lemma verify_gst_number_entry (vendor_name : option string) (g : string)
  (e : Upload.gst_entry) :
  Upload.verify_gst_number gst_api vendor_name g = Some e ->
  Upload.stored_gst_check e =
  {| success := GstVerifier.success (GstVerifier.verify_gst gst_api g);
     is_active := GstVerifier.is_active (GstVerifier.verify_gst gst_api g) |}.
Proof.
  unfold Upload.verify_gst_number.
  destruct (GstVerifier.success (GstVerifier.verify_gst gst_api g)) eqn:Es.
  - destruct vendor_name as [v|]; [|discriminate].
    destruct (GstVerifier.check_vendor_name_match _ _); [|discriminate].
    intros He. injection He as <-. cbn [Upload.stored_gst_check]. rewrite Es. reflexivity.
  - intros He. injection He as <-. cbn [Upload.stored_gst_check]. rewrite Es. reflexivity.
Qed.

(** What a successful upload consists of. *)
Lemma upload_inversion (d d' : db) (r : GeminiOcr.ocr_result) (now later : Z)
  (resp : Upload.response) :
  Upload.upload_invoice_complete gst_api api_hsn api_sac float_of_str float_mod int_digits
    to_datetime predict extract_enhanced_invoice_data message
    d (GeminiOcr.Extracted r) now later = (d', Some resp) ->
  exists (text : string) (storage : invoice_data) (inv : Api.invoice_data float)
         (hsn : list HsnSacVerifier.verification)
         (lv : option HsnSacVerifier.line_items_report),
    GeminiOcr.raw_text r = Some text /\
    Upload.verify_hsn_sac api_hsn api_sac float_of_str
      (GeminiOcr.sd_line_items (GeminiOcr.structured r))
      (Api.hsn_sac_codes (extract_enhanced_invoice_data text)) =
      Some (hsn, lv) /\
    store_and_detect d storage now later = (d', Upload.databaseAnomalies resp) /\
    Upload.invoiceId resp = snd (store_invoice d storage now) /\
    invoice_number storage = GeminiOcr.sd_invoice_number (GeminiOcr.structured r) /\
    vendor_name storage = GeminiOcr.sd_vendor_name (GeminiOcr.structured r) /\
    gst_numbers storage = GeminiOcr.sd_gst_numbers (GeminiOcr.structured r) /\
    gst_missing storage = Upload.gstMissing resp /\
    Upload.gstMissing resp =
      match GeminiOcr.sd_gst_numbers (GeminiOcr.structured r) with
      | [] => true
      | _ => false
      end /\
    Upload.verify_gst_numbers gst_api (GeminiOcr.sd_gst_numbers (GeminiOcr.structured r))
      (GeminiOcr.sd_vendor_name (GeminiOcr.structured r)) =
      Some (Upload.gstVerification resp) /\
    gst_verification storage = map Upload.stored_gst_check (Upload.gstVerification resp) /\
    Upload.hsnSacVerification resp = hsn /\
    hsn_sac_verification storage = map (Upload.stored_hsn_check message) hsn /\
    Upload.hsnSacLineItemsVerification resp = lv /\
    rate_mismatches storage =
      match lv with
      | Some rep => map (Upload.stored_mismatch float_of_str) (HsnSacVerifier.rate_mismatches rep)
      | None => []
      end /\
    Upload.hsnSacValid resp = HsnSacVerifier.count_where HsnSacVerifier.is_valid hsn /\
    Upload.hsnSacInvalid resp =
      HsnSacVerifier.count_where (fun v => negb (HsnSacVerifier.is_valid v)) hsn /\
    Upload.hsnSacRateMismatchCount resp =
      match lv with
      | Some rep => HsnSacVerifier.rate_mismatch_count rep
      | None => 0%Z
      end /\
    Api.ocr_confidence inv = GeminiOcr.confidence r /\
    Api.gst_numbers inv = GeminiOcr.sd_gst_numbers (GeminiOcr.structured r) /\
    Upload.mlPrediction resp =
      match Api.ml_step float_of_str float_mod int_digits to_datetime predict inv with
      | Some prediction => prediction
      | None => Upload.no_prediction
      end /\
    Api.process_complete_compliance float_of_str inv (extract_enhanced_invoice_data text)
      (Api.ml_step float_of_str float_mod int_digits to_datetime predict inv) =
      Some (Upload.compliance resp).
Proof.
  unfold Upload.upload_invoice_complete.
  destruct (GeminiOcr.raw_text r) as [text|]; [|discriminate].
  unfold Upload.process_extracted. cbv zeta.
  cbn [Api.gst_numbers Api.vendor_name].
  destruct (Upload.verify_gst_numbers _ _ _) as [gst|] eqn:Eg; [|discriminate].
  destruct (Upload.verify_hsn_sac _ _ _ _ _) as [[hsn lv]|] eqn:Eh; [|discriminate].
  match goal with
  | |- context [Api.process_complete_compliance ?f ?i ?e ?m] =>
      destruct (Api.process_complete_compliance f i e m) as [c|] eqn:Ec; [|discriminate];
      set (inv := i) in *
  end.
  match goal with
  | |- context [store_invoice d ?s now] => set (storage := s) in *
  end.
  destruct (store_invoice d storage now) as [d1 invoice_id] eqn:Es.
  destruct (detect_anomalies d1 storage invoice_id later) as [d2 found] eqn:Ed.
  intros H. injection H as <- <-.
  exists text, storage, inv, hsn, lv.
  cbn [Upload.databaseAnomalies Upload.invoiceId Upload.gstMissing Upload.gstVerification
       Upload.hsnSacVerification Upload.hsnSacLineItemsVerification Upload.hsnSacValid
       Upload.hsnSacInvalid Upload.hsnSacRateMismatchCount Upload.mlPrediction
       Upload.compliance snd].
  split; [reflexivity|]. split; [exact Eh|]. split.
  { unfold store_and_detect. rewrite Es. exact Ed. }
  rewrite Es. repeat split; try reflexivity; first [exact Eg | exact Ec].
Qed.

(** What the OCR stage returns carries its confidence of 95 and GST numbers
    that went through the cleaning loop. *)
Lemma process_invoice_extracted (pages : list (option GeminiOcr.extracted_data))
  (r : GeminiOcr.ocr_result) :
  GeminiOcr.process_invoice float_of_str pages = GeminiOcr.Extracted r ->
  GeminiOcr.confidence r = 95%float /\
  exists raw, GeminiOcr.sd_gst_numbers (GeminiOcr.structured r) = GeminiOcr.valid_gst_numbers raw.
Proof.
  unfold GeminiOcr.process_invoice. destruct pages as [|p pages]; [discriminate|].
  destruct (List.filter GeminiOcr.has_keys (omap id (p :: pages))) as [|page rest];
    [discriminate|].
  destruct (GeminiOcr.merged_line_items (page :: rest)); [|discriminate].
  destruct (Json.get_or (GeminiOcr.gst_numbers page) []); [|discriminate].
  destruct (GeminiOcr.total_of float_of_str (GeminiOcr.total_amount page)); [|discriminate].
  intros H. injection H as <-. cbn [GeminiOcr.confidence GeminiOcr.structured
                                     GeminiOcr.sd_gst_numbers].
  split; [reflexivity | eauto].
Qed.

Lemma filter_stored_hsn_check (hsn : list HsnSacVerifier.verification) :
  length (List.filter (fun v => negb (is_valid v)) (map (Upload.stored_hsn_check message) hsn)) =
  length (List.filter (fun v => negb (HsnSacVerifier.is_valid v)) hsn).
Proof.
  induction hsn as [|v hsn IH]; [reflexivity|]. cbn [map List.filter Upload.stored_hsn_check is_valid].
  destruct (HsnSacVerifier.is_valid v); cbn [negb length]; rewrite IH; reflexivity.
Qed.

(** X23. In a successful upload, whose GST numbers come from the OCR
    stage, MISSING_GST is reported exactly when that stage kept no GST
    number, which is when the response says the GST number is missing;
    INVALID_GST is reported exactly when the first number kept is not
    verified as active. Never both: the two anomalies exclude each other. *)
Theorem upload_gst_anomalies (d d' : db) (pages : list (option GeminiOcr.extracted_data))
  (r : GeminiOcr.ocr_result) (now later : Z) (resp : Upload.response) :
  GeminiOcr.process_invoice float_of_str pages = GeminiOcr.Extracted r ->
  Upload.upload_invoice_complete gst_api api_hsn api_sac float_of_str float_mod int_digits
    to_datetime predict extract_enhanced_invoice_data message
    d (GeminiOcr.Extracted r) now later = (d', Some resp) ->
  let found := Upload.databaseAnomalies resp in
  let numbers := GeminiOcr.sd_gst_numbers (GeminiOcr.structured r) in
  (Upload.gstMissing resp = true <-> numbers = []) /\
  List.filter (of_type "MISSING_GST") found =
    (if Upload.gstMissing resp then [mk_anomaly "MISSING_GST" "HIGH" None] else []) /\
  List.filter (of_type "INVALID_GST") found =
    match numbers with
    | g :: _ =>
        if GstVerifier.is_active (GstVerifier.verify_gst gst_api g) then []
        else [mk_anomaly "INVALID_GST" "HIGH" None]
    | [] => []
    end /\
  length (List.filter (of_type "MISSING_GST") found) +
  length (List.filter (of_type "INVALID_GST") found) <= 1.
Proof.
  intros Hocr Hup. cbv zeta.
  destruct (process_invoice_extracted pages r Hocr) as (_ & raw & Hraw).
  destruct (upload_inversion d d' r now later resp Hup)
    as (text & storage & inv & hsn & lv & _ & _ & Hsd & _ & _ & _ & Hg & Hm & Hmiss & Hv &
        Hgv & _).
  unfold store_and_detect in Hsd.
  destruct (store_invoice d storage now) as [d1 invoice_id].
  injection Hsd as _ <-.
  rewrite missing_gst_anomalies, invalid_gst_anomalies, Hg, Hm, Hgv, Hmiss.
  destruct (GeminiOcr.sd_gst_numbers (GeminiOcr.structured r)) as [|g rest] eqn:En.
  - cbn [head truthy_opt length]. split; [split; reflexivity|].
    split; [reflexivity|]. split; [reflexivity | lia].
  - assert (Hlen : String.length g = 15%nat).
    { assert (Hin : In g (GeminiOcr.valid_gst_numbers raw)) by (rewrite <- Hraw; left; reflexivity).
      apply valid_gst_numbers_In in Hin. destruct Hin as (_ & _ & _ & Hl). exact Hl. }
    cbn [head truthy_opt]. rewrite (truthy_of_length g 14 Hlen).
    cbn [Upload.verify_gst_numbers Upload.verify_gst_loop] in Hv.
    destruct (Upload.verify_gst_number gst_api (GeminiOcr.sd_vendor_name (GeminiOcr.structured r)) g)
      as [entry|] eqn:Ee; [|discriminate Hv].
    destruct (Upload.verify_gst_loop gst_api (GeminiOcr.sd_vendor_name (GeminiOcr.structured r)) rest)
      as [entries|]; [|discriminate Hv].
    apply (inj Some) in Hv. rewrite <- Hv. cbn [map].
    rewrite (verify_gst_number_entry _ g entry Ee).
    pose proof (verify_gst_active_success gst_api g) as Hact.
    cbn [success is_active].
    destruct (GstVerifier.is_active (GstVerifier.verify_gst gst_api g)) eqn:Ea.
    + rewrite (Hact eq_refl). cbn [negb orb length].
      split; [split; discriminate|]. split; [reflexivity|]. split; [reflexivity | lia].
    + rewrite orb_true_r. cbn [length].
      split; [split; discriminate|]. split; [reflexivity|]. split; [reflexivity | lia].
Qed.

(** The report of the line items counts its mismatches. *)
Lemma line_items_report_count (line_items : list HsnSacVerifier.line_item)
  (rep : HsnSacVerifier.line_items_report) :
  HsnSacVerifier.verify_with_line_items float_of_str api_hsn api_sac line_items = Some rep ->
  HsnSacVerifier.rate_mismatch_count rep =
    Z.of_nat (length (HsnSacVerifier.rate_mismatches rep)) /\
  HsnSacVerifier.li_invalid_codes rep =
    HsnSacVerifier.count_where (fun v => negb (HsnSacVerifier.is_valid v))
      (HsnSacVerifier.li_verifications rep).
Proof.
  unfold HsnSacVerifier.verify_with_line_items.
  destruct (HsnSacVerifier.line_items_loop _ _ _ _ _) as [[results mismatches]|]; [|discriminate].
  intros H. injection H as <-. split; reflexivity.
Qed.

(** X24. In a successful upload, INVALID_HSN_SAC is reported once for
    every verification the response counts as invalid, and
    HSN_GST_RATE_MISMATCH once for every rate mismatch it counts. When the
    OCR stage found line items, the verifications are those of the line
    items, and the codes found in the text are not verified; without line
    items the codes of the text are verified one by one and no rate is
    compared. *)
Theorem upload_hsn_anomalies (d d' : db) (r : GeminiOcr.ocr_result) (now later : Z)
  (resp : Upload.response) :
  Upload.upload_invoice_complete gst_api api_hsn api_sac float_of_str float_mod int_digits
    to_datetime predict extract_enhanced_invoice_data message
    d (GeminiOcr.Extracted r) now later = (d', Some resp) ->
  let found := Upload.databaseAnomalies resp in
  let line_items := GeminiOcr.sd_line_items (GeminiOcr.structured r) in
  Z.of_nat (length (List.filter (of_type "INVALID_HSN_SAC") found)) =
    Upload.hsnSacInvalid resp /\
  Z.of_nat (length (List.filter (of_type "HSN_GST_RATE_MISMATCH") found)) =
    Upload.hsnSacRateMismatchCount resp /\
  (Upload.hsnSacValid resp + Upload.hsnSacInvalid resp)%Z =
    Z.of_nat (length (Upload.hsnSacVerification resp)) /\
  match line_items with
  | [] =>
      Upload.hsnSacLineItemsVerification resp = None /\
      exists text,
        GeminiOcr.raw_text r = Some text /\
        Upload.hsnSacVerification resp =
          map (HsnSacVerifier.verify_code api_hsn api_sac)
              (HsnSacVerifier.kept_codes
                 (Api.hsn_sac_codes (extract_enhanced_invoice_data text)))
  | _ :: _ =>
      exists rep,
        HsnSacVerifier.verify_with_line_items float_of_str api_hsn api_sac line_items =
          Some rep /\
        Upload.hsnSacLineItemsVerification resp = Some rep /\
        Upload.hsnSacVerification resp = HsnSacVerifier.li_verifications rep
  end.
Proof.
  intros Hup. cbv zeta.
  destruct (upload_inversion d d' r now later resp Hup)
    as (text & storage & inv & hsn & lv & Ht & Hh & Hsd & _ & _ & _ & _ & _ & _ & _ & _ &
        Hhv & Hsv & Hlv & Hrm & Hval & Hinv & Hrc & _).
  unfold store_and_detect in Hsd.
  destruct (store_invoice d storage now) as [d1 invoice_id].
  injection Hsd as _ <-.
  destruct (hsn_anomalies_count d1 storage invoice_id) as [H1 H2].
  rewrite H1, H2, Hsv, Hrm, filter_stored_hsn_check, Hinv, Hval, Hrc, Hhv, Hlv.
  unfold Upload.verify_hsn_sac in Hh.
  pose proof (count_where_split HsnSacVerifier.is_valid hsn) as Hsplit.
  destruct (GeminiOcr.sd_line_items (GeminiOcr.structured r)) as [|item items].
  - injection Hh as <- <-. cbn [length]. repeat split; try reflexivity; [lia|].
    exists text. split; [exact Ht | reflexivity].
  - destruct (HsnSacVerifier.verify_with_line_items float_of_str api_hsn api_sac
                (item :: items)) as [rep|] eqn:Er; [|discriminate].
    injection Hh as <- <-.
    destruct (line_items_report_count (item :: items) rep Er) as [Hc _].
    rewrite length_map, Hc. repeat split; try reflexivity; [lia|].
    exists rep. repeat split.
Qed.

(** [verify_with_line_items] raises exactly on an unreadable rate. *)
Lemma verify_with_line_items_none (line_items : list HsnSacVerifier.line_item) :
  HsnSacVerifier.verify_with_line_items float_of_str api_hsn api_sac line_items = None <->
  existsb (HsnSacVerifier.unreadable_rate float_of_str api_hsn api_sac) line_items = true.
Proof.
  unfold HsnSacVerifier.verify_with_line_items.
  rewrite <- (line_items_loop_raises float_of_str api_hsn api_sac line_items ([], [])).
  destruct (HsnSacVerifier.line_items_loop float_of_str api_hsn api_sac ([], []) line_items)
    as [[? ?]|]; split; (discriminate || reflexivity).
Qed.

(** The two calls to the store of an upload: one invoice more, and one
    stored anomaly for every anomaly returned. *)
Lemma store_and_detect_frame (d d' : db) (inv : invoice_data) (now later : Z)
  (found : list anomaly) :
  store_and_detect d inv now later = (d', found) ->
  length (invoices d') = S (length (invoices d)) /\
  next_id d' = S (next_id d) /\
  vendors d' = vendors (fst (store_invoice d inv now)) /\
  length (anomalies d') = length (anomalies d) + length found /\
  snd (store_invoice d inv now) = HexStr (next_id d).
Proof.
  unfold store_and_detect.
  destruct (store_invoice_invoices d inv now) as (doc & Hi & _ & _ & Hn & Hid).
  assert (Ha : anomalies (fst (store_invoice d inv now)) = anomalies d).
  { unfold store_invoice. cbn [fst]. unfold _update_vendor_stats. cbn [gstNumber].
    destruct (head (gst_numbers inv)) as [g|]; [|reflexivity].
    destruct (negb (truthy g) || String.eqb g "Unknown"); reflexivity. }
  destruct (store_invoice d inv now) as [d1 invoice_id]. cbn [fst snd] in *.
  unfold detect_anomalies. intros H. injection H as <- <-.
  cbn [invoices next_id vendors anomalies].
  rewrite Hi, Hn, Ha, !length_app, length_map. cbn [length].
  repeat split; try lia. exact Hid.
Qed.

(** The loop over the GST numbers raises exactly at a number that is
    verified when a name is missing. *)
Lemma verify_gst_number_none (vendor_name : option string) (g : string) :
  Upload.verify_gst_number gst_api vendor_name g = None <->
  Upload.unreadable_names gst_api vendor_name g = true.
Proof.
  unfold Upload.verify_gst_number, Upload.unreadable_names,
    GstVerifier.check_vendor_name_match. cbv zeta.
  destruct (GstVerifier.success (GstVerifier.verify_gst gst_api g));
    [|split; discriminate].
  cbn [negb andb].
  destruct vendor_name as [v|]; [|split; reflexivity].
  cbn [HsnSacVerifier.is_Some_b negb orb].
  destruct (GstVerifier.legal_name (GstVerifier.verify_gst gst_api g)) as [| |legal];
    destruct (GstVerifier.trade_name (GstVerifier.verify_gst gst_api g)) as [| |trade];
    cbn [Json.get_or Json.is_null orb]; try (split; reflexivity);
    repeat match goal with
           | |- context [if ?b then _ else _] => destruct b
           | |- context [match ?l with [] => _ | _ :: _ => _ end] => destruct l
           end; split; discriminate.
Qed.

Lemma verify_gst_numbers_none (vendor_name : option string) (numbers : list string) :
  Upload.verify_gst_numbers gst_api numbers vendor_name = None <->
  existsb (Upload.unreadable_names gst_api vendor_name) numbers = true.
Proof.
  assert (Hloop : forall l,
            Upload.verify_gst_loop gst_api vendor_name l = None <->
            existsb (Upload.unreadable_names gst_api vendor_name) l = true).
  { induction l as [|g l IH]; cbn [Upload.verify_gst_loop existsb]; [split; discriminate|].
    pose proof (verify_gst_number_none vendor_name g) as Hg.
    destruct (Upload.verify_gst_number gst_api vendor_name g) as [e|].
    - destruct (Upload.unreadable_names gst_api vendor_name g);
        [destruct Hg as [_ Hg]; discriminate (Hg eq_refl)|].
      cbn [orb]. rewrite <- IH.
      destruct (Upload.verify_gst_loop gst_api vendor_name l); split;
        (discriminate || reflexivity).
    - rewrite (proj1 Hg eq_refl). split; reflexivity. }
  destruct numbers as [|g l]; [split; discriminate|]. apply Hloop.
Qed.

(** X25. Once the file is saved, an upload fails, with the response of a
    failure, in each of these cases: the OCR stage gave no result or raised;
    it gave [null] for the text of the invoice; a GST number is verified
    while the vendor name, or the legal or trade name of the registration,
    is [null]; a line item has a code that verifies as valid and a GST rate
    [float] cannot read. A failed upload stores nothing. A successful upload
    stores one invoice, whose identifier it returns as a string, and one
    anomaly for every anomaly of the response. *)
Theorem upload_failures (d : db) (ocr : GeminiOcr.outcome) (now later : Z) :
  let run :=
    Upload.upload_invoice_complete gst_api api_hsn api_sac float_of_str float_mod int_digits
      to_datetime predict extract_enhanced_invoice_data message d ocr now later in
  (match ocr with
   | GeminiOcr.Extracted r =>
       GeminiOcr.raw_text r = None \/
       existsb (Upload.unreadable_names gst_api (GeminiOcr.sd_vendor_name (GeminiOcr.structured r)))
               (GeminiOcr.sd_gst_numbers (GeminiOcr.structured r)) = true \/
       existsb (HsnSacVerifier.unreadable_rate float_of_str api_hsn api_sac)
               (GeminiOcr.sd_line_items (GeminiOcr.structured r)) = true
   | _ => True
   end -> snd run = None) /\
  (snd run = None -> fst run = d) /\
  (forall resp, snd run = Some resp ->
     Upload.invoiceId resp = HexStr (next_id d) /\
     length (invoices (fst run)) = S (length (invoices d)) /\
     length (anomalies (fst run)) =
       length (anomalies d) + length (Upload.databaseAnomalies resp)).
Proof.
  cbv zeta. split; [|split].
  - destruct ocr as [r| |]; [|reflexivity ..].
    unfold Upload.upload_invoice_complete.
    intros [Ht | [Hg | Hl]].
    + rewrite Ht. reflexivity.
    + destruct (GeminiOcr.raw_text r) as [text|]; [|reflexivity].
      unfold Upload.process_extracted. cbv zeta. cbn [Api.gst_numbers Api.vendor_name].
      rewrite (proj2 (verify_gst_numbers_none _ _) Hg). reflexivity.
    + destruct (GeminiOcr.raw_text r) as [text|]; [|reflexivity].
      unfold Upload.process_extracted. cbv zeta.
      destruct (Upload.verify_gst_numbers _ _ _); [|reflexivity].
      unfold Upload.verify_hsn_sac.
      destruct (GeminiOcr.sd_line_items (GeminiOcr.structured r)) as [|item items];
        [discriminate Hl|].
      rewrite (proj2 (verify_with_line_items_none (item :: items)) Hl). reflexivity.
  - destruct ocr as [r| |]; [|reflexivity ..].
    unfold Upload.upload_invoice_complete.
    destruct (GeminiOcr.raw_text r) as [text|]; [|reflexivity].
    unfold Upload.process_extracted. cbv zeta.
    destruct (Upload.verify_gst_numbers _ _ _); [|reflexivity].
    destruct (Upload.verify_hsn_sac _ _ _ _ _) as [[hsn lv]|]; [|reflexivity].
    destruct (Api.process_complete_compliance _ _ _ _) as [c|]; [|reflexivity].
    destruct (store_invoice _ _ _) as [d1 invoice_id].
    destruct (detect_anomalies _ _ _ _) as [d2 found]. discriminate.
  - intros resp Hresp. destruct ocr as [r| |]; [|discriminate Hresp ..].
    destruct (Upload.upload_invoice_complete gst_api api_hsn api_sac float_of_str float_mod
                int_digits to_datetime predict extract_enhanced_invoice_data message
                d (GeminiOcr.Extracted r) now later) as [d' o] eqn:E.
    cbn [fst snd] in *. subst o.
    destruct (upload_inversion d d' r now later resp E)
      as (text & storage & inv & hsn & lv & _ & _ & Hsd & Hid & _).
    destruct (store_and_detect_frame d d' storage now later _ Hsd) as (Hi & _ & _ & Ha & Hs).
    rewrite Hid, Hs. repeat split; assumption.
Qed.

(** X26. In a successful upload the classifier is not called: under
    ['mlPrediction'] the response carries the prediction that stands for
    none, not an anomaly, with a confidence of 0, whatever the classifier
    would say. With the confidence the OCR stage reports, the compliance run
    never finds "Low OCR confidence": its anomalies are at most "Arithmetic
    error", its risk score is 10, 25, 50 or 75, and its risk level is "High
    Risk" exactly when the status is Poor. *)
Theorem upload_compliance (d d' : db) (pages : list (option GeminiOcr.extracted_data))
  (r : GeminiOcr.ocr_result) (now later : Z) (resp : Upload.response) :
  GeminiOcr.process_invoice float_of_str pages = GeminiOcr.Extracted r ->
  Upload.upload_invoice_complete gst_api api_hsn api_sac float_of_str float_mod int_digits
    to_datetime predict extract_enhanced_invoice_data message
    d (GeminiOcr.Extracted r) now later = (d', Some resp) ->
  let c := Upload.compliance resp in
  Upload.mlPrediction resp =
    {| Api.is_anomaly := false; Api.confidence := 0%float |} /\
  (Api.anomalies_detected c = [] \/ Api.anomalies_detected c = ["Arithmetic error"]) /\
  In (Api.risk_score c) [10%Z; 25%Z; 50%Z; 75%Z] /\
  (Api.risk_level c = "High Risk" <-> Api.compliance_status c = "Poor") /\
  Api.gst_validations c =
    map Api.validate_gst_number (GeminiOcr.sd_gst_numbers (GeminiOcr.structured r)).
Proof.
  intros Hocr Hup. cbv zeta.
  destruct (process_invoice_extracted pages r Hocr) as (Hconf & _).
  pose proof (upload_inversion d d' r now later resp Hup) as Hinv.
  destruct Hinv as (text & storage & inv & hsn & lv & Hrest).
  do 18 (destruct Hrest as [_ Hrest]).
  destruct Hrest as (Hc & Hgst & Hml & Hcomp).
  rewrite ml_step_none in Hml, Hcomp. split; [exact Hml|].
  destruct (compliance_shape float_of_str inv _ None _ Hcomp)
    as ((status & risk & base & Hb & Hs & Hrs & Hrl) & Ha & Hg).
  rewrite Hs, Hrs, Hrl, Ha, Hg, Hgst, Hc, Hconf. cbn [andb app].
  assert (H95 : ltb 95%float (lit 70%float) = false) by reflexivity.
  rewrite H95. cbn [app].
  split; [destruct (negb _); [right | left]; reflexivity|].
  destruct (leb (lit 90%float) (Api.compliance_score (Upload.compliance resp)));
    [|destruct (leb (lit 75%float) (Api.compliance_score (Upload.compliance resp)));
      [|destruct (leb (lit 60%float) (Api.compliance_score (Upload.compliance resp)))]];
    injection Hb as -> -> ->; cbn [In];
    (split; [tauto|]); (split; [split; [try discriminate; tauto | try discriminate; tauto]
                               | reflexivity]).
Qed.

End UploadRun.

(** *** The sample upload *)

Lemma sample_page_processed :
  GeminiOcr.process_invoice HsnSamples.float_of_str [None; Some UploadSamples.page] =
  GeminiOcr.Extracted UploadSamples.ocr_result.
Proof. vm_compute. reflexivity. Defined.

Lemma sample_run_succeeds :
  exists d' resp, UploadSamples.run = (d', Some resp).
Proof.
  destruct UploadSamples.run as [d' [resp|]] eqn:E.
  - exists d', resp. reflexivity.
  - exfalso. vm_compute in E. discriminate E.
Defined.

Lemma upload_gst_anomalies_witness :
  exists d' resp,
    UploadSamples.run = (d', Some resp) /\
    List.filter (of_type "INVALID_GST") (Upload.databaseAnomalies resp) = [] /\
    List.filter (of_type "MISSING_GST") (Upload.databaseAnomalies resp) =
      (if Upload.gstMissing resp then [mk_anomaly "MISSING_GST" "HIGH" None] else []).
Proof.
  destruct sample_run_succeeds as (d' & resp & E). exists d', resp. split; [exact E|].
  destruct (upload_gst_anomalies UploadSamples.gst_api HsnSamples.api_hsn HsnSamples.api_sac
              HsnSamples.float_of_str UploadSamples.float_mod UploadSamples.int_digits
              UploadSamples.to_datetime UploadSamples.predict
              UploadSamples.extract_enhanced_invoice_data UploadSamples.message
              empty_db d' [None; Some UploadSamples.page] UploadSamples.ocr_result 1 2 resp
              sample_page_processed E) as (_ & Hm & Hi & _).
  split; [exact Hi | exact Hm].
Defined.

Lemma upload_hsn_anomalies_witness :
  exists d' resp,
    UploadSamples.run = (d', Some resp) /\
    Z.of_nat (length (List.filter (of_type "INVALID_HSN_SAC") (Upload.databaseAnomalies resp))) =
      Upload.hsnSacInvalid resp /\
    Z.of_nat (length (List.filter (of_type "HSN_GST_RATE_MISMATCH")
                        (Upload.databaseAnomalies resp))) =
      Upload.hsnSacRateMismatchCount resp.
Proof.
  destruct sample_run_succeeds as (d' & resp & E). exists d', resp. split; [exact E|].
  destruct (upload_hsn_anomalies UploadSamples.gst_api HsnSamples.api_hsn HsnSamples.api_sac
              HsnSamples.float_of_str UploadSamples.float_mod UploadSamples.int_digits
              UploadSamples.to_datetime UploadSamples.predict
              UploadSamples.extract_enhanced_invoice_data UploadSamples.message
              empty_db d' UploadSamples.ocr_result 1 2 resp E) as (H1 & H2 & _).
  split; [exact H1 | exact H2].
Defined.

Lemma upload_compliance_witness :
  exists d' resp,
    UploadSamples.run = (d', Some resp) /\
    Upload.mlPrediction resp =
      {| Api.is_anomaly := false; Api.confidence := 0%float |} /\
    In (Api.risk_score (Upload.compliance resp)) [10%Z; 25%Z; 50%Z; 75%Z].
Proof.
  destruct sample_run_succeeds as (d' & resp & E). exists d', resp. split; [exact E|].
  destruct (upload_compliance UploadSamples.gst_api HsnSamples.api_hsn HsnSamples.api_sac
              HsnSamples.float_of_str UploadSamples.float_mod UploadSamples.int_digits
              UploadSamples.to_datetime UploadSamples.predict
              UploadSamples.extract_enhanced_invoice_data UploadSamples.message
              empty_db d' [None; Some UploadSamples.page] UploadSamples.ocr_result 1 2 resp
              sample_page_processed E) as (H1 & _ & H3 & _).
  split; [exact H1 | exact H3].
Defined.

Lemma compliance_risk_level_witness :
  exists r,
    Api.process_complete_compliance HsnSamples.float_of_str Samples.two_gst_invoice
      Samples.full_enhanced (Some {| Api.is_anomaly := true; Api.confidence := 1%float |}) =
      Some r /\
    (Api.risk_level r = "Low Risk" <->
     Api.compliance_status r = "Excellent" \/ Api.compliance_status r = "Good").
Proof.
  destruct (Api.process_complete_compliance HsnSamples.float_of_str Samples.two_gst_invoice
              Samples.full_enhanced (Some {| Api.is_anomaly := true; Api.confidence := 1%float |}))
    as [r|] eqn:E.
  - exists r. split; [reflexivity|].
    destruct (compliance_risk_level HsnSamples.float_of_str Samples.two_gst_invoice
                Samples.full_enhanced _ r E) as (_ & _ & H & _).
    exact H.
  - exfalso. vm_compute in E. discriminate E.
Defined.


(** ** hsn_sac_verifier.py: the two comparisons of rates *)

Section RateComparison.
Import HsnSacVerifier.
Variable float_of_str : string -> option float.
Variables api_hsn api_sac : string -> Http.outcome tax_body.

Lemma verify_code_success_valid (c : string) :
  success (verify_code api_hsn api_sac c) = is_valid (verify_code api_hsn api_sac c).
Proof.
  unfold verify_code.
  pose proof (verify_hsn_code_facts api_hsn c) as [Hh1 _].
  pose proof (verify_sac_code_facts api_sac c) as [Hs1 _].
  destruct (String.eqb (detect_code_type c) "SAC"); [exact Hs1|].
  destruct (String.eqb (detect_code_type c) "HSN"); [exact Hh1|].
  destruct (success (verify_hsn_code api_hsn c)) eqn:Eh; [congruence|].
  destruct (success (verify_sac_code api_sac c)) eqn:Es; [congruence | reflexivity].
Qed.

(** The description and the code a mismatch is recorded with. *)
Lemma line_item_step_mismatch (acc acc' : list verification * list rate_mismatch)
  (it : line_item) :
  line_item_step float_of_str api_hsn api_sac acc it = Some acc' ->
  map (fun m => (item m, hsn_code m)) (snd acc') =
  map (fun m => (item m, hsn_code m)) (snd acc) ++
  (if mismatched float_of_str api_hsn api_sac it
   then [(GstVerifier.or_default (li_description it) "Unknown",
          GstVerifier.or_default (code_or (li_hsn_code it) (li_hsn_sac_code it)) EmptyString)]
   else []).
Proof.
  destruct acc as [results mismatches]. unfold line_item_step, mismatched. cbn [snd].
  destruct (code_or (li_hsn_code it) (li_hsn_sac_code it)) as [c|];
    [|intros H; injection H as <-; cbn [snd]; rewrite app_nil_r; reflexivity].
  destruct (skipped (Some c)); cbn [negb andb];
    [intros H; injection H as <-; cbn [snd]; rewrite app_nil_r; reflexivity|].
  destruct (rate_truthy (rate_or (li_gst_rate it) (li_tax_rate it))); cbn [andb];
    [|intros H; injection H as <-; cbn [snd]; rewrite app_nil_r; reflexivity].
  unfold compare_rate. rewrite verify_code_success_valid.
  destruct (is_valid (verify_code api_hsn api_sac c)) eqn:Ev; cbn [andb negb].
  - destruct (gst_rates (verify_code api_hsn api_sac c)) as [rates|]; [|discriminate].
    destruct (rate_to_float float_of_str _) as [x|]; [|discriminate].
    intros H. injection H as <-. cbn [snd cr_actual_rate cr_match is_Some_b andb].
    destruct (PrimFloat.ltb _ _); cbn [negb].
    + rewrite app_nil_r. reflexivity.
    + rewrite map_app. cbn [map item hsn_code GstVerifier.or_default].
      destruct (li_description it); reflexivity.
  - intros H. injection H as <-. cbn [snd].
    destruct (rate_to_float float_of_str _); cbn [cr_actual_rate is_Some_b andb];
      rewrite app_nil_r; reflexivity.
Qed.

Lemma line_items_loop_mismatch (items : list line_item) :
  forall acc acc',
    line_items_loop float_of_str api_hsn api_sac acc items = Some acc' ->
    map (fun m => (item m, hsn_code m)) (snd acc') =
    map (fun m => (item m, hsn_code m)) (snd acc) ++
    map (fun it => (GstVerifier.or_default (li_description it) "Unknown",
                    GstVerifier.or_default (code_or (li_hsn_code it) (li_hsn_sac_code it))
                      EmptyString))
        (List.filter (mismatched float_of_str api_hsn api_sac) items).
Proof.
  induction items as [|it rest IH]; intros acc acc' H; cbn [line_items_loop] in H.
  - injection H as <-. cbn. rewrite app_nil_r. reflexivity.
  - destruct (line_item_step float_of_str api_hsn api_sac acc it) as [acc1|] eqn:E1;
      [|discriminate].
    rewrite (IH acc1 acc' H), (line_item_step_mismatch acc acc1 it E1), <- app_assoc.
    cbn [List.filter]. destruct (mismatched float_of_str api_hsn api_sac it); reflexivity.
Qed.

(** X27. When [verify_with_line_items] returns, its rate mismatches are,
    in order, the line items for which [compare_rate], given the code and
    the rate of the item, finds the rate of the code and no match, among the
    items whose code is verified and whose rate is a true value; a line item
    whose rates are absent or 0 is never reported, whatever the rate of its
    code. *)
Theorem rate_mismatches_are_compare_rate (items : list line_item) (r : line_items_report) :
  verify_with_line_items float_of_str api_hsn api_sac items = Some r ->
  map (fun m => (item m, hsn_code m)) (rate_mismatches r) =
    map (fun it => (GstVerifier.or_default (li_description it) "Unknown",
                    GstVerifier.or_default (code_or (li_hsn_code it) (li_hsn_sac_code it))
                      EmptyString))
        (List.filter (mismatched float_of_str api_hsn api_sac) items) /\
  rate_mismatch_count r =
    Z.of_nat (length (List.filter (mismatched float_of_str api_hsn api_sac) items)) /\
  (forall it,
     In (li_gst_rate it) [NoRate; RateNumber 0%float] ->
     In (li_tax_rate it) [NoRate; RateNumber 0%float] ->
     mismatched float_of_str api_hsn api_sac it = false).
Proof.
  intros Hr. unfold verify_with_line_items in Hr.
  destruct (line_items_loop float_of_str api_hsn api_sac ([], []) items)
    as [[results mismatches]|] eqn:El; [|discriminate].
  injection Hr as <-. cbn [rate_mismatches rate_mismatch_count].
  pose proof (line_items_loop_mismatch items _ _ El) as Hm. cbn [snd map app] in Hm.
  split; [exact Hm|]. split.
  - apply (f_equal (@length _)) in Hm. rewrite !length_map in Hm. rewrite Hm. reflexivity.
  - intros it Hg Ht. unfold mismatched.
    destruct (code_or (li_hsn_code it) (li_hsn_sac_code it)) as [c|]; [|reflexivity].
    assert (Hf : rate_truthy (rate_or (li_gst_rate it) (li_tax_rate it)) = false).
    { cbn [In] in Hg, Ht.
      destruct Hg as [<- | [<- | []]]; destruct Ht as [<- | [<- | []]]; reflexivity. }
    rewrite Hf, andb_false_r. reflexivity.
Qed.

End RateComparison.

Lemma rate_mismatches_are_compare_rate_witness :
  exists r,
    HsnSacVerifier.verify_with_line_items HsnSamples.float_of_str HsnSamples.api_hsn
      HsnSamples.api_sac HsnSamples.line_items = Some r /\
    HsnSacVerifier.rate_mismatch_count r = 1%Z /\
    map HsnSacVerifier.li_gst_rate
        (List.filter (HsnSacVerifier.mismatched HsnSamples.float_of_str HsnSamples.api_hsn
                        HsnSamples.api_sac) HsnSamples.line_items) =
      [HsnSacVerifier.RateNumber 12%float].
Proof.
  destruct (HsnSacVerifier.verify_with_line_items HsnSamples.float_of_str HsnSamples.api_hsn
              HsnSamples.api_sac HsnSamples.line_items) as [r|] eqn:E.
  - exists r. split; [reflexivity|].
    destruct (rate_mismatches_are_compare_rate HsnSamples.float_of_str HsnSamples.api_hsn
                HsnSamples.api_sac HsnSamples.line_items r E) as (_ & Hc & _).
    split; [rewrite Hc; vm_compute; reflexivity | vm_compute; reflexivity].
  - exfalso. vm_compute in E. discriminate E.
Defined.


(** ** database.py: when the trend query raises *)

(** The loop raises when the day after the end is out of the calendar. *)
Lemma fill_dates_overflow (t : gmap Z trend) (end_date : Z) (n : nat) :
  (datetime_max < end_date + day_us)%Z ->
  forall current_date : Z,
    current_date = (end_date - Z.of_nat n * day_us)%Z ->
    fill_dates t end_date current_date = None.
Proof.
  intros Hmax.
  assert (HD : (0 < day_us)%Z) by (unfold day_us; lia).
  induction n as [|n IH]; intros c Hc; rewrite fill_dates_unfold.
  - assert (c = end_date) as -> by lia. rewrite Z.leb_refl.
    unfold add_days. replace (end_date + 1 * day_us)%Z with (end_date + day_us)%Z by ring.
    destruct (Z.leb_spec (end_date + day_us) datetime_max); [lia|].
    rewrite andb_false_r. reflexivity.
  - destruct (Z.leb_spec c end_date) as [H|H]; [|lia].
    rewrite (IH (c + day_us)%Z) by lia.
    destruct (add_days c 1); reflexivity.
Qed.

(** X28. For a current instant in the calendar, [get_anomaly_trends] raises
    exactly when the start of the range, [days] days before now, is out of
    the calendar, or when [days] is at least 0 and the day after now is out
    of it. With a negative number of days whose start is in the calendar it
    returns the empty list. *)
Theorem anomaly_trends_raises (d : db) (now days : Z) :
  (0 <= now <= datetime_max)%Z ->
  (get_anomaly_trends d now days = None <->
   (now - days * day_us < 0)%Z \/ (datetime_max < now - days * day_us)%Z \/
   ((0 <= days)%Z /\ (datetime_max < now + day_us)%Z)) /\
  ((days < 0)%Z -> (now - days * day_us <= datetime_max)%Z ->
   get_anomaly_trends d now days = Some []).
Proof.
  intros Hnow.
  assert (HD : (0 < day_us)%Z) by (unfold day_us; lia).
  unfold get_anomaly_trends, add_days.
  replace (now + - days * day_us)%Z with (now - days * day_us)%Z by ring.
  destruct (Z.leb_spec 0 (now - days * day_us)) as [Hlo|Hlo]; cbn [andb];
    [|split; [split; [intros _; left; exact Hlo | reflexivity] | intros; nia]].
  destruct (Z.leb_spec (now - days * day_us) datetime_max) as [Hhi|Hhi];
    [|split; [split; [intros _; right; left; exact Hhi | reflexivity] | intros; lia]].
  set (t := fold_left add_group _ ∅).
  destruct (Z_lt_le_dec days 0) as [Hneg|Hpos].
  - assert (E : fill_dates t now (now - days * day_us) = Some []).
    { rewrite fill_dates_unfold.
      destruct (Z.leb_spec (now - days * day_us) now); [nia | reflexivity]. }
    rewrite E. split; [|reflexivity].
    split; [discriminate | intros [H | [H | [H _]]]; lia].
  - split; [|intros; lia].
    destruct (Z_le_gt_dec (now + day_us) datetime_max) as [Hend|Hend].
    + rewrite (fill_dates_run t now (Z.to_nat days) Hend) by lia.
      split; [discriminate | intros [H | [H | [_ H]]]; lia].
    + rewrite (fill_dates_overflow t now (Z.to_nat days)) by lia.
      split; [intros _; right; right; split; lia | reflexivity].
Qed.

Lemma anomaly_trends_raises_witness :
  get_anomaly_trends DbSamples.checked_store (DbSamples.day 738000) (-2) = Some [] /\
  get_anomaly_trends DbSamples.checked_store (DbSamples.day 738000) 738001 = None /\
  get_anomaly_trends DbSamples.checked_store datetime_max 1 = None.
Proof.
  assert (H1 : (0 <= DbSamples.day 738000 <= datetime_max)%Z) by (vm_compute; split; discriminate).
  assert (H2 : (0 <= datetime_max <= datetime_max)%Z) by (vm_compute; split; discriminate).
  split; [|split].
  - apply (proj2 (anomaly_trends_raises DbSamples.checked_store (DbSamples.day 738000) (-2) H1));
      [lia | vm_compute; discriminate].
  - apply (proj1 (anomaly_trends_raises DbSamples.checked_store (DbSamples.day 738000) 738001 H1)).
    left. vm_compute. reflexivity.
  - apply (proj1 (anomaly_trends_raises DbSamples.checked_store datetime_max 1 H2)).
    right. right. split; [lia | vm_compute; reflexivity].
Defined.


(** ** fintel_api_fixed.py: the vendor row of an upload *)

Section UploadVendor.
Variable gst_api : string -> Http.outcome GstVerifier.gst_api_body.
Variables api_hsn api_sac : string -> Http.outcome HsnSacVerifier.tax_body.
Variable float_of_str : string -> option float.
Variable float_mod : float -> float -> float.
Variable int_digits : float -> option Z.
Variable to_datetime : string -> option (Z * Z * Z).
Variable predict : list (Api.feature float) -> Api.ml_result float.
Variable extract_enhanced_invoice_data : string -> Api.enhanced_data float.
Variable message : HsnSacVerifier.hsn_error -> string.

(** X29. A successful upload changes the vendor collection in one row at
    most, the row of the first GST number the OCR stage kept: the row is
    created with a count of 1, or its count grows by 1, and it takes the
    vendor name of the invoice. No other row changes, and an upload without
    a GST number leaves the collection as it was. *)
Theorem upload_vendor_row (d d' : db) (pages : list (option GeminiOcr.extracted_data))
  (r : GeminiOcr.ocr_result) (now later : Z) (resp : Upload.response) :
  GeminiOcr.process_invoice float_of_str pages = GeminiOcr.Extracted r ->
  Upload.upload_invoice_complete gst_api api_hsn api_sac float_of_str float_mod int_digits
    to_datetime predict extract_enhanced_invoice_data message
    d (GeminiOcr.Extracted r) now later = (d', Some resp) ->
  match GeminiOcr.sd_gst_numbers (GeminiOcr.structured r) with
  | [] => vendors d' = vendors d
  | g :: _ =>
      (exists row,
         vendors d' !! g = Some row /\
         totalInvoices row =
           match vendors d !! g with
           | Some old => (totalInvoices old + 1)%Z
           | None => 1%Z
           end /\
         v_vendorName row = GeminiOcr.sd_vendor_name (GeminiOcr.structured r)) /\
      (forall g', g' <> g -> vendors d' !! g' = vendors d !! g')
  end.
Proof.
  intros Hocr Hup.
  destruct (process_invoice_extracted float_of_str pages r Hocr) as (_ & raw & Hraw).
  destruct (upload_inversion gst_api api_hsn api_sac float_of_str float_mod int_digits
              to_datetime predict extract_enhanced_invoice_data message
              d d' r now later resp Hup)
    as (text & storage & inv & hsn & lv & _ & _ & Hsd & _ & _ & Hvn & Hg & _).
  destruct (store_and_detect_frame d d' storage now later _ Hsd) as (_ & _ & Hv & _).
  rewrite Hv, store_invoice_vendors, Hg, Hvn.
  destruct (GeminiOcr.sd_gst_numbers (GeminiOcr.structured r)) as [|g rest] eqn:En;
    [reflexivity|].
  cbn [head].
  assert (Hlen : String.length g = 15%nat).
  { assert (Hin : In g (GeminiOcr.valid_gst_numbers raw)) by (rewrite <- Hraw; left; reflexivity).
    apply valid_gst_numbers_In in Hin. destruct Hin as (_ & _ & _ & Hl). exact Hl. }
  assert (Hkeep : negb (truthy g) || String.eqb g "Unknown" = false).
  { rewrite (truthy_of_length g 14 Hlen).
    destruct (String.eqb_spec g "Unknown") as [->|_]; [discriminate Hlen | reflexivity]. }
  rewrite Hkeep.
  destruct (vendors d !! g) as [old|] eqn:Eo.
  - split.
    + eexists. rewrite lookup_insert_eq. split; [reflexivity|]. split; reflexivity.
    + intros g' Hne. apply lookup_insert_ne. congruence.
  - split.
    + eexists. rewrite lookup_insert_eq. split; [reflexivity|]. split; reflexivity.
    + intros g' Hne. apply lookup_insert_ne. congruence.
Qed.

End UploadVendor.

Lemma upload_vendor_row_witness :
  exists d' row,
    fst UploadSamples.run = d' /\
    vendors d' !! "24ABYFM2874M1ZD" = Some row /\
    totalInvoices row = 1%Z /\
    v_vendorName row = Some "Acme Traders".
Proof.
  destruct sample_run_succeeds as (d' & resp & E).
  pose proof (upload_vendor_row UploadSamples.gst_api HsnSamples.api_hsn HsnSamples.api_sac
                HsnSamples.float_of_str UploadSamples.float_mod UploadSamples.int_digits
                UploadSamples.to_datetime UploadSamples.predict
                UploadSamples.extract_enhanced_invoice_data UploadSamples.message
                empty_db d' [None; Some UploadSamples.page] UploadSamples.ocr_result 1 2 resp
                sample_page_processed E) as H.
  cbn [GeminiOcr.sd_gst_numbers GeminiOcr.structured UploadSamples.ocr_result] in H.
  destruct H as ((row & Hrow & Hn & Hv) & _).
  exists d', row. rewrite E. split; [reflexivity|]. split; [exact Hrow|].
  split; [exact Hn | exact Hv].
Defined.


(** ** fintel_api_fixed.py: the format check of the compliance run *)

Lemma is_newline (c : ascii) : is_char "010"%char c = true -> c = "010"%char.
Proof.
  destruct c as [[] [] [] [] [] [] [] []]; vm_compute; intros H; try discriminate H; reflexivity.
Qed.

(** X30. [validate_gst_number] accepts exactly the strings of the 15
    characters of the pattern (2 digits, 5 uppercase letters, 4 digits, 1
    uppercase letter, 1 of 1-9 and A-Z, the letter Z, 1 digit or uppercase
    letter) and those strings followed by one newline; nothing is stripped
    or put in uppercase before the test. The status is "active" and the
    format is reported valid exactly for the strings accepted. *)
Theorem validate_gst_number_accepts (s : string) :
  let v := Api.validate_gst_number s in
  (Api.valid v = true <->
   GstVerifier.code_canonical_gst s = true \/
   exists g, s = String.append g (String "010"%char EmptyString) /\
             GstVerifier.code_canonical_gst g = true) /\
  Api.format_valid v = Api.valid v /\
  (Api.status v = "active" <-> Api.valid v = true).
Proof.
  cbv zeta. unfold Api.validate_gst_number.
  change Api.gst_pattern with GstVerifier.gst_pattern.
  split.
  - split.
    + destruct (re_match_classes GstVerifier.gst_pattern s) eqn:E; [|discriminate].
      intros _. unfold GstVerifier.gst_pattern in E. cbn [repeat app] in E.
      do 15 (destruct s as [|? s]; cbn [re_match_classes] in E;
             [rewrite ?andb_false_r in E; discriminate E|]).
      repeat (apply andb_prop in E; let H := fresh "H" in destruct E as [H E]).
      destruct s as [|c s].
      * left. unfold GstVerifier.code_canonical_gst, GstVerifier.spec_alnum.
        cbn [list_ascii_of_string].
        repeat match goal with H : _ = true |- _ => rewrite H; clear H end. reflexivity.
      * destruct s as [|? ?]; [|discriminate E].
        apply is_newline in E. subst c. right.
        eexists (String _ (String _ (String _ (String _ (String _ (String _ (String _
                  (String _ (String _ (String _ (String _ (String _ (String _ (String _
                  (String _ EmptyString))))))))))))))).
        split; [reflexivity|].
        unfold GstVerifier.code_canonical_gst, GstVerifier.spec_alnum.
        cbn [list_ascii_of_string].
        repeat match goal with H : _ = true |- _ => rewrite H; clear H end. reflexivity.
    + intros [Hc | (g & -> & Hc)]; destruct (canonical_shape _ Hc) as (_ & Hl & Hre).
      * rewrite Hre. reflexivity.
      * clear Hc. do 16 (destruct g as [|? g]; try discriminate Hl).
        unfold GstVerifier.gst_pattern in *. cbn [repeat app re_match_classes] in Hre.
        cbv [String.append]. cbn [repeat app re_match_classes].
        repeat (apply andb_prop in Hre; let H := fresh "H" in destruct Hre as [H Hre]).
        repeat match goal with H : _ = true |- _ => rewrite H; clear H end. reflexivity.
  - destruct (re_match_classes GstVerifier.gst_pattern s); cbn [Api.valid Api.format_valid Api.status].
    + split; [reflexivity | split; reflexivity].
    + split; [reflexivity | split; discriminate].
Qed.
